(** * bioimageio.core: pipeline assembly, model testing, prediction and RDF lookup

    A shallow embedding of the parts of [bioimageio.core] that assemble the
    pre- and postprocessing operators ([proc_setup.py]), test a model
    description ([_resource_tests.py]), wrap ONNX Runtime
    ([model_adapters/_onnx_model_adapter.py]), run a prediction
    ([prediction.py]), locate the resource description file of a package
    and write a package ([io.py]) and convert weights to ONNX
    ([weight_converter/torch/onnx.py]), and of the fields of [pybio.spec]
    that read an importable source and the axes of a tensor ([fields.py]).

    Python exceptions are values of [exn]; a call that may raise returns a
    [result].  Python sets and dicts are stdpp's [gset] and [gmap]. *)

From Stdlib Require Import String Ascii ZArith List Lia.
From Stdlib Require Import DecimalString.
From stdpp Require Import base decidable option list strings countable gmap sets.

Local Open Scope string_scope.
Local Open Scope list_scope.
Local Open Scope stdpp_scope.

(** ** Python exceptions and results *)

Module Py.

(** The exception classes the embedded code raises or catches by name.
    Every value of [exn] is an instance of Python's [Exception]. *)
Inductive exn_class : Type :=
| AssertionError
| ValueError
| TypeError
| KeyError
| ImportError
| OtherException (name : string).

(** [exn_msg e] is [str(e)], [exn_tb e] is
    [traceback.format_tb(e.__traceback__)]; the traceback of an exception
    that the embedded code raises itself is left empty. *)
Record exn : Type := Exn {
  exn_cls : exn_class;
  exn_msg : string;
  exn_tb : list string
}.

Inductive result (A : Type) : Type :=
| Ok (a : A)
| Raise (e : exn).
Arguments Ok {A} a.
Arguments Raise {A} e.

Definition rbind {A B} (r : result A) (k : A -> result B) : result B :=
  match r with
  | Ok a => k a
  | Raise e => Raise e
  end.

(** [str(n)] for a non-negative Python int. *)
Definition str_of_nat (n : nat) : string :=
  NilEmpty.string_of_uint (Nat.to_uint n).

(** [assert cond]: raises [AssertionError] with an empty message. *)
Definition py_assert (cond : bool) : result unit :=
  if cond then Ok tt else Raise (Exn AssertionError "" []).

#[global] Instance exn_class_eq_dec : EqDecision exn_class.
Proof. solve_decision. Defined.

#[global] Instance exn_eq_dec : EqDecision exn.
Proof. solve_decision. Defined.

(** [error or ""] for [error : Optional[str]]. *)
Definition or_empty (error : option string) : string :=
  match error with
  | Some s => s
  | None => ""
  end.

(** Truth value of an [Optional[str]]: neither [None] nor empty. *)
Definition truthy_str (error : option string) : bool :=
  match error with
  | Some s => negb (String.eqb s "")
  | None => false
  end.

Arguments truthy_str : simpl never.

(** The line feed of a Python string literal. *)
Definition nl : string := String (ascii_of_nat 10) EmptyString.

(** Code with side effects runs in a state [St] and returns or raises:
    the state reached when an exception is raised is kept, as the effects
    before it have happened. *)
Definition M (St A : Type) : Type := St -> result A * St.

Definition raise {St A} (e : exn) : M St A := fun s => (Raise e, s).

Definition lift {St A} (r : result A) : M St A := fun s => (r, s).

(** [try: m  except Exception as e: handler e] *)
Definition try_except {St A} (m : M St A) (handler : exn -> M St A) : M St A :=
  fun s =>
    match m s with
    | (Ok a, s') => (Ok a, s')
    | (Raise e, s') => handler e s'
    end.

End Py.
Import Py.

(** [result] and [M St] are monads; [x ← r; k] is stdpp's notation for
    their bind. *)
#[global] Instance result_ret : MRet result := fun A a => Ok a.
#[global] Instance result_bind : MBind result := fun A B k r => rbind r k.
#[global] Instance M_ret {St} : MRet (M St) := fun A a s => (Ok a, s).
#[global] Instance M_bind {St} : MBind (M St) :=
  fun A B k m s =>
    match m s with
    | (Ok a, s') => k a s'
    | (Raise e, s') => (Raise e, s')
    end.

(** A list comprehension [[f x for x in xs]] whose elements may raise is
    stdpp's [mapM f xs]; a [for] loop that updates one variable is: *)
Fixpoint foldlM {St A B} (f : B -> A -> M St B) (b : B) (xs : list A) : M St B :=
  match xs with
  | [] => mret b
  | x :: xs' => b' ← f b x; foldlM f b' xs'
  end.

(** ** proc_setup.py: assembling the pre- and postprocessing operators *)

Module ProcSetup.

Definition TensorId : Type := string.

(** Modelled from the spec: [stat_measures.py] is not among the sources.
    A measure is either computed per sample or over a dataset, and carries
    the tensor it targets, the axes it reduces over and the kind of
    statistic.  Measures are compared structurally, so two measures with
    the same fields are the same key of a set or dict.  The level of a
    quantile (a Python float) is given in thousandths. *)
Inductive MeasureScope : Type := SampleScope | DatasetScope.

Inductive StatKind : Type :=
| Mean
| Std
| Quantile (q : N)
| Min
| Max.

Record Measure : Type := mkMeasure {
  scope : MeasureScope;
  target : TensorId;
  axes : option (list string);
  kind : StatKind
}.

#[global] Instance MeasureScope_eq_dec : EqDecision MeasureScope.
Proof. solve_decision. Defined.

#[global] Instance StatKind_eq_dec : EqDecision StatKind.
Proof. solve_decision. Defined.

#[global] Instance Measure_eq_dec : EqDecision Measure.
Proof. solve_decision. Defined.

Definition StatKind_code (k : StatKind) : N + N :=
  match k with
  | Mean => inl 0%N
  | Std => inl 1%N
  | Min => inl 2%N
  | Max => inl 3%N
  | Quantile q => inr q
  end.

Definition StatKind_decode (c : N + N) : StatKind :=
  match c with
  | inl 0%N => Mean
  | inl 1%N => Std
  | inl 2%N => Min
  | inl _ => Max
  | inr q => Quantile q
  end.

#[global] Instance StatKind_countable : Countable StatKind.
Proof.
  apply (inj_countable' StatKind_code StatKind_decode).
  intros []; reflexivity.
Defined.

#[global] Instance MeasureScope_countable : Countable MeasureScope.
Proof.
  apply (inj_countable'
           (fun s => match s with SampleScope => false | DatasetScope => true end)
           (fun b : bool => if b then DatasetScope else SampleScope)).
  intros []; reflexivity.
Defined.

#[global] Instance Measure_countable : Countable Measure.
Proof.
  apply (inj_countable'
           (fun m => (scope m, target m, axes m, kind m))
           (fun t => match t with (s, i, a, k) => mkMeasure s i a k end)).
  intros []; reflexivity.
Defined.

(** The value of a measure (a float or an array), a sample, a data type
    name and the description of one declared processing step: the
    assembler passes them around and never looks inside. *)
Class Types : Type := {
  MeasureValue : Type;
  Sample : Type;
  DType : Type;
  ProcDescr : Type
}.

Section Setup.

Context `{Types}.

Abbreviation Stats := (gmap Measure MeasureValue).

(** *** The model description, as far as the assembler reads it *)

Record InputTensorDescr_v0_4 : Type := {
  in4_name : string;
  in4_data_type : DType;
  in4_preprocessing : list ProcDescr
}.

Record OutputTensorDescr_v0_4 : Type := {
  out4_name : string;
  out4_data_type : DType;
  out4_postprocessing : list ProcDescr
}.

Record InputTensorDescr_v0_5 : Type := {
  in5_id : TensorId;
  in5_preprocessing : list ProcDescr
}.

Record OutputTensorDescr_v0_5 : Type := {
  out5_id : TensorId;
  out5_postprocessing : list ProcDescr
}.

Record ModelDescr_v0_4 : Type := {
  inputs4 : list InputTensorDescr_v0_4;
  outputs4 : list OutputTensorDescr_v0_4
}.

Record ModelDescr_v0_5 : Type := {
  inputs5 : list InputTensorDescr_v0_5;
  outputs5 : list OutputTensorDescr_v0_5
}.

Inductive AnyModelDescr : Type :=
| V0_4 (m : ModelDescr_v0_4)
| V0_5 (m : ModelDescr_v0_5).

(** *** StatsCalculator *)

(** Modelled from the spec: [stat_calculators.py] is not among the
    sources.  A calculator is created with the set of required measures
    and, optionally, already known values; [update] feeds it one sample;
    [finalize] turns what it holds into values.  The record keeps the
    constructor arguments and the samples fed so far, in order. *)
Record StatsCalculatorT : Type := mkStatsCalculator {
  measures : gset Measure;
  initial_dataset_measures : option Stats;
  observed : list Sample
}.

Definition StatsCalculator (ms : gset Measure) (initial : option Stats)
  : StatsCalculatorT :=
  mkStatsCalculator ms initial [].

Definition update (calc : StatsCalculatorT) (sample : Sample) : StatsCalculatorT :=
  mkStatsCalculator (measures calc) (initial_dataset_measures calc)
                    (observed calc ++ [sample]).

(** *** Processing operators *)

(** Modelled from the spec: [proc_ops.py] is not among the sources.  The
    three operators the assembler builds itself are constructors; every
    other operator is what the conversion of a declared step returns. *)
Inductive Processing : Type :=
| EnsureDtype (input output : TensorId) (dtype : DType)
| UpdateStats (stats_calculator : StatsCalculatorT)
              (keep_updating_initial_dataset_stats : bool)
| AddKnownDatasetStats (dataset_stats : Stats)
| Transform (tensor : TensorId) (step : ProcDescr).

(** Modelled from the spec: the numeric aggregation of [finalize], the
    conversions of declared steps and the measures an operator requires
    live in files that are not among the sources; the assembler is
    verified for every implementation of them. *)
Class ProcOps : Type := {
  finalize : StatsCalculatorT -> result Stats;
  preproc_v4_to_processing : InputTensorDescr_v0_4 -> ProcDescr -> Processing;
  postproc_v4_to_processing : OutputTensorDescr_v0_4 -> ProcDescr -> Processing;
  preproc_v5_to_processing : InputTensorDescr_v0_5 -> ProcDescr -> Processing;
  postproc_v5_to_processing : OutputTensorDescr_v0_5 -> ProcDescr -> Processing;
  required_measures : Processing -> gset Measure
}.

Context `{ProcOps}.

Record PreAndPostprocessing : Type := mkPreAndPost {
  pre : list Processing;
  post : list Processing
}.

Record _SetupProcessing : Type := mkSetup {
  setup_pre : list Processing;
  setup_post : list Processing;
  pre_measures : gset Measure;
  post_measures : gset Measure
}.

(** [{m for proc in procs for m in proc.required_measures}] *)
Definition measures_of (procs : list Processing) : gset Measure :=
  foldl (fun acc proc => acc ∪ required_measures proc) ∅ procs.

(** The inner loop [for proc_d in ...: procs.append(conv(t_descr, proc_d))]. *)
Definition append_steps {T} (conv : T -> ProcDescr -> Processing) (t_descr : T)
           (steps : list ProcDescr) (procs : list Processing) : list Processing :=
  foldl (fun procs proc_d => procs ++ [conv t_descr proc_d]) procs steps.

Definition _prepare_v4_preprocs (tensor_descrs : list InputTensorDescr_v0_4)
  : list Processing * gset Measure :=
  let procs :=
    foldl (fun procs t_descr =>
             let member_id : TensorId := in4_name t_descr in
             let procs := procs ++ [EnsureDtype member_id member_id
                                                (in4_data_type t_descr)] in
             append_steps preproc_v4_to_processing t_descr
                          (in4_preprocessing t_descr) procs)
          [] tensor_descrs in
  (procs, measures_of procs).

Definition _prepare_v4_postprocs (tensor_descrs : list OutputTensorDescr_v0_4)
  : list Processing * gset Measure :=
  let procs :=
    foldl (fun procs t_descr =>
             let member_id : TensorId := out4_name t_descr in
             let procs := procs ++ [EnsureDtype member_id member_id
                                                (out4_data_type t_descr)] in
             append_steps postproc_v4_to_processing t_descr
                          (out4_postprocessing t_descr) procs)
          [] tensor_descrs in
  (procs, measures_of procs).

Definition _prepare_v5_preprocs (tensor_descrs : list InputTensorDescr_v0_5)
  : list Processing * gset Measure :=
  let procs :=
    foldl (fun procs t_descr =>
             append_steps preproc_v5_to_processing t_descr
                          (in5_preprocessing t_descr) procs)
          [] tensor_descrs in
  (procs, measures_of procs).

Definition _prepare_v5_postprocs (tensor_descrs : list OutputTensorDescr_v0_5)
  : list Processing * gset Measure :=
  let procs :=
    foldl (fun procs t_descr =>
             append_steps postproc_v5_to_processing t_descr
                          (out5_postprocessing t_descr) procs)
          [] tensor_descrs in
  (procs, measures_of procs).

Definition _prepare_setup_pre_and_postprocessing (model : AnyModelDescr)
  : _SetupProcessing :=
  match model with
  | V0_4 m =>
      let '(pre, pre_measures) := _prepare_v4_preprocs (inputs4 m) in
      let '(post, post_measures) := _prepare_v4_postprocs (outputs4 m) in
      mkSetup pre post pre_measures post_measures
  | V0_5 m =>
      let '(pre, pre_measures) := _prepare_v5_preprocs (inputs5 m) in
      let '(post, post_measures) := _prepare_v5_postprocs (outputs5 m) in
      mkSetup pre post pre_measures post_measures
  end.

(** [fixed_dataset_stats is None or m not in fixed_dataset_stats] *)
Definition not_fixed (fixed_dataset_stats : option Stats) (m : Measure) : Prop :=
  match fixed_dataset_stats with
  | None => True
  | Some fixed => fixed !! m = None
  end.

#[global] Instance not_fixed_dec fixed m : Decision (not_fixed fixed m).
Proof. destruct fixed; simpl; apply _. Defined.

Definition missing_dataset_stats (prep_meas post_meas : gset Measure)
           (fixed_dataset_stats : option Stats) : gset Measure :=
  filter (not_fixed fixed_dataset_stats) (prep_meas ∪ post_meas).

(** The calculator of the initial pass, after every sample of the dataset
    has been fed to it; there is none when no measure is missing. *)
Definition initial_stats_calc (missing : gset Measure)
           (dataset_for_initial_statistics : list Sample)
  : option StatsCalculatorT :=
  if decide (missing = ∅) then None
  else Some (foldl update (StatsCalculator missing None)
                   dataset_for_initial_statistics).

Definition initial_stats_of (missing : gset Measure)
           (dataset_for_initial_statistics : list Sample) : result Stats :=
  match initial_stats_calc missing dataset_for_initial_statistics with
  | Some calc => finalize calc
  | None => Ok ∅
  end.

(** Truth value of [fixed_dataset_stats]: neither [None] nor empty. *)
Definition truthy_stats (fixed_dataset_stats : option Stats) : option Stats :=
  match fixed_dataset_stats with
  | Some fixed => if decide (fixed = ∅) then None else Some fixed
  | None => None
  end.

Definition setup_pre_and_postprocessing (model : AnyModelDescr)
           (dataset_for_initial_statistics : list Sample)
           (keep_updating_initial_dataset_stats : bool)
           (fixed_dataset_stats : option Stats)
  : result PreAndPostprocessing :=
  let s := _prepare_setup_pre_and_postprocessing model in
  let prep := setup_pre s in
  let post := setup_post s in
  let prep_meas := pre_measures s in
  let post_meas := post_measures s in
  let missing := missing_dataset_stats prep_meas post_meas fixed_dataset_stats in
  initial_stats ← initial_stats_of missing dataset_for_initial_statistics;
  let prep :=
    UpdateStats (StatsCalculator prep_meas (Some initial_stats))
                keep_updating_initial_dataset_stats :: prep in
  let post :=
    if decide (post_meas = ∅) then post
    else UpdateStats (StatsCalculator post_meas (Some initial_stats))
                     keep_updating_initial_dataset_stats :: post in
  match truthy_stats fixed_dataset_stats with
  | Some fixed =>
      Ok (mkPreAndPost (AddKnownDatasetStats fixed :: prep)
                       (AddKnownDatasetStats fixed :: post))
  | None => Ok (mkPreAndPost prep post)
  end.

(** *** What the assembled lists are compared with *)

(** The operators of one tensor: its declared steps in their order, after
    the [EnsureDtype] of the tensor in format 0.4. *)
Definition ops_of_input_v0_4 (t : InputTensorDescr_v0_4) : list Processing :=
  EnsureDtype (in4_name t) (in4_name t) (in4_data_type t)
    :: map (preproc_v4_to_processing t) (in4_preprocessing t).

Definition ops_of_output_v0_4 (t : OutputTensorDescr_v0_4) : list Processing :=
  EnsureDtype (out4_name t) (out4_name t) (out4_data_type t)
    :: map (postproc_v4_to_processing t) (out4_postprocessing t).

Definition ops_of_input_v0_5 (t : InputTensorDescr_v0_5) : list Processing :=
  map (preproc_v5_to_processing t) (in5_preprocessing t).

Definition ops_of_output_v0_5 (t : OutputTensorDescr_v0_5) : list Processing :=
  map (postproc_v5_to_processing t) (out5_postprocessing t).

(** The operators of all inputs, and of all outputs, tensor after tensor. *)
Definition declared_pre (model : AnyModelDescr) : list Processing :=
  match model with
  | V0_4 m => flat_map ops_of_input_v0_4 (inputs4 m)
  | V0_5 m => flat_map ops_of_input_v0_5 (inputs5 m)
  end.

Definition declared_post (model : AnyModelDescr) : list Processing :=
  match model with
  | V0_4 m => flat_map ops_of_output_v0_4 (outputs4 m)
  | V0_5 m => flat_map ops_of_output_v0_5 (outputs5 m)
  end.

(** The measures that the initial pass has to compute for a call. *)
Definition missing_of (model : AnyModelDescr) (fixed_dataset_stats : option Stats)
  : gset Measure :=
  let s := _prepare_setup_pre_and_postprocessing model in
  missing_dataset_stats (pre_measures s) (post_measures s) fixed_dataset_stats.

(** [AddKnownDatasetStats], present when fixed statistics are given. *)
Definition known_stats_ops (fixed_dataset_stats : option Stats) : list Processing :=
  match truthy_stats fixed_dataset_stats with
  | Some fixed => [AddKnownDatasetStats fixed]
  | None => []
  end.

(** A list that is an [UpdateStats] followed by the given operators. *)
Definition UpdateStats_then (declared : list Processing) (keep : bool)
           (procs : list Processing) : Prop :=
  ∃ calc, procs = UpdateStats calc keep :: declared.

(** Some [EnsureDtype] of the tensor [tid] is among the operators. *)
Definition normalizes_dtype (tid : TensorId) (procs : list Processing) : Prop :=
  ∃ dtype, EnsureDtype tid tid dtype ∈ procs.

(** Every calculator among the operators that requires the measure [m]
    was given the value [v] for it, so that its [finalize] can return [v]
    as it is. *)
Definition seeded_with (procs : list Processing) (m : Measure) (v : MeasureValue)
  : Prop :=
  ∀ calc keep,
    UpdateStats calc keep ∈ procs →
    m ∈ measures calc →
    ∃ stats, initial_dataset_measures calc = Some stats ∧ stats !! m = Some v.

(** The measure [m] is computed by the one calculator of the initial
    pass, which has seen every sample of the dataset once, and the value
    that calculator finalizes seeds the [UpdateStats] of both lists. *)
Definition computed_once_and_shared (model : AnyModelDescr)
           (dataset : list Sample) (keep : bool)
           (fixed_dataset_stats : option Stats) (m : Measure) : Prop :=
  let s := _prepare_setup_pre_and_postprocessing model in
  ∃ calc,
    initial_stats_calc (missing_of model fixed_dataset_stats) dataset = Some calc
    ∧ count_occ Measure_eq_dec (elements (measures calc)) m = 1
    ∧ observed calc = dataset
    ∧ match finalize calc with
      | Ok stats =>
          ∃ pp, setup_pre_and_postprocessing model dataset keep fixed_dataset_stats
                = Ok pp
                ∧ UpdateStats (StatsCalculator (pre_measures s) (Some stats)) keep
                    ∈ pre pp
                ∧ UpdateStats (StatsCalculator (post_measures s) (Some stats)) keep
                    ∈ post pp
      | Raise e =>
          setup_pre_and_postprocessing model dataset keep fixed_dataset_stats
          = Raise e
      end.

End Setup.

End ProcSetup.

(** ** _resource_tests.py: testing a resource description *)

Module ResourceTests.

Definition FileSource : Type := string.
Definition WeightsFormat : Type := string.
Definition Shape : Type := list nat.

(** *** bioimageio.spec.summary *)

Inductive Status : Type := passed | failed.

Record ErrorEntry : Type := {
  loc : list string;
  msg : string;
  type : string;
  traceback : list string
}.

Record ValidationDetail : Type := {
  name : string;
  status : Status;
  errors : list ErrorEntry
}.

Record InstalledPackage : Type := {
  pkg_name : string;
  pkg_version : string
}.

Record ValidationSummary : Type := {
  details : list ValidationDetail;
  env : list InstalledPackage
}.

Definition add_detail (summary : ValidationSummary) (detail : ValidationDetail)
  : ValidationSummary :=
  {| details := details summary ++ [detail]; env := env summary |}.

Definition add_env (summary : ValidationSummary) (pkg : InstalledPackage)
  : ValidationSummary :=
  {| details := details summary; env := env summary ++ [pkg] |}.

(** *** The model descriptions, as far as the tests read them *)

Module v0_4.
Record TensorDescr : Type := { axes : list string }.
Record ModelDescr : Type := {
  test_inputs : list FileSource;
  inputs : list TensorDescr;
  test_outputs : list FileSource;
  outputs : list TensorDescr
}.
End v0_4.

Module v0_5.
Inductive AxisSize : Type :=
| FixedSize (n : nat)
| ParameterizedSize (min step : nat)
| SizeReference (tensor_id axis_id : string) (offset : Z)
| DataDependentSize.

Record Axis : Type := { id : string; size : AxisSize }.

Record TensorDescr : Type := {
  test_tensor : FileSource;
  axes : list Axis
}.

Record ModelDescr : Type := {
  inputs : list TensorDescr;
  outputs : list TensorDescr
}.
End v0_5.

Inductive AnyModelDescr : Type :=
| V0_4 (m : v0_4.ModelDescr)
| V0_5 (m : v0_5.ModelDescr).

(** A resource description: a model of one of the two format versions, or
    anything else (another resource type, or an invalid description). *)
Inductive Body : Type :=
| IsModel (model : AnyModelDescr)
| NotAModel.

Record ResourceDescr : Type := {
  rd_type : string;
  rd_format_version : string;
  body : Body;
  validation_summary : ValidationSummary
}.

Definition set_summary (rd : ResourceDescr) (summary : ValidationSummary)
  : ResourceDescr :=
  {| rd_type := rd_type rd; rd_format_version := rd_format_version rd;
     body := body rd; validation_summary := summary |}.

(** The serialized content of a description ([BioimageioYamlContent]). *)
Definition YamlContent : Type := list (string * string).

Inductive Source : Type :=
| FromDescr (rd : ResourceDescr)
| FromContent (content : YamlContent)
| FromFile (source : FileSource).

(** *** The world outside *)

(** The state of everything outside the tested code (files, the network,
    the loaded backend), numpy arrays, xarray data arrays, the outputs of
    a pipeline and the pipeline itself. *)
Class Types : Type := {
  World : Type;
  Array : Type;
  DataArray : Type;
  Output : Type;
  Pipeline : Type
}.

Section Tests.

Context `{Types}.

(** Calls that leave the tested code, in the order they were made. *)
Inductive Event : Type :=
| Warn (message : string)
| LoadDescription (source : FileSource)
| Download (source : FileSource)
| LoadArray (source : FileSource)
| CreatePipeline (devices : option (list string))
                 (weight_format : option WeightsFormat)
| Forward (inputs : list DataArray) (outcome : result (list Output))
| Exit
| Compare (res : Output) (exp : DataArray).

Record St : Type := mkSt {
  world : World;
  trace : list Event
}.

(** A call that leaves the tested code: it reads and changes the world,
    returns or raises, and is recorded. *)
Definition call {A} (ev : result A -> Event) (f : World -> result A * World)
  : M St A :=
  fun s =>
    let '(r, w) := f (world s) in
    (r, mkSt w (trace s ++ [ev r])).

(** [warnings.warn(message)] under the default filter. *)
Definition warn (message : string) : M St unit :=
  fun s => (Ok tt, mkSt (world s) (trace s ++ [Warn message])).

(** Code of other packages ([bioimageio.spec], [numpy], [xarray]) and of
    files of [bioimageio.core] that are not among the sources; the tests
    are verified for every behaviour of them.

    Modelled from the spec: the body of the loop of
    [generate_test_cases] is missing in the source; [test_case n
    test_inputs] is the one case that it yields for the size parameter
    [n], the inputs to run and the expected shape of each output. *)
Class Env : Type := {
  bioimageio_core_version : string;
  dump_description : ResourceDescr -> YamlContent;
  build_description : YamlContent -> string -> ResourceDescr;
  load_description : FileSource -> string -> World -> result ResourceDescr * World;
  load_array : FileSource -> World -> result Array * World;
  download : FileSource -> World -> result FileSource * World;
  xr_DataArray : Array -> list string -> result DataArray;
  create_prediction_pipeline :
    AnyModelDescr -> option (list string) -> option WeightsFormat ->
    World -> result Pipeline * World;
  forward : Pipeline -> list DataArray -> World -> result (list Output) * World;
  pipeline_exit : Pipeline -> World -> result unit * World;
  assert_array_almost_equal :
    Output -> DataArray -> Z -> World -> result unit * World;
  shape : Output -> result Shape;
  test_case : nat -> list DataArray -> list DataArray * list Shape;
  format_shapes : list Shape -> string;
  format_shape : Shape -> string
}.

Context {E : Env}.

(** [with create as p: body p]: the pipeline is left on every path out
    of the body, and an exception of the exit replaces the body's. *)
Definition with_pipeline {A} (create : M St Pipeline) (body : Pipeline -> M St A)
  : M St A :=
  p ← create;
  fun s =>
    let '(r, s') := body p s in
    match call (fun _ => Exit) (pipeline_exit p) s' with
    | (Ok _, s'') => (r, s'')
    | (Raise e, s'') => (Raise e, s'')
    end.

Definition load_v0_4 (sources : list FileSource) (descrs : list v0_4.TensorDescr)
  : M St (list DataArray) :=
  mapM (fun '(src, d) =>
          a ← call (fun _ => LoadArray src) (load_array src);
          lift (xr_DataArray a (v0_4.axes d)))
       (zip sources descrs).

Definition load_v0_5 (descrs : list v0_5.TensorDescr) : M St (list DataArray) :=
  mapM (fun d =>
          path ← call (fun _ => Download (v0_5.test_tensor d))
                      (download (v0_5.test_tensor d));
          a ← call (fun _ => LoadArray path) (load_array path);
          lift (xr_DataArray a (map v0_5.id (v0_5.axes d))))
       descrs.

Definition open_pipeline (model : AnyModelDescr) (devices : option (list string))
           (weight_format : option WeightsFormat) : M St Pipeline :=
  call (fun _ => CreatePipeline devices weight_format)
       (create_prediction_pipeline model devices weight_format).

(** The first statements of the [try] block of [_test_model_inference]:
    the test tensors are loaded and the inputs sent through a pipeline. *)
Definition run_test_inputs (model : AnyModelDescr)
           (weight_format : option WeightsFormat) (devices : option (list string))
  : M St (list Output * list DataArray) :=
  '(inputs, expected) ←
    match model with
    | V0_4 m =>
        inputs ← load_v0_4 (v0_4.test_inputs m) (v0_4.inputs m);
        expected ← load_v0_4 (v0_4.test_outputs m) (v0_4.outputs m);
        mret (inputs, expected)
    | V0_5 m =>
        inputs ← load_v0_5 (v0_5.inputs m);
        expected ← load_v0_5 (v0_5.outputs m);
        mret (inputs, expected)
    end;
  results ← with_pipeline (open_pipeline model devices weight_format)
              (fun prediction_pipeline =>
                 call (Forward inputs) (forward prediction_pipeline inputs));
  mret (results, expected).

Definition count_message (n_expected n_results : nat) : string :=
  "Expected " +:+ str_of_nat n_expected +:+ " outputs, but got "
              +:+ str_of_nat n_results.

(** One turn of [for res, exp in zip(results, expected)]. *)
Definition compare_output (decimal : Z) (error : option string)
           (pair : Output * DataArray) : M St (option string) :=
  let '(res, exp) := pair in
  try_except
    (_ ← call (fun _ => Compare res exp) (assert_array_almost_equal res exp decimal);
     mret error)
    (fun e =>
       match exn_cls e with
       | AssertionError =>
           mret (Some (or_empty error +:+ "Output and expected output disagree:"
                                +:+ nl +:+ " " +:+ exn_msg e))
       | _ => raise e
       end).

(** The [try] block of [_test_model_inference]; its value is [error]. *)
Definition reproduce_test_outputs (model : AnyModelDescr)
           (weight_format : option WeightsFormat) (devices : option (list string))
           (decimal : Z) : M St (option string) :=
  let error : option string := None in
  '(results, expected) ← run_test_inputs model weight_format devices;
  if decide (length results ≠ length expected) then
    mret (Some (or_empty error +:+ count_message (length expected) (length results)))
  else
    foldlM (compare_output decimal) error (zip results expected).

Definition inference_detail (error : option string) (tb : list string)
           (weight_format : option WeightsFormat) : ValidationDetail :=
  {| name := "Reproduce test outputs from test inputs";
     status := match error with None => passed | Some _ => failed end;
     errors :=
       match error with
       | None => []
       | Some e =>
           [ {| loc := match weight_format with
                       | None => ["weights"]
                       | Some wf => ["weights"; wf]
                       end;
                msg := e;
                type := "bioimageio.core";
                traceback := tb |} ]
       end |}.

(** [except Exception as e: error = str(e); tb = format_tb(...)] *)
Definition record_exception (e : exn) : M St (option string * list string) :=
  mret (Some (exn_msg e), exn_tb e).

Definition _test_model_inference (model : AnyModelDescr)
           (weight_format : option WeightsFormat) (devices : option (list string))
           (decimal : Z) (summary : ValidationSummary) : M St ValidationSummary :=
  '(error, tb) ←
    try_except
      (error ← reproduce_test_outputs model weight_format devices decimal;
       mret (error, []))
      record_exception;
  mret (add_detail summary (inference_detail error tb weight_format)).

Definition is_parameterized (a : v0_5.Axis) : bool :=
  match v0_5.size a with
  | v0_5.ParameterizedSize _ _ => true
  | _ => false
  end.

(** [any(isinstance(a.size, ParameterizedSize) for ipt in model.inputs
    for a in ipt.axes)] *)
Definition has_parameterized_input (model : v0_5.ModelDescr) : bool :=
  existsb (fun ipt => existsb is_parameterized (v0_5.axes ipt))
          (v0_5.inputs model).

Definition TestCase : Type := nat * (list DataArray * list Shape).

(** [for n in [0, 1, 2, 3]: ...] *)
Definition generate_test_cases (test_inputs : list DataArray) : list TestCase :=
  map (fun n => (n, test_case n test_inputs)) [0; 1; 2; 3].

Definition shape_message (n : nat) (exptected_output_shape : list Shape)
           (res_shape : Shape) : string :=
  "(n=" +:+ str_of_nat n +:+ ") Expected output shape "
        +:+ format_shapes exptected_output_shape
        +:+ ", but got " +:+ format_shape res_shape +:+ nl.

(** One turn of [for res, exp in zip(results, exptected_output_shape)]. *)
Definition check_shape (n : nat) (exptected_output_shape : list Shape)
           (error : option string) (pair : Output * Shape)
  : M St (option string) :=
  let '(res, exp) := pair in
  res_shape ← lift (shape res);
  if decide (res_shape ≠ exp) then
    mret (Some (or_empty error
                  +:+ shape_message n exptected_output_shape res_shape))
  else mret error.

(** The loop over the test cases, left at the first case with an error. *)
Fixpoint run_test_cases (prediction_pipeline : Pipeline) (cases : list TestCase)
         (error : option string) : M St (option string) :=
  match cases with
  | [] => mret error
  | (n, (inputs, exptected_output_shape)) :: rest =>
      results ← call (Forward inputs) (forward prediction_pipeline inputs);
      error ←
        (if decide (length results ≠ length exptected_output_shape) then
           mret (Some (or_empty error
                         +:+ count_message (length exptected_output_shape)
                                           (length results)))
         else
           foldlM (check_shape n exptected_output_shape) error
                  (zip results exptected_output_shape));
      if truthy_str error then mret error
      else run_test_cases prediction_pipeline rest error
  end.

(** The [try] block of [_test_model_inference_with_parametrized_inputs]. *)
Definition check_parametrized_shapes (model : v0_5.ModelDescr)
           (weight_format : option WeightsFormat) (devices : option (list string))
  : M St (option string) :=
  let error : option string := None in
  test_inputs ← load_v0_5 (v0_5.inputs model);
  with_pipeline (open_pipeline (V0_5 model) devices weight_format)
    (fun prediction_pipeline =>
       run_test_cases prediction_pipeline (generate_test_cases test_inputs) error).

Definition _test_model_inference_with_parametrized_inputs
           (model : v0_5.ModelDescr) (weight_format : option WeightsFormat)
           (devices : option (list string)) (summary : ValidationSummary)
  : M St ValidationSummary :=
  if negb (has_parameterized_input model) then mret summary
  else
    '(error, tb) ←
      try_except
        (error ← check_parametrized_shapes model weight_format devices;
         mret (error, []))
        record_exception;
    mret (add_detail summary (inference_detail error tb weight_format)).

Definition _test_expected_resource_type (rd : ResourceDescr) (expected_type : string)
  : ResourceDescr :=
  let has_expected_type := String.eqb (rd_type rd) expected_type in
  set_summary rd
    (add_detail (validation_summary rd)
       {| name := "Has expected resource type";
          status := if has_expected_type then passed else failed;
          errors :=
            if has_expected_type then []
            else [ {| loc := ["type"];
                      msg := "expected type " +:+ expected_type
                               +:+ ", found " +:+ rd_type rd;
                      type := "type";
                      traceback := [] |} ] |}).

(** The statements of [load_description_and_test] that follow the loading
    of [rd]. *)
Definition test_loaded_description (rd : ResourceDescr)
           (weight_format : option WeightsFormat) (devices : option (list string))
           (decimal : Z) (expected_type : option string) : M St ResourceDescr :=
  let rd :=
    set_summary rd
      (add_env (validation_summary rd)
         {| pkg_name := "bioimageio.core"; pkg_version := bioimageio_core_version |}) in
  let rd :=
    match expected_type with
    | Some t => _test_expected_resource_type rd t
    | None => rd
    end in
  match body rd with
  | IsModel model =>
      summary ← _test_model_inference model weight_format devices decimal
                  (validation_summary rd);
      summary ←
        match model with
        | V0_4 _ => mret summary
        | V0_5 m =>
            _test_model_inference_with_parametrized_inputs m weight_format devices
                                                           summary
        end;
      mret (set_summary rd summary)
  | NotAModel => mret rd
  end.

Definition load_description_and_test (source : Source) (format_version : string)
           (weight_format : option WeightsFormat) (devices : option (list string))
           (decimal : Z) (expected_type : option string) : M St ResourceDescr :=
  source ←
    match source with
    | FromDescr rd =>
        if negb (String.eqb format_version "discover")
           && negb (String.eqb (rd_format_version rd) format_version)
        then
          _ ← warn ("deserializing source to ensure we validate and test using format "
                      +:+ format_version);
          mret (FromContent (dump_description rd))
        else mret source
    | _ => mret source
    end;
  rd ←
    match source with
    | FromDescr rd => mret rd
    | FromContent content => mret (build_description content format_version)
    | FromFile file =>
        call (fun _ => LoadDescription file) (load_description file format_version)
    end;
  test_loaded_description rd weight_format devices decimal expected_type.

Definition test_description (source : Source) (format_version : string)
           (weight_format : option WeightsFormat) (devices : option (list string))
           (decimal : Z) (expected_type : option string) : M St ValidationSummary :=
  rd ← load_description_and_test source format_version weight_format devices
         decimal expected_type;
  mret (validation_summary rd).

Definition test_model (source : Source) (weight_format : option WeightsFormat)
           (devices : option (list string)) (decimal : Z) : M St ValidationSummary :=
  test_description source "discover" weight_format devices decimal (Some "model").

(** *** What the tests are compared with *)

(** The first statements of [load_description_and_test]: the description
    that is tested is the source itself, or what is built from its content
    (of a description of another format version as well, after a warning),
    or what [load_description] returns for a file. *)
Definition description_under_test (source : Source) (format_version : string)
  : M St ResourceDescr :=
  source ←
    match source with
    | FromDescr rd =>
        if negb (String.eqb format_version "discover")
           && negb (String.eqb (rd_format_version rd) format_version)
        then
          _ ← warn ("deserializing source to ensure we validate and test using format "
                      +:+ format_version);
          mret (FromContent (dump_description rd))
        else mret source
    | _ => mret source
    end;
  match source with
  | FromDescr rd => mret rd
  | FromContent content => mret (build_description content format_version)
  | FromFile file =>
      call (fun _ => LoadDescription file) (load_description file format_version)
  end.

(** The summary of [rd] when the tests of a model start: the installed
    package was added, and the detail on the resource type when a type is
    expected. *)
Definition summary_before_tests (rd : ResourceDescr) (expected_type : option string)
  : ValidationSummary :=
  let rd :=
    set_summary rd
      (add_env (validation_summary rd)
         {| pkg_name := "bioimageio.core"; pkg_version := bioimageio_core_version |}) in
  match expected_type with
  | Some t => validation_summary (_test_expected_resource_type rd t)
  | None => validation_summary rd
  end.

(** The detail of a failed inference test. *)
Definition failed_detail (message : string) (tb : list string)
           (weight_format : option WeightsFormat) : ValidationDetail :=
  {| name := "Reproduce test outputs from test inputs";
     status := failed;
     errors :=
       [ {| loc := match weight_format with
                   | None => ["weights"]
                   | Some wf => ["weights"; wf]
                   end;
            msg := message;
            type := "bioimageio.core";
            traceback := tb |} ] |}.

(** Every event that a computation records satisfies [P]. *)
Definition emits (P : Event -> Prop) {A} (m : M St A) : Prop :=
  ∀ s r s', m s = (r, s') → ∃ events, trace s' = trace s ++ events ∧ Forall P events.

(** The events of loading a test tensor. *)
Definition is_load (ev : Event) : Prop :=
  match ev with
  | Download _ | LoadArray _ => True
  | _ => False
  end.


(** The events recorded between two states. *)
Definition events_since (s s' : St) : list Event :=
  drop (length (trace s)) (trace s').


(** The calls of [forward] among some events, with what they returned. *)
Definition forward_calls (events : list Event)
  : list (list DataArray * result (list Output)) :=
  omap (fun ev => match ev with
                  | Forward inputs outcome => Some (inputs, outcome)
                  | _ => None
                  end) events.






End Tests.

End ResourceTests.

(** ** model_adapters/_onnx_model_adapter.py *)

Module OnnxAdapter.

Class Types : Type := {
  World : Type;
  Session : Type;
  NDArray : Type
}.

(** [out.axes]: a string of one-letter axes (format 0.4) or a list of
    axes with an [id] (format 0.5). *)
Inductive Axes : Type :=
| AxesStr (letters : string)
| AxesList (ids : list string).

Record OutputDescr : Type := { axes : Axes }.

Record ModelDescr : Type := {
  name : string;
  outputs : list OutputDescr;
  weights_onnx_source : option string
}.

(** [tuple(s)] for a string [s]: its letters. *)
Definition letters_of (s : string) : list string :=
  map (fun c => String c EmptyString) (list_ascii_of_string s).

Section Adapter.

Context {T : Types}.

Record Tensor : Type := mkTensor {
  data : NDArray;
  dims : list string
}.

(** What [session.run] returns: a list or tuple, or anything else. *)
Inductive RunResult : Type :=
| Several (results : list (option NDArray))
| Single (result : option NDArray).

(** The [onnxruntime] module, when it could be imported. *)
Record Runtime : Type := {
  InferenceSession : string -> World -> result Session * World
}.

(** [rt] is [None] when the import of [onnxruntime] failed; [get_inputs]
    gives the names of the inputs of a session and [run] runs it;
    [repr_devices] is how Python prints the device list; [ndim] is the
    number of dimensions of an array, and [dims_error] the exception of a
    tensor that cannot be made. *)
Class Env : Type := {
  rt : option Runtime;
  get_inputs : Session -> list string;
  run : Session -> gmap string (option NDArray) -> World -> result RunResult * World;
  repr_devices : list string -> string;
  ndim : NDArray -> nat;
  dims_error : NDArray -> list string -> exn
}.

Context {E : Env}.

Record St : Type := mkSt {
  world : World;
  warnings : list string
}.

Definition call {A} (f : World -> result A * World) : M St A :=
  fun s => let '(r, w) := f (world s) in (r, mkSt w (warnings s)).

(** [warnings.warn(message)] under the default filter: the warning is
    issued and the call returns. *)
Definition warn (message : string) : M St unit :=
  fun s => (Ok tt, mkSt (world s) (warnings s ++ [message])).

Record ONNXModelAdapter : Type := mkAdapter {
  _internal_output_axes : list (list string);
  _session : Session;
  _input_names : list string
}.

Definition devices_warning (devices : list string) : string :=
  "Device management is not implemented for onnx yet, ignoring the devices "
    +:+ repr_devices devices.

Definition unload_warning : string :=
  "Device management is not implemented for onnx yet, cannot unload model".

Definition __init__ (model_description : ModelDescr)
           (devices : option (list string)) : M St ONNXModelAdapter :=
  match rt with
  | None => raise (Exn ImportError "onnxruntime" [])
  | Some rt =>
      let internal_output_axes :=
        map (fun out => match axes out with
                        | AxesStr s => letters_of s
                        | AxesList ids => ids
                        end)
            (outputs model_description) in
      match weights_onnx_source model_description with
      | None =>
          raise (Exn ValueError
                     "No ONNX weights specified for {model_description.name}" [])
      | Some source =>
          session ← call (InferenceSession rt source);
          let input_names := get_inputs session in
          _ ← match devices with
              | Some devices => warn (devices_warning devices)
              | None => mret tt
              end;
          mret (mkAdapter internal_output_axes session input_names)
      end
  end.

(** [dict(zip(names, arrays))]: a later pair replaces an earlier one
    with the same name. *)
Definition dict_of_zip (names : list string) (arrays : list (option NDArray))
  : gmap string (option NDArray) :=
  list_to_map (reverse (zip names arrays)).

(** Modelled from the spec: [tensor.py] is not among the sources.  A tensor
    has one axis tag for every dimension of its array, and
    [Tensor(array, dims=dims)] raises when the numbers differ. *)
Definition new_Tensor (array : NDArray) (dims : list string) : result Tensor :=
  if decide (length dims = ndim array) then Ok (mkTensor array dims)
  else Raise (dims_error array dims).

(** [None if r is None else Tensor(r, dims=axes)] *)
Definition tensor_or_None (pair : option NDArray * list string)
  : result (option Tensor) :=
  let '(r, axes) := pair in
  match r with
  | None => Ok None
  | Some r =>
      t ← new_Tensor r axes;
      mret (Some t)
  end.

Definition forward (self : ONNXModelAdapter) (input_tensors : list (option Tensor))
  : M St (list (option Tensor)) :=
  _ ← lift (py_assert (Nat.eqb (length input_tensors) (length (_input_names self))));
  let input_arrays := map (fun ipt => data <$> ipt) input_tensors in
  result ← call (run (_session self)
                     (dict_of_zip (_input_names self) input_arrays));
  let result_seq :=
    match result with
    | Several rs => rs
    | Single r => [r]
    end in
  lift (mapM tensor_or_None (zip result_seq (_internal_output_axes self))).

(** *** What the outputs are compared with *)

(** The result has as many dimensions as there are axes. *)
Definition fits (pair : option NDArray * list string) : Prop :=
  ∀ array, fst pair = Some array → ndim array = length (snd pair).

Definition unload (self : ONNXModelAdapter) : M St unit :=
  warn unload_warning.

End Adapter.

End OnnxAdapter.

(** ** prediction.py: [predict] *)

Module Prediction.

Definition TensorId : Type := string.

Class Types : Type := {
  Tensor : Type;
  NDArray : Type;
  Output : Type
}.

Section Predict.

Context {T : Types}.

(** The Python values that [predict] meets: a tensor, a numpy array, or
    the key of a mapping. *)
Inductive Value : Type :=
| VTensor (t : Tensor)
| VArray (a : NDArray)
| VStr (s : string).

(** The [inputs] argument: one tensor, one array, a sequence, or a
    mapping (a dict, in the order of its items). *)
Inductive Inputs : Type :=
| OneTensor (t : Tensor)
| OneArray (a : NDArray)
| Sequence (items : list Value)
| Mapping (items : list (string * Value)).

Record AxesSpec : Type := { axes : list string }.

Record PredictionPipeline : Type := {
  input_ids : list TensorId;
  input_axes : list AxesSpec;
  forward : list Tensor -> result Output
}.

(** Iterating over a tensor or an array, and [Tensor.from_numpy]: code of
    [numpy] and of [tensor.py], which is not among the sources;
    [repr_key tid] is [repr(tid)], which Python makes the message of the
    [KeyError] of the key [tid]. *)
Class Env : Type := {
  iter_tensor : Tensor -> result (list Value);
  iter_array : NDArray -> result (list Value);
  from_numpy : Value -> list string -> result Tensor;
  repr_key : string -> string
}.

Context {E : Env}.

(** [inputs[tid]]; a tensor id is a string, so [str(tid)] is [tid]. *)
Fixpoint getitem (items : list (string * Value)) (tid : string) : result Value :=
  match items with
  | [] => Raise (Exn KeyError (repr_key tid) [])
  | (k, v) :: rest => if String.eqb k tid then Ok v else getitem rest tid
  end.

(** [inputs.get(key, default)] *)
Fixpoint get (items : list (string * Value)) (key : string) (default : Value) : Value :=
  match items with
  | [] => default
  | (k, v) :: rest => if String.eqb k key then v else get rest key default
  end.

(** The first statement of [predict]: [inputs_seq], and the assertion on
    its length when [inputs] is not a mapping. *)
Definition inputs_seq_of (prediction_pipeline : PredictionPipeline) (inputs : Inputs)
  : result (list Value) :=
  match inputs with
  | Mapping items =>
      mapM (fun tid =>
              default ← getitem items tid;
              mret (get items tid default))
           (input_ids prediction_pipeline)
  | _ =>
      let inputs_seq :=
        match inputs with
        | OneTensor t => [VTensor t]
        | OneArray a => [VArray a]
        | Sequence items => items
        | Mapping _ => []
        end in
      _ ← py_assert (Nat.eqb (length inputs_seq)
                             (length (input_ids prediction_pipeline)));
      mret inputs_seq
  end.

(** What [zip(inputs, ...)] iterates over. *)
Definition iterate (inputs : Inputs) : result (list Value) :=
  match inputs with
  | OneTensor t => iter_tensor t
  | OneArray a => iter_array a
  | Sequence items => Ok items
  | Mapping items => Ok (map (fun kv => VStr (fst kv)) items)
  end.

Definition tag (pair : Value * AxesSpec) : result Tensor :=
  let '(ipt, ipt_spec) := pair in
  match ipt with
  | VTensor t => Ok t
  | _ => from_numpy ipt (axes ipt_spec)
  end.

Definition predict (prediction_pipeline : PredictionPipeline) (inputs : Inputs)
  : result Output :=
  inputs_seq ← inputs_seq_of prediction_pipeline inputs;
  elements ← iterate inputs;
  tagged_data ← mapM tag (zip elements (input_axes prediction_pipeline));
  forward prediction_pipeline tagged_data.

End Predict.

End Prediction.

(** ** io.py: [download_rdf] *)

Module IO.

Definition LEGACY_RDF_NAME : string := "rdf.yaml".

(** What [yaml.load] returns. *)
#[local] Unset Elimination Schemes.
Inductive YamlValue : Type :=
| YNone
| YBool (b : bool)
| YInt (z : Z)
| YFloat (digits : string)
| YStr (s : string)
| YList (items : list YamlValue)
| YMapping (items : list (string * YamlValue)).
#[local] Set Elimination Schemes.

(** [type(content)], as an f-string prints it. *)
Definition type_repr (content : YamlValue) : string :=
  match content with
  | YNone => "<class 'NoneType'>"
  | YBool _ => "<class 'bool'>"
  | YInt _ => "<class 'int'>"
  | YFloat _ => "<class 'float'>"
  | YStr _ => "<class 'str'>"
  | YList _ => "<class 'list'>"
  | YMapping _ => "<class 'dict'>"
  end.

(** [s.endswith(suffix)]: some tail of [s] is [suffix]. *)
Fixpoint endswith (s suffix : string) : bool :=
  if String.eqb s suffix then true
  else match s with
       | EmptyString => false
       | String _ s' => endswith s' suffix
       end.

(** [x in names] for a list of strings. *)
Definition contains (names : list string) (x : string) : bool :=
  existsb (String.eqb x) names.

Class Types : Type := {
  World : Type;
  Path : Type;
  Root : Type
}.

Section DownloadRdf.

Context {T : Types}.

Record _LocalFile : Type := mkLocalFile {
  path : Path;
  root : Root;
  file_name : string
}.

Record _LocalRdf : Type := mkLocalRdf {
  content : list (string * YamlValue);
  rdf_root : Root;
  rdf_file_name : string
}.

(** Files, zip archives and the YAML parser; [download] is the function
    of that name in [io.py], which fetches a URL or takes a local path.
    [unzip_path p] is [p.with_suffix(p.suffix + ".unzip")], [joinpath]
    is [/], [repr_names] and [path_str] are how an f-string prints a
    list of names and a path. *)
Class Env : Type := {
  download : string -> option string -> World -> result _LocalFile * World;
  is_zipfile : Path -> World -> bool;
  namelist : Path -> World -> result (list string) * World;
  extractall : Path -> Path -> World -> result unit * World;
  load_yaml : Path -> string -> World -> result YamlValue * World;
  unzip_path : Path -> Path;
  joinpath : Path -> string -> Path;
  repr_names : list string -> string;
  path_str : Path -> string
}.

Context {E : Env}.

Definition multiple_rdfs_error (rdfs : list string) : exn :=
  Exn ValueError
      ("Multiple RDFs in one package not yet supported (found "
         +:+ repr_names rdfs +:+ ").") [].

Definition no_rdf_error (local_source : Path) : exn :=
  Exn ValueError
      ("No RDF found in " +:+ path_str local_source
         +:+ ". (Looking for any '*.bioimageio.yaml' file or an 'rdf.yaml' file).")
      [].

Definition not_a_mapping_error (content : YamlValue) : exn :=
  Exn TypeError
      ("Expected RDF content to be a mapping, but got '"
         +:+ type_repr content +:+ "'.") [].

(** The choice of [rdf_file_name] among the names of the archive. *)
Definition choose_rdf_file_name (local_source : Path) (names : list string)
  : result string :=
  let rdfs := List.filter (fun fname => endswith fname ".bioimageio.yaml") names in
  match rdfs with
  | _ :: _ :: _ => Raise (multiple_rdfs_error rdfs)
  | [rdf_file_name] => Ok rdf_file_name
  | [] =>
      if contains names LEGACY_RDF_NAME then Ok LEGACY_RDF_NAME
      else Raise (no_rdf_error local_source)
  end.

(** The statements after the archive has been dealt with. *)
Definition read_rdf (local_source : Path) (root : Root) (file_name : string)
           (rdf_encoding : string) : M World _LocalRdf :=
  content ← load_yaml local_source rdf_encoding;
  match content with
  | YMapping items => mret (mkLocalRdf items root file_name)
  | _ => raise (not_a_mapping_error content)
  end.

Definition download_rdf (source : string) (known_hash : option string)
           (rdf_encoding : string) : M World _LocalRdf :=
  '(mkLocalFile local_source root file_name) ← download source known_hash;
  local_source ←
    (fun w : World =>
       if is_zipfile local_source w then
         (let out_path := unzip_path local_source in
          names ← namelist local_source;
          rdf_file_name ← lift (choose_rdf_file_name local_source names);
          _ ← extractall local_source out_path;
          mret (joinpath out_path rdf_file_name)) w
       else (Ok local_source, w));
  read_rdf local_source root file_name rdf_encoding.

(** *** What the choice of the file is compared with *)

(** The name of a resource description file: [*.bioimageio.yaml]. *)
Definition is_rdf_name (fname : string) : Prop :=
  ∃ stem, fname = stem +:+ ".bioimageio.yaml".

(** The file that is read from an archive with the given names: an error if
    two entries are named [*.bioimageio.yaml]; the entry of that name if
    there is one; [rdf.yaml] if it is there and no entry has that name; an
    error otherwise. *)
Inductive rdf_choice : list string -> result string -> Prop :=
| choice_multiple l1 a l2 b l3 e :
    is_rdf_name a → is_rdf_name b → exn_cls e = ValueError →
    rdf_choice (l1 ++ a :: l2 ++ b :: l3) (Raise e)
| choice_single l1 a l2 :
    is_rdf_name a →
    Forall (fun n => ¬ is_rdf_name n) l1 → Forall (fun n => ¬ is_rdf_name n) l2 →
    rdf_choice (l1 ++ a :: l2) (Ok a)
| choice_legacy names :
    Forall (fun n => ¬ is_rdf_name n) names → LEGACY_RDF_NAME ∈ names →
    rdf_choice names (Ok LEGACY_RDF_NAME)
| choice_none names e :
    Forall (fun n => ¬ is_rdf_name n) names → LEGACY_RDF_NAME ∉ names →
    exn_cls e = ValueError →
    rdf_choice names (Raise e).

End DownloadRdf.

End IO.

(** ** proc_setup.py: the queries for the required measures *)

Module ProcSetupQueries.
Import ProcSetup.

(** Modelled from the spec: [isinstance(m, DatasetMeasureBase)] and
    [isinstance(m, SampleMeasureBase)]; [stat_measures.py] is not among the
    sources, a measure is of one of the two kinds. *)
Definition is_DatasetMeasure (m : Measure) : Prop := scope m = DatasetScope.

Definition is_SampleMeasure (m : Measure) : Prop := scope m = SampleScope.

#[global] Instance is_DatasetMeasure_dec m : Decision (is_DatasetMeasure m).
Proof. unfold is_DatasetMeasure. apply _. Defined.

#[global] Instance is_SampleMeasure_dec m : Decision (is_SampleMeasure m).
Proof. unfold is_SampleMeasure. apply _. Defined.

Record RequiredMeasures : Type := {
  required_pre : gset Measure;
  required_post : gset Measure
}.

Record RequiredDatasetMeasures : Type := {
  dataset_pre : gset Measure;
  dataset_post : gset Measure
}.

Record RequiredSampleMeasures : Type := {
  sample_pre : gset Measure;
  sample_post : gset Measure
}.

Section Queries.

Context `{ProcOps}.

Definition get_requried_measures (model : AnyModelDescr) : RequiredMeasures :=
  let s := _prepare_setup_pre_and_postprocessing model in
  {| required_pre := pre_measures s; required_post := post_measures s |}.

Definition get_required_dataset_measures (model : AnyModelDescr)
  : RequiredDatasetMeasures :=
  let s := _prepare_setup_pre_and_postprocessing model in
  {| dataset_pre := filter is_DatasetMeasure (pre_measures s);
     dataset_post := filter is_DatasetMeasure (post_measures s) |}.

Definition get_requried_sample_measures (model : AnyModelDescr)
  : RequiredSampleMeasures :=
  let s := _prepare_setup_pre_and_postprocessing model in
  {| sample_pre := filter is_SampleMeasure (pre_measures s);
     sample_post := filter is_SampleMeasure (post_measures s) |}.

End Queries.

End ProcSetupQueries.

(** ** _resource_tests.py: what a test run reports and does *)

Module ResourceTestsReports.
Import ResourceTests.

(** The parts of a message, one after the other. *)
Definition join (parts : list string) : string := foldr String.append "" parts.

(** The message of a test: none when there is nothing to report. *)
Definition report (parts : list string) : option string :=
  match parts with
  | [] => None
  | _ => Some (join parts)
  end.

(** What an error becomes when the given additions follow. *)
Definition extended (error : option string) (parts : list string) : option string :=
  match parts with
  | [] => error
  | _ => Some (or_empty error +:+ join parts)
  end.

Section Reports.

Context {T : Types} {E : Env}.

(** The comparison of two arrays does not depend on the world and leaves it
    as it is: it is the function [cmp]. *)
Definition pure_comparison (cmp : Output -> DataArray -> Z -> result unit) : Prop :=
  ∀ res exp decimal w,
    assert_array_almost_equal res exp decimal w = (cmp res exp decimal, w).

(** What a failed comparison adds to the message. *)
Definition disagreement (e : exn) : string :=
  "Output and expected output disagree:" +:+ nl +:+ " " +:+ exn_msg e.

(** The additions for the pairs that the comparison rejects, in order. *)
Definition mismatches (cmp : Output -> DataArray -> Z -> result unit) (decimal : Z)
           (pairs : list (Output * DataArray)) : list string :=
  omap (fun pair => match cmp (fst pair) (snd pair) decimal with
                    | Raise e => Some (disagreement e)
                    | Ok _ => None
                    end) pairs.

(** The comparison accepts the pair. *)
Definition agree (cmp : Output -> DataArray -> Z -> result unit) (decimal : Z)
           (pair : Output * DataArray) : Prop :=
  cmp (fst pair) (snd pair) decimal = Ok tt.

(** The comparison rejects pairs with an [AssertionError] only. *)
Definition only_assertions (cmp : Output -> DataArray -> Z -> result unit)
           (decimal : Z) (pairs : list (Output * DataArray)) : Prop :=
  Forall (fun pair => ∀ e, cmp (fst pair) (snd pair) decimal = Raise e →
                           exn_cls e = AssertionError) pairs.

(** The events of one inference test: the test tensors are loaded; then at
    most one pipeline is created, [forward] is called once on it and it is
    left; only then outputs are compared, pair by pair, with the expected
    outputs. *)
Definition inference_events (devices : option (list string))
           (weight_format : option WeightsFormat) (events : list Event) : Prop :=
  ∃ loads rest,
    events = loads ++ rest
    ∧ Forall is_load loads
    ∧ (rest = []
       ∨ rest = [CreatePipeline devices weight_format]
       ∨ ∃ inputs outcome compares,
           rest = CreatePipeline devices weight_format
                    :: Forward inputs outcome
                    :: Exit
                    :: map (fun pair => Compare (fst pair) (snd pair)) compares
           ∧ match outcome with
             | Ok results => ∃ expected, compares `prefix_of` zip results expected
             | Raise _ => compares = []
             end).

(** The number of details that the tests add for a description. *)
Definition details_added (rd : ResourceDescr) (expected_type : option string) : nat :=
  (match expected_type with Some _ => 1 | None => 0 end)
  + match body rd with
    | NotAModel => 0
    | IsModel (V0_4 _) => 1
    | IsModel (V0_5 m) => if has_parameterized_input m then 2 else 1
    end.

End Reports.

End ResourceTestsReports.

(** ** pybio/spec/fields.py: the fields of a model specification *)

Module Fields.

(** A Python string is a [string] with one character per [ascii].

    [sub in s]: [sub] occurs in [s]. *)
Fixpoint is_in (sub s : string) : bool :=
  if String.prefix sub s then true
  else match s with
       | EmptyString => false
       | String _ s' => is_in sub s'
       end.

(** [s.startswith(prefix)] *)
Definition startswith (s prefix : string) : bool := String.prefix prefix s.

(** [s.rfind(sub)]: the highest index at which [sub] occurs in [s], or -1. *)
Fixpoint rfind (s sub : string) : Z :=
  match s with
  | EmptyString => if String.prefix sub "" then 0 else -1
  | String _ s' =>
      let found := rfind s' sub in
      if (found =? -1)%Z then (if String.prefix sub s then 0 else -1)%Z
      else (found + 1)%Z
  end.

(** The position that an index of a slice stands for in a sequence of
    length [len]: a negative index counts from the end, and an index
    beyond an end is that end. *)
Definition slice_index (len : nat) (i : Z) : nat :=
  if (i <? 0)%Z then Z.to_nat (Z.max 0 (Z.of_nat len + i))
  else Nat.min (Z.to_nat i) len.

(** [s[:stop]] *)
Definition slice_to (s : string) (stop : Z) : string :=
  substring 0 (slice_index (String.length s) stop) s.

(** [s[start:]] *)
Definition slice_from (s : string) (start : Z) : string :=
  let first := slice_index (String.length s) start in
  substring first (String.length s - first) s.

(** [s.split(sep)] for a separator that is not empty: the parts of [s]
    between the occurrences of [sep], found from the left and not
    overlapping.  [split_from] goes through [s]; [part] is what it has
    read of the current part, and [skip] the number of characters of a
    separator just found that it has still to pass. *)
Fixpoint split_from (sep s : string) (skip : nat) (part : string) : list string :=
  match s with
  | EmptyString => [part]
  | String c s' =>
      match skip with
      | S skip' => split_from sep s' skip' part
      | O =>
          if String.prefix sep s
          then part :: split_from sep s' (String.length sep - 1) ""
          else split_from sep s' 0 (part +:+ String c "")
      end
  end.

Definition split (s sep : string) : list string := split_from sep s 0 "".

(** The exceptions of [marshmallow] and of [pybio.spec.exceptions]. *)
Definition ValidationError (message : string) : exn :=
  Exn (OtherException "ValidationError") message [].

Definition PyBioValidationException (message : string) : exn :=
  Exn (OtherException "PyBioValidationException") message [].

(** [spec_types.py] is not among the sources: [Importable.Module] and
    [Importable.Path] are taken as they are called, with a module name or
    a module path and the name of an object. *)
Class SpecTypes : Type := {
  Importable : Type;
  Importable_Module : string -> string -> Importable;
  Importable_Path : string -> string -> Importable
}.

(** A value in the context of a schema: a string or a path, with the path
    it stands for, or a value of another type. *)
Inductive ContextValue : Type :=
| PathLike (path : string)
| NotAPath (type_name : string).

(** A field, as far as [_deserialize] reads it: [context] is the context of
    the schema that the field is bound to; a field that is not bound to a
    schema has no parent to take it from. *)
Record Field : Type := { context : option (list (string * ContextValue)) }.

(** [pathlib]: [Path_parent p] is [p.parent], [Path_join p q] is [p / q],
    and [Path_type_error] is the message of the [TypeError] that
    [pathlib.Path] raises for a value of the given type. *)
Class Pathlib : Type := {
  Path_parent : string -> string;
  Path_join : string -> string -> string;
  Path_type_error : string -> string
}.

(** [d.get(key, default)] *)
Fixpoint dict_get (d : list (string * ContextValue)) (key : string)
         (default : ContextValue) : ContextValue :=
  match d with
  | [] => default
  | (k, v) :: rest => if String.eqb k key then v else dict_get rest key default
  end.

(** In each class below, [_deserialize] starts from the string that
    [Str._deserialize] of [marshmallow] has returned. *)

Module ImportableSource.

Section Deserialize.

Context {S : SpecTypes} {P : Pathlib}.

Definition _is_import (path : string) : bool := negb (is_in "::" path).

Definition _is_filepath (path : string) : bool := is_in "::" path.

(** [self.context]: the context of the parent of the field. *)
Definition context_of (self : Field) : result (list (string * ContextValue)) :=
  match context self with
  | Some context => Ok context
  | None =>
      Raise (Exn (OtherException "AttributeError")
                 "'NoneType' object has no attribute 'context'" [])
  end.

(** [pathlib.Path(value)] *)
Definition Path (value : ContextValue) : result string :=
  match value with
  | PathLike path => Ok path
  | NotAPath type_name => Raise (Exn TypeError (Path_type_error type_name) [])
  end.

(** The result is [None] when the function ends without [return]. *)
Definition _deserialize (self : Field) (source_str : string)
  : result (option Importable) :=
  if _is_import source_str then
    let last_dot_idx := rfind source_str "." in
    let module_name := slice_to source_str last_dot_idx in
    let object_name := slice_from source_str (last_dot_idx + 1) in
    Ok (Some (Importable_Module module_name object_name))
  else if _is_filepath source_str then
    if startswith source_str "/"
    then Raise (ValidationError "Only realative paths are allowed")
    else
      match split source_str "::" with
      | [module_path; object_name] =>
          context ← context_of self;
          spec_path ← Path (dict_get context "spec_path" (PathLike "."));
          let spec_dir := Path_parent spec_path in
          let abs_path := Path_join spec_dir module_path in
          Ok (Some (Importable_Path module_path object_name))
      | _ =>
          Raise (ValidationError
                   "Incorrect filepath format, expected example.py::ClassName")
      end
  else Ok None.

(** *** What the result is compared with *)

(** The field is bound to a schema whose context has a path, or nothing,
    for [spec_path]. *)
Definition has_spec_path (self : Field) : Prop :=
  ∃ context path,
    context_of self = Ok context
    ∧ dict_get context "spec_path" (PathLike ".") = PathLike path.

End Deserialize.

End ImportableSource.

Module Axes.

Definition valid_axes : string := "bczyx".

Definition _deserialize (axes_str : string) : result string :=
  if existsb (fun a => negb (is_in (String a "") valid_axes))
             (list_ascii_of_string axes_str)
  then Raise (PyBioValidationException
                ("Invalid axes! Valid axes are: " +:+ valid_axes))
  else Ok axes_str.

End Axes.

End Fields.

(** ** io.py: packaging a resource *)

Module IOPackage.
Import IO.

(** A resource description that is valid and a relative file path are kept
    abstract; [Zip] is an open [ZipFile]. *)
Class PackageTypes : Type := {
  Descr : Type;
  RelativeFilePath : Type;
  Zip : Type
}.

Section Package.

Context {T : Types} {E : Env} {PT : PackageTypes}.

(** What [load_description] returns: a description, or an
    [InvalidDescription], of which the code reads the validation summaries,
    here as they are printed. *)
Inductive Loaded : Type :=
| Valid (rd : Descr)
| Invalid (validation_summaries : list string).

(** [RdfSource]: a file source or a description. *)
Inductive RdfSource : Type :=
| FromFileSource (source : string)
| FromDescription (rd : Loaded).

(** The argument of [resolve_source]. *)
Inductive AnySource : Type :=
| Relative (source : RelativeFilePath)
| Absolute (source : string).

(** A value of the package content: the content of an RDF, a mapping, or
    the source of a file. *)
Inductive PackageValue : Type :=
| RdfContent (content : list (string * YamlValue))
| FileOf (source : AnySource).

(** A value of the content that is written to an archive: a string, a
    file path or a dict. *)
Inductive Value : Type :=
| VStr (text : string)
| VPath (file : Path)
| VDict (content : list (string * YamlValue)).

(** A Python dict with strings as keys, in the order of insertion. *)
Definition Dict (V : Type) : Type := list (string * V).

(** [d[k] = v]: a key that is there keeps its place. *)
Fixpoint dict_set {V} (d : Dict V) (k : string) (v : V) : Dict V :=
  match d with
  | [] => [(k, v)]
  | (k', v') :: rest =>
      if String.eqb k' k then (k, v) :: rest else (k', v') :: dict_set rest k v
  end.

(** The calls on an archive, in the order they were made. *)
Inductive ZipCall : Type :=
| Open (path : Path) (compression compression_level : Z)
| WriteStr (arc_name text : string)
| Write (file : Value) (arc_name : string)
| Close.

Record St : Type := mkSt {
  world : World;
  calls : list ZipCall
}.

(** A call that is not on an archive, and a call on an archive. *)
Definition outside {A} (f : M World A) : M St A :=
  fun s => let '(r, w) := f (world s) in (r, mkSt w (calls s)).

Definition zip_call {A} (call : ZipCall) (f : M World A) : M St A :=
  fun s => let '(r, w) := f (world s) in (r, mkSt w (calls s ++ [call])).

(** [bioimageio.spec], [zipfile], [ruamel.yaml] and [tempfile]:
    [validation_context rd] is the root and the file name of
    [rd._internal_validation_context]; [YAML_dump_error file] is the
    exception of the call [YAML.dump(file, buf)] (see [YAML_dump]);
    [writestr myzip arc_name text] is
    [myzip.writestr(arc_name, text.encode("utf-8"))]; [temporary_file] is
    [Path(NamedTemporaryFile(suffix=".bioimageio.zip", delete=False).name)];
    [repr_source] and [repr_relative] are how an f-string prints its
    argument. *)
Class PackageEnv : Type := {
  load_description :
    list (string * YamlValue) -> Root -> string -> World -> result Loaded * World;
  validation_context : Loaded -> Root * string;
  get_resource_package_content :
    Descr -> option (list string) -> World -> result (Dict PackageValue) * World;
  get_absolute : RelativeFilePath -> Root -> string;
  repr_source : RdfSource -> string;
  repr_relative : RelativeFilePath -> string;
  ZipFile : Path -> Z -> Z -> World -> result Zip * World;
  YAML_dump_error : list (string * YamlValue) -> exn;
  writestr : Zip -> string -> string -> World -> result unit * World;
  write : Zip -> Value -> string -> World -> result unit * World;
  close : Zip -> World -> result unit * World;
  temporary_file : World -> result Path * World
}.

Context {PE : PackageEnv}.

Definition resolve_source (source : AnySource) (known_hash : option string)
           (root : option Root) : M World Path :=
  source ←
    match source with
    | Relative source =>
        match root with
        | None =>
            raise (Exn ValueError
                       ("Cannot resolve relative file path '"
                          +:+ repr_relative source +:+ "' without root.") [])
        | Some root => mret (get_absolute source root)
        end
    | Absolute source => mret source
    end;
  local ← download source known_hash;
  mret (path local).

(** [rd.validation_summaries[0]] *)
Definition first_summary (validation_summaries : list string) : result string :=
  match validation_summaries with
  | summary :: _ => Ok summary
  | [] => Raise (Exn (OtherException "IndexError") "list index out of range" [])
  end.

(** What the loop of [prepare_resource_package] puts in the place of a
    value. *)
Definition local_value (root : Root) (v : PackageValue) : M World Value :=
  match v with
  | RdfContent content => mret (VDict content)
  | FileOf source =>
      file ← resolve_source source None (Some root);
      mret (VPath file)
  end.

Definition prepare_resource_package (rdf_source : RdfSource)
           (weights_priority_order : option (list string))
  : M World (Dict Value) :=
  '(rd, root) ←
    match rdf_source with
    | FromDescription rd =>
        let '(root, file_name) := validation_context rd in
        mret (rd, root)
    | FromFileSource source =>
        rdf ← download_rdf source None "utf-8";
        rd ← load_description (content rdf) (rdf_root rdf) (rdf_file_name rdf);
        mret (rd, rdf_root rdf)
    end;
  match rd with
  | Invalid validation_summaries =>
      summary ← lift (first_summary validation_summaries);
      raise (Exn ValueError
                 (repr_source rdf_source +:+ " is invalid: " +:+ summary) [])
  | Valid rd =>
      package_content ← get_resource_package_content rd weights_priority_order;
      foldlM (fun (local_package_content : Dict Value) '(k, v) =>
                v ← local_value root v;
                mret (dict_set local_package_content k v))
             [] package_content
  end.

(** [with ZipFile(...) as myzip: body myzip]: the archive is closed on
    every path out of the body, and an exception of the closing replaces
    the body's. *)
Definition with_zip {A} (open : M St Zip) (body : Zip -> M St A) : M St A :=
  myzip ← open;
  fun s =>
    let '(r, s') := body myzip s in
    match zip_call Close (close myzip) s' with
    | (Ok _, s'') => (r, s'')
    | (Raise e, s'') => (Raise e, s'')
    end.

(** [YAML.dump(file, buf)], with [buf.getvalue()] after it.  The call is
    made on the class [YAML] and not on the instance [yaml], so that the
    dict [file] stands for [self] and [buf] for the data to dump: what
    [dump] asks of [self] a dict does not have, and the call raises (an
    [AttributeError] where [dump] has a default for its stream). *)
Definition YAML_dump (file : list (string * YamlValue)) : result string :=
  Raise (YAML_dump_error file).

(** The body of the loop of [write_zip]. *)
Definition write_item (myzip : Zip) (item : string * Value) : M St unit :=
  let '(arc_name, file) := item in
  file ←
    match file with
    | VDict content =>
        text ← lift (YAML_dump content);
        mret (VStr text)
    | _ => mret file
    end;
  match file with
  | VStr text => zip_call (WriteStr arc_name text) (writestr myzip arc_name text)
  | _ => zip_call (Write file arc_name) (write myzip file arc_name)
  end.

Definition write_zip (path : Path) (content : Dict Value)
           (compression compression_level : Z) : M St unit :=
  with_zip (zip_call (Open path compression compression_level)
                     (ZipFile path compression compression_level))
           (fun myzip => foldlM (fun _ item => write_item myzip item) tt content).

Definition write_package (rdf_source : RdfSource)
           (compression compression_level : Z) (output_path : option Path)
           (weights_priority_order : option (list string)) : M St Path :=
  package_content ←
    outside (prepare_resource_package rdf_source weights_priority_order);
  output_path ←
    match output_path with
    | None => outside temporary_file
    | Some output_path => mret output_path
    end;
  _ ← write_zip output_path package_content compression compression_level;
  mret output_path.

(** *** What the calls on an archive are compared with *)

(** The archive does not depend on the world and leaves it as it is:
    writing a text gives [ws], writing a file gives [wf] and closing gives
    [cl]. *)
Definition plain_archive (myzip : Zip) (ws : string -> string -> result unit)
           (wf : Value -> string -> result unit) (cl : result unit) : Prop :=
  (∀ arc_name text w, writestr myzip arc_name text w = (ws arc_name text, w))
  ∧ (∀ file arc_name w, write myzip file arc_name w = (wf file arc_name, w))
  ∧ (∀ w, close myzip w = (cl, w)).

(** The calls that write the items of the content, one call for an item, up
    to the first item that fails, and what the loop ends with: a text is
    written with [writestr], a path with [write], and a dict is not
    written, as its dump fails. *)
Fixpoint written (ws : string -> string -> result unit)
         (wf : Value -> string -> result unit) (content : Dict Value)
  : list ZipCall * result unit :=
  match content with
  | [] => ([], Ok tt)
  | (arc_name, VDict file) :: _ => ([], Raise (YAML_dump_error file))
  | (arc_name, VStr text) :: rest =>
      match ws arc_name text with
      | Ok _ =>
          (WriteStr arc_name text :: fst (written ws wf rest),
           snd (written ws wf rest))
      | Raise e => ([WriteStr arc_name text], Raise e)
      end
  | (arc_name, VPath file) :: rest =>
      match wf (VPath file) arc_name with
      | Ok _ =>
          (Write (VPath file) arc_name :: fst (written ws wf rest),
           snd (written ws wf rest))
      | Raise e => ([Write (VPath file) arc_name], Raise e)
      end
  end.

(** What an item of the package content becomes: it keeps its name; content
    stays as it is, the source of a file becomes the path of a file. *)
Definition localized (item : string * PackageValue) (local : string * Value) : Prop :=
  fst local = fst item
  ∧ match snd item with
    | RdfContent content => snd local = VDict content
    | FileOf _ => ∃ file, snd local = VPath file
    end.

(** The items of the package content, one after the other, each with its
    name and its local value. *)
Definition local_items (root : Root) (package_content : Dict PackageValue)
  : M World (Dict Value) :=
  mapM (fun item => v ← local_value root (snd item); mret (fst item, v))
       package_content.

End Package.

End IOPackage.

(** ** weight_converter/torch/onnx.py: [add_onnx_weights] *)

Module OnnxConverter.

(** Arrays of [numpy], tensors and modules of [torch], the description of
    the weights and a session of ONNX Runtime are kept abstract. *)
Class Types : Type := {
  World : Type;
  Path : Type;
  Array : Type;
  Tensor : Type;
  TorchModel : Type;
  WeightsDescr : Type;
  Runtime : Type;
  Session : Type
}.

Section Converter.

Context {T : Types}.

(** A model description, as far as the converter reads it: for format
    0.4 the sources of the test inputs, for format 0.5 the test tensors of
    the inputs; and [weights.pytorch_state_dict]. *)
Inductive ModelDescr : Type :=
| Model_v0_4 (test_inputs : list string) (pytorch_state_dict : option WeightsDescr)
| Model_v0_5 (test_tensors : list string) (pytorch_state_dict : option WeightsDescr).

Definition pytorch_state_dict_of (model_spec : ModelDescr) : option WeightsDescr :=
  match model_spec with
  | Model_v0_4 _ w => w
  | Model_v0_5 _ w => w
  end.

(** What [load_description] returns: an invalid description, a description
    of another class, or a model description. *)
Inductive Loaded : Type :=
| Invalid (repr : string)
| NotAModel (class_name : string)
| Model (model_spec : ModelDescr).

(** The argument [model_spec]: a path or a model description. *)
Inductive ModelSpec : Type :=
| FromPath (path : string)
| Given (model_spec : ModelDescr).

(** What a call of the model returns: one tensor, or several. *)
Inductive ModelOutput : Type :=
| OneTensor (t : Tensor)
| Tensors (ts : list Tensor).

(** The second argument of [torch.onnx.export]. *)
Inductive ExportArgs : Type :=
| Tuple (ts : list Tensor)
| Single (t : Tensor).

Record St : Type := mkSt {
  world : World;
  warnings : list string
}.

Definition call {A} (f : World -> result A * World) : M St A :=
  fun s => let '(r, w) := f (world s) in (r, mkSt w (warnings s)).

Definition warn (message : string) : M St unit :=
  fun s => (Ok tt, mkSt (world s) (warnings s ++ [message])).

(** [try: m  except cls as e: handler e] *)
Definition try_except_class {A} (cls : exn_class) (m : M St A)
           (handler : exn -> M St A) : M St A :=
  fun s =>
    match m s with
    | (Ok a, s') => (Ok a, s')
    | (Raise e, s') =>
        if decide (exn_cls e = cls) then handler e s' else (Raise e, s')
    end.

(** [bioimageio.spec], [numpy], [torch] and [onnxruntime]:
    [download] and [download_test_tensor] give the path of the file;
    [np_load_float32 p] is [np.load(p).astype("float32")];
    [import_onnxruntime] is [import onnxruntime as rt]; [get_inputs] gives
    the names of the inputs of a session.  [torch.no_grad()] changes how
    [torch] computes, which the calls of [torch] see in the world. *)
Class Env : Type := {
  load_description : string -> World -> result Loaded * World;
  download : string -> World -> result Path * World;
  download_test_tensor : string -> World -> result Path * World;
  np_load_float32 : Path -> World -> result Array * World;
  from_numpy : Array -> Tensor;
  numpy : Tensor -> Array;
  load_model : WeightsDescr -> World -> result TorchModel * World;
  run_model : TorchModel -> list Tensor -> World -> result ModelOutput * World;
  onnx_export :
    TorchModel -> ExportArgs -> Path -> bool -> option Z -> World
    -> result unit * World;
  import_onnxruntime : World -> result Runtime * World;
  InferenceSession : Runtime -> Path -> World -> result Session * World;
  get_inputs : Session -> list string;
  run : Session -> list (string * Array) -> World -> result (list Array) * World;
  assert_array_almost_equal : Array -> Array -> Z -> World -> result unit * World
}.

Context {E : Env}.

Definition rt_missing_warning : string :=
  "The onnx weights were exported, but onnx rt is not available and weights cannot be checked.".

Definition disagreement_warning (e : exn) : string :=
  "The onnx weights were exported, but results before and after conversion do not agree:"
    +:+ nl +:+ " " +:+ exn_msg e.

(** [dict] from pairs: a later pair replaces an earlier one with the same
    name, which keeps its place. *)
Fixpoint dict_set (d : list (string * Array)) (k : string) (v : Array)
  : list (string * Array) :=
  match d with
  | [] => [(k, v)]
  | (k', v') :: rest =>
      if String.eqb k' k then (k, v) :: rest else (k', v') :: dict_set rest k v
  end.

Definition dict_of_pairs (pairs : list (string * Array)) : list (string * Array) :=
  fold_left (fun d '(k, v) => dict_set d k v) pairs [].

(** The statements up to the export: they give the test inputs as arrays
    and what the model makes of them. *)
Definition export_weights (model_spec : ModelSpec) (output_path : Path)
           (use_tracing verbose : bool) (opset_version : option Z)
  : M St (list Array * list Array) :=
  model_spec ←
    match model_spec with
    | FromPath path =>
        loaded_spec ← call (load_description path);
        match loaded_spec with
        | Invalid repr =>
            raise (Exn ValueError ("Bad resource description: " +:+ repr) [])
        | NotAModel class_name =>
            raise (Exn TypeError
                       ("Path " +:+ path +:+ " is a " +:+ class_name
                          +:+ ", expected a v0_4.ModelDescr or v0_5.ModelDescr") [])
        | Model loaded_spec => mret loaded_spec
        end
    | Given model_spec => mret model_spec
    end;
  match pytorch_state_dict_of model_spec with
  | None =>
      raise (Exn ValueError
                 "The provided model does not have weights in the pytorch state dict format"
                 [])
  | Some state_dict_weights_descr =>
      downloaded_test_inputs ←
        match model_spec with
        | Model_v0_4 test_inputs _ => mapM (fun inp => call (download inp)) test_inputs
        | Model_v0_5 test_tensors _ =>
            mapM (fun inp => call (download_test_tensor inp)) test_tensors
        end;
      input_data ← mapM (fun dl => call (np_load_float32 dl)) downloaded_test_inputs;
      let input_tensors := map from_numpy input_data in
      model ← call (load_model state_dict_weights_descr);
      expected_tensors ← call (run_model model input_tensors);
      let expected_tensors :=
        match expected_tensors with
        | OneTensor t => [t]
        | Tensors ts => ts
        end in
      let expected_outputs := map numpy expected_tensors in
      _ ← (if use_tracing then
             args ←
               (if Nat.ltb 1 (length input_tensors) then mret (Tuple input_tensors)
                else match input_tensors with
                     | t :: _ => mret (Single t)
                     | [] => raise (Exn (OtherException "IndexError")
                                        "list index out of range" [])
                     end);
             call (onnx_export model args output_path verbose opset_version)
           else raise (Exn (OtherException "NotImplementedError") "" []));
      mret (input_data, expected_outputs)
  end.

(** The comparison of the outputs, in the [try] at the end. *)
Definition check_outputs (expected_outputs outputs : list Array) (test_decimal : Z)
  : M St (option Z) :=
  try_except_class AssertionError
    (_ ← foldlM (fun _ '(exp, out) =>
                   call (assert_array_almost_equal exp out test_decimal))
                tt (zip expected_outputs outputs);
     mret (Some 0%Z))
    (fun e =>
       _ ← warn (disagreement_warning e);
       mret (Some 1%Z)).

(** The result is [None] where the function ends with a plain [return]. *)
Definition add_onnx_weights (model_spec : ModelSpec) (output_path : Path)
           (use_tracing : bool) (test_decimal : Z) (verbose : bool)
           (opset_version : option Z) : M St (option Z) :=
  '(input_data, expected_outputs) ←
    export_weights model_spec output_path use_tracing verbose opset_version;
  rt ← try_except_class ImportError
         (rt ← call import_onnxruntime;
          mret (Some rt))
         (fun _ =>
            _ ← warn rt_missing_warning;
            mret None);
  match rt with
  | None => mret None
  | Some rt =>
      sess ← call (InferenceSession rt output_path);
      let onnx_input_node_args := get_inputs sess in
      let onnx_inputs := dict_of_pairs (zip onnx_input_node_args input_data) in
      outputs ← call (run sess onnx_inputs);
      check_outputs expected_outputs outputs test_decimal
  end.

(** *** What the result is compared with *)

(** The comparison of two arrays does not depend on the world and leaves it
    as it is: it is the function [cmp]. *)
Definition pure_comparison (cmp : Array -> Array -> Z -> result unit) : Prop :=
  ∀ exp out decimal w,
    assert_array_almost_equal exp out decimal w = (cmp exp out decimal, w).

(** The exception of the first pair that the comparison rejects. *)
Fixpoint first_mismatch (cmp : Array -> Array -> Z -> result unit) (decimal : Z)
         (pairs : list (Array * Array)) : option exn :=
  match pairs with
  | [] => None
  | (exp, out) :: rest =>
      match cmp exp out decimal with
      | Ok _ => first_mismatch cmp decimal rest
      | Raise e => Some e
      end
  end.

End Converter.

End OnnxConverter.

(** ** Concrete instances

    Small instances of the interfaces above, on which the embedded functions
    are evaluated. *)

Module ProcSetupExample.
Import ProcSetup.

(** A declared step: its name and, for [scale_mean_variance], the tensor
    it refers to. *)
Record Step : Type := mkStep {
  step_name : string;
  reference_tensor : option TensorId
}.

(** A sample holds one number per tensor; the value of a measure is an
    integer. *)
#[export] Instance types : Types := {|
  MeasureValue := Z;
  Sample := list (TensorId * Z);
  DType := string;
  ProcDescr := Step
|}.

Definition dataset_mean (t : TensorId) : Measure := mkMeasure DatasetScope t None Mean.
Definition dataset_std (t : TensorId) : Measure := mkMeasure DatasetScope t None Std.

Definition values_of (t : TensorId) (samples : list (list (TensorId * Z))) : list Z :=
  omap (fun sample => snd <$> List.find (fun kv => String.eqb (fst kv) t) sample)
       samples.

Definition value_of (samples : list (list (TensorId * Z))) (m : Measure) : Z :=
  let xs := values_of (target m) samples in
  match kind m with
  | Mean => (foldr Z.add 0 xs / Z.of_nat (length xs))%Z
  | Min => foldr Z.min 0%Z xs
  | Max => foldr Z.max 0%Z xs
  | _ => 0%Z
  end.

(** [finalize] fails when a required measure has no data. *)
Definition example_finalize (calc : StatsCalculatorT) : result (gmap Measure Z) :=
  if forallb (fun m => negb (Nat.eqb (length (values_of (target m) (observed calc))) 0))
             (elements (measures calc))
  then Ok (set_to_map (fun m => (m, value_of (observed calc) m)) (measures calc))
  else Raise (Exn (OtherException "RuntimeError") "no data for a required measure" []).

Definition example_required_measures (proc : Processing) : gset Measure :=
  match proc with
  | Transform t step =>
      if String.eqb (step_name step) "zero_mean_unit_variance" then
        {[ dataset_mean t; dataset_std t ]}
      else if String.eqb (step_name step) "scale_mean_variance" then
        match reference_tensor step with
        | Some ref => {[ dataset_mean ref; dataset_std ref ]}
        | None => ∅
        end
      else ∅
  | _ => ∅
  end.

#[export] Instance ops : ProcOps := {|
  finalize := example_finalize;
  preproc_v4_to_processing := fun t step => Transform (in4_name t) step;
  postproc_v4_to_processing := fun t step => Transform (out4_name t) step;
  preproc_v5_to_processing := fun t step => Transform (in5_id t) step;
  postproc_v5_to_processing := fun t step => Transform (out5_id t) step;
  required_measures := example_required_measures
|}.

Definition zmuv : Step := mkStep "zero_mean_unit_variance" None.
Definition scale_to (ref : TensorId) : Step := mkStep "scale_mean_variance" (Some ref).

(** A 0.5 model whose input [raw] is normalized and whose output [out] is
    scaled to the statistics of [raw]. *)
Definition model_shared : AnyModelDescr :=
  V0_5 {| inputs5 := [ {| in5_id := "raw"; in5_preprocessing := [zmuv] |} ];
          outputs5 := [ {| out5_id := "out";
                           out5_postprocessing := [scale_to "raw"] |} ] |}.

(** A 0.5 model with one input and one output and no declared step. *)
Definition model_plain_v0_5 : AnyModelDescr :=
  V0_5 {| inputs5 := [ {| in5_id := "raw"; in5_preprocessing := [] |} ];
          outputs5 := [ {| out5_id := "out"; out5_postprocessing := [] |} ] |}.

(** The same in format 0.4. *)
Definition raw_v0_4 : InputTensorDescr_v0_4 :=
  {| in4_name := "raw"; in4_data_type := "float32"; in4_preprocessing := [] |}.

Definition out_v0_4 : OutputTensorDescr_v0_4 :=
  {| out4_name := "out"; out4_data_type := "float32"; out4_postprocessing := [] |}.

Definition plain_v0_4 : ModelDescr_v0_4 :=
  {| inputs4 := [raw_v0_4]; outputs4 := [out_v0_4] |}.

Definition model_plain_v0_4 : AnyModelDescr := V0_4 plain_v0_4.

Definition dataset3 : list (list (TensorId * Z)) :=
  [ [("raw", 1%Z)]; [("raw", 2%Z)]; [("raw", 3%Z)] ].

(** Fixed statistics that give the dataset mean of [raw] and nothing else. *)
Definition mean_fixed : gmap Measure Z := {[ dataset_mean "raw" := 7%Z ]}.

(** What the assembler returns for [model_shared], [dataset3] and
    [mean_fixed]: the initial pass computes the standard deviation only. *)
Definition shared_lists_mean_fixed : PreAndPostprocessing :=
  let measures : gset Measure := {[ dataset_mean "raw"; dataset_std "raw" ]} in
  let initial_stats : gmap Measure Z := {[ dataset_std "raw" := 0%Z ]} in
  {| pre := [ AddKnownDatasetStats mean_fixed;
              UpdateStats (StatsCalculator measures (Some initial_stats)) false;
              Transform "raw" zmuv ];
     post := [ AddKnownDatasetStats mean_fixed;
               UpdateStats (StatsCalculator measures (Some initial_stats)) false;
               Transform "out" (scale_to "raw") ] |}.

(** What the assembler returns for [model_plain_v0_4]. *)
Definition plain_v0_4_lists : PreAndPostprocessing :=
  {| pre := [ UpdateStats (StatsCalculator ∅ (Some ∅)) false;
              EnsureDtype "raw" "raw" "float32" ];
     post := [ EnsureDtype "out" "out" "float32" ] |}.

End ProcSetupExample.

Module ResourceTestsExample.
Import ResourceTests.

(** An array is the list of its numbers and its shape is its length; a data
    array adds the names of the axes; an output may be [None]. *)
#[export] Instance types : Types := {|
  World := unit;
  Array := list Z;
  DataArray := list Z * list string;
  Output := option (list Z);
  Pipeline := unit
|}.

Definition file_not_found (source : FileSource) : exn :=
  Exn (OtherException "FileNotFoundError") ("No such file: " +:+ source)
      ["  File _resource_tests.py, in _test_model_inference"].

Definition example_load_array (source : FileSource) : result (list Z) :=
  if String.eqb source "in.npy" then Ok [1; 2; 3]%Z
  else if String.eqb source "out.npy" then Ok [2; 4; 6]%Z
  else Raise (file_not_found source).

Definition example_shape (res : option (list Z)) : result Shape :=
  match res with
  | Some a => Ok [length a]
  | None => Raise (Exn (OtherException "AttributeError")
                       "'NoneType' object has no attribute 'shape'" [])
  end.

Definition example_compare (res : option (list Z)) (exp : list Z * list string)
  : result unit :=
  if decide (res = Some (fst exp)) then Ok tt
  else Raise (Exn AssertionError "Arrays are not almost equal to 4 decimals" []).

(** The case for the size parameter [n]: every input grows by [n] zeros and
    one output of the same length is expected. *)
Definition example_test_case (n : nat) (test_inputs : list (list Z * list string))
  : list (list Z * list string) * list Shape :=
  (map (fun ipt => (fst ipt ++ replicate n 0%Z, snd ipt)) test_inputs,
   map (fun ipt => [length (fst ipt) + n]) test_inputs).

(** The world outside, for a given behaviour of [forward]. *)
Definition example_env
           (example_forward : list (list Z * list string) -> result (list (option (list Z))))
  : Env := {|
  bioimageio_core_version := "0.5.0";
  dump_description := fun rd => [("type", rd_type rd)];
  build_description := fun content format_version =>
    {| rd_type := "invalid"; rd_format_version := format_version; body := NotAModel;
       validation_summary := {| details := []; env := [] |} |};
  load_description := fun source format_version w =>
    (Raise (file_not_found source), w);
  load_array := fun source w => (example_load_array source, w);
  download := fun source w => (Ok source, w);
  xr_DataArray := fun a dims => Ok (a, dims);
  create_prediction_pipeline := fun model devices weight_format w => (Ok tt, w);
  forward := fun p inputs w => (example_forward inputs, w);
  pipeline_exit := fun p w => (Ok tt, w);
  assert_array_almost_equal := fun res exp decimal w => (example_compare res exp, w);
  shape := example_shape;
  test_case := example_test_case;
  format_shapes := fun shapes => "[...]";
  format_shape := fun shape => "(...)"
|}.

(** A backend that doubles every number, one that returns no output, and one
    that fails. *)
Definition doubling (inputs : list (list Z * list string))
  : result (list (option (list Z))) :=
  Ok (map (fun ipt => Some (map (Z.mul 2) (fst ipt))) inputs).



Definition boom : exn :=
  Exn (OtherException "RuntimeError") "inference session crashed"
      ["  File _prediction_pipeline.py, in forward"].

Definition crashing (inputs : list (list Z * list string))
  : result (list (option (list Z))) :=
  Raise boom.

Definition model_v0_4 : AnyModelDescr :=
  V0_4 {| v0_4.test_inputs := ["in.npy"];
          v0_4.inputs := [ {| v0_4.axes := ["x"] |} ];
          v0_4.test_outputs := ["out.npy"];
          v0_4.outputs := [ {| v0_4.axes := ["x"] |} ] |}.


Definition empty_summary : ValidationSummary := {| details := []; env := [] |}.

Definition description_of (model : AnyModelDescr) : ResourceDescr :=
  {| rd_type := "model"; rd_format_version := "0.5.0"; body := IsModel model;
     validation_summary := empty_summary |}.

Definition start : St := mkSt tt [].

(** The state after the test tensors of [model_v0_4] were loaded and
    [forward] gave [outcome]. *)
Definition after_forward (outcome : result (list (option (list Z)))) : St :=
  mkSt tt [ LoadArray "in.npy"; LoadArray "out.npy"; CreatePipeline None None;
            Forward [([1; 2; 3]%Z, ["x"])] outcome; Exit ].




End ResourceTestsExample.

Module OnnxExample.
Import OnnxAdapter.

#[export] Instance types : Types := {|
  World := unit;
  Session := string;
  NDArray := list Z
|}.

(** A runtime whose sessions have one input, [input], and return it; an
    array, a list of numbers, has one dimension. *)
Definition example_env : Env := {|
  rt := Some {| InferenceSession := fun source w => (Ok source, w) |};
  get_inputs := fun session => ["input"];
  run := fun session feed w =>
    (Ok (Several (match feed !! "input" with
                  | Some a => [a]
                  | None => []
                  end)), w);
  repr_devices := fun devices => "[" +:+ String.concat ", " devices +:+ "]";
  ndim := fun array => 1;
  dims_error := fun array dims =>
    Exn ValueError "different number of dimensions on data and dims" []
|}.

Definition example_model : ModelDescr :=
  {| name := "unet"; outputs := [ {| axes := AxesStr "bcyx" |} ];
     weights_onnx_source := Some "weights.onnx" |}.

End OnnxExample.

Module PredictionExample.
Import Prediction.

#[export] Instance types : Types := {|
  Tensor := list Z * list string;
  NDArray := list Z;
  Output := list (list Z * list string)
|}.

(** Iterating over a tensor or an array gives its numbers, as arrays; the
    keys of the examples are printed between two quotes. *)
Definition example_env : Env := {|
  iter_tensor := fun t => Ok (map (fun z => VArray [z]) (fst t));
  iter_array := fun a => Ok (map (fun z => VArray [z]) a);
  from_numpy := fun v dims =>
    match v with
    | VArray a => Ok (a, dims)
    | _ => Raise (Exn TypeError "not an array" [])
    end;
  repr_key := fun tid => "'" +:+ tid +:+ "'"
|}.

(** A pipeline with the inputs [raw] and [mask] that returns its inputs. *)
Definition two_inputs : PredictionPipeline :=
  {| input_ids := ["raw"; "mask"];
     input_axes := [ {| axes := ["x"] |}; {| axes := ["x"] |} ];
     forward := fun tensors => Ok tensors |}.

End PredictionExample.

Module IOExample.
Import IO.

#[export] Instance types : Types := {|
  World := unit;
  Path := string;
  Root := string
|}.

Definition example_namelist (archive : string) : list string :=
  if String.eqb archive "legacy.zip" then ["weights.onnx"; "rdf.yaml"]
  else if String.eqb archive "model.zip" then
    ["rdf.yaml"; "unet.bioimageio.yaml"; "weights.pt"]
  else if String.eqb archive "two.zip" then
    ["a.bioimageio.yaml"; "doc.md"; "b.bioimageio.yaml"]
  else ["weights.onnx"].

Definition example_load_yaml (file : string) : YamlValue :=
  if endswith file "rdf.yaml" then YMapping [("type", YStr "model")]
  else YList [YStr "model"].

Definition example_env : Env := {|
  download := fun source known_hash w =>
    (Ok {| path := source; root := "."; file_name := source |}, w);
  is_zipfile := fun p w => endswith p ".zip";
  namelist := fun p w => (Ok (example_namelist p), w);
  extractall := fun p out w => (Ok tt, w);
  load_yaml := fun p encoding w => (Ok (example_load_yaml p), w);
  unzip_path := fun p => p +:+ ".unzip";
  joinpath := fun p fname => p +:+ "/" +:+ fname;
  repr_names := fun names => "[" +:+ String.concat ", " names +:+ "]";
  path_str := fun p => p
|}.

End IOExample.

Module ProcSetupMoreExample.
Import ProcSetup ProcSetupExample.

(** Fixed statistics for both measures that [model_shared] requires. *)
Definition both_fixed : gmap Measure Z :=
  {[ dataset_mean "raw" := 7%Z; dataset_std "raw" := 2%Z ]}.

End ProcSetupMoreExample.

Module ResourceTestsMoreExample.
Import ResourceTests ResourceTestsExample.

(** The comparison of [example_env], as a function. *)
Definition example_cmp (res : option (list Z)) (exp : list Z * list string)
           (decimal : Z) : result unit :=
  example_compare res exp.

(** A backend that adds one to every number. *)
Definition incrementing (inputs : list (list Z * list string))
  : result (list (option (list Z))) :=
  Ok (map (fun ipt => Some (map (Z.add 1) (fst ipt))) inputs).

(** The state after the test tensors of [model_v0_4] were loaded, [forward]
    gave [output] and the output was compared. *)
Definition after_comparison (output : list Z) : St :=
  mkSt tt [ LoadArray "in.npy"; LoadArray "out.npy"; CreatePipeline None None;
            Forward [([1; 2; 3]%Z, ["x"])] (Ok [Some output]); Exit;
            Compare (Some output) ([2; 4; 6]%Z, ["x"]) ].

End ResourceTestsMoreExample.

Module OnnxMoreExample.
Import OnnxAdapter OnnxExample.

(** A model whose one output has the one axis [x], and the adapter that
    [__init__] makes for it. *)
Definition vector_model : ModelDescr :=
  {| name := "scale"; outputs := [ {| axes := AxesStr "x" |} ];
     weights_onnx_source := Some "weights.onnx" |}.

Definition vector_adapter : ONNXModelAdapter (T := types) :=
  {| _internal_output_axes := [["x"]];
     _session := "weights.onnx";
     _input_names := ["input"] |}.

(** The adapter that [__init__] makes for [example_model], whose output
    has four axes. *)
Definition example_adapter : ONNXModelAdapter (T := types) :=
  {| _internal_output_axes := [["b"; "c"; "y"; "x"]];
     _session := "weights.onnx";
     _input_names := ["input"] |}.

(** A tensor with the numbers 1 and 2 over the given dimensions. *)
Definition one_two (dims : list string) : Tensor (T := types) :=
  mkTensor [1; 2]%Z dims.

(** A state without warnings. *)
Definition quiet : St (T := types) := mkSt tt [].

End OnnxMoreExample.

Module PredictionMoreExample.
Import Prediction PredictionExample.

(** Two tensors, for the inputs [raw] and [mask] of [two_inputs]. *)
Definition two_tensors : list (Tensor (Types := types)) :=
  [([1%Z], ["x"]); ([2%Z], ["y"])].

(** A mapping with an array for [raw] only. *)
Definition raw_only : list (string * Value (T := types)) :=
  [("raw", VArray [1%Z])].

(** Two mappings with the keys [raw] and [mask]. *)
Definition arrays_by_id : list (string * Value (T := types)) :=
  [("raw", VArray [1%Z]); ("mask", VArray [2%Z])].

Definition others_by_id : list (string * Value (T := types)) :=
  [("raw", VArray [5%Z]); ("mask", VTensor ([7%Z], ["y"]))].

(** A pipeline with the one input [raw] that returns its inputs. *)
Definition one_input : PredictionPipeline (T := types) :=
  {| input_ids := ["raw"];
     input_axes := [ {| axes := ["x"] |} ];
     forward := fun tensors => Ok tensors |}.

End PredictionMoreExample.

Module FieldsExample.
Import Fields.

(** An importable source is kept as the pair of its two names. *)
Inductive Source : Type :=
| FromModule (module_name object_name : string)
| FromPath (module_path object_name : string).

#[export] Instance spec_types : SpecTypes := {|
  Importable := Source;
  Importable_Module := FromModule;
  Importable_Path := FromPath
|}.

(** Paths are joined with a slash. *)
#[export] Instance pathlib : Pathlib := {|
  Path_parent := fun p => p +:+ "/..";
  Path_join := fun p q => p +:+ "/" +:+ q;
  Path_type_error := fun type_name =>
    "expected str, bytes or os.PathLike object, not " +:+ type_name
|}.

(** A field of a schema that was loaded from [specs/unet.model.yaml], and a
    field that is bound to no schema. *)
Definition bound_field : Field :=
  {| context := Some [("spec_path", PathLike "specs/unet.model.yaml")] |}.

Definition unbound_field : Field := {| context := None |}.

End FieldsExample.

Module IOPackageExample.
Import IO IOExample IOPackage.

#[export] Instance package_types : PackageTypes := {|
  Descr := string;
  RelativeFilePath := string;
  Zip := string
|}.

(** The package content of [unet]: its RDF, and weights in a file next to
    it. *)
Definition unet_package : Dict (PackageValue (PT := package_types)) :=
  [("rdf.yaml", RdfContent [("type", YStr "model")]);
   ("weights.pt", FileOf (Relative "weights.pt"))].

(** The description [unet] has the package content [unet_package]; the
    archive takes every entry. *)
Definition example_package_env : PackageEnv (T := types) (PT := package_types) := {|
  load_description := fun content root file_name w => (Ok (Valid "unet"), w);
  validation_context := fun rd => (".", "rdf.yaml");
  get_resource_package_content := fun rd weights_priority_order w =>
    (Ok unet_package, w);
  get_absolute := fun source root => root +:+ "/" +:+ source;
  repr_source := fun rdf_source => "source";
  repr_relative := fun source => source;
  ZipFile := fun path compression compression_level w => (Ok path, w);
  YAML_dump_error := fun file =>
    Exn (OtherException "AttributeError")
        "'dict' object has no attribute '_context_manager'" [];
  writestr := fun myzip arc_name text w => (Ok tt, w);
  write := fun myzip file arc_name w => (Ok tt, w);
  close := fun myzip w => (Ok tt, w);
  temporary_file := fun w => (Ok "tmp.bioimageio.zip", w)
|}.

(** The content that [prepare_resource_package] gives for [unet]. *)
Definition unet_content : Dict (Value (T := types)) :=
  [("rdf.yaml", VDict [("type", YStr "model")]); ("weights.pt", VPath "./weights.pt")].

Definition closed : St (T := types) := mkSt tt [].

Definition unet_source : RdfSource (PT := package_types) :=
  FromDescription (Valid "unet").

(** Content with the weights before the RDF, and a readme. *)
Definition weights_first : Dict (Value (T := types)) :=
  [("weights.pt", VPath "./weights.pt"); ("rdf.yaml", VDict [("type", YStr "model")]);
   ("README.md", VStr "A model.")].

(** The state after [write_zip] was called for [weights_first]. *)
Definition weights_only_archive : St (T := types) :=
  mkSt tt [ Open "unet.zip" 8 1; Write (VPath "./weights.pt") "weights.pt"; Close ].

End IOPackageExample.

Module OnnxConverterExample.
Import OnnxConverter.

(** Arrays and tensors are lists of numbers; the model doubles its input,
    and so does the exported session. *)
#[export] Instance types : Types := {|
  World := unit;
  Path := string;
  Array := list Z;
  Tensor := list Z;
  TorchModel := unit;
  WeightsDescr := string;
  Runtime := unit;
  Session := string
|}.

Definition example_cmp (exp out : list Z) (decimal : Z) : result unit :=
  if decide (exp = out) then Ok tt
  else Raise (Exn AssertionError "Arrays are not almost equal" []).

Definition example_env : Env := {|
  load_description := fun path w => (Ok (Invalid "invalid"), w);
  download := fun source w => (Ok source, w);
  download_test_tensor := fun source w => (Ok source, w);
  np_load_float32 := fun path w => (Ok [1; 2]%Z, w);
  from_numpy := fun a => a;
  numpy := fun t => t;
  load_model := fun descr w => (Ok tt, w);
  run_model := fun model inputs w =>
    (Ok (Tensors (map (map (Z.mul 2)) inputs)), w);
  onnx_export := fun model args output_path verbose opset_version w => (Ok tt, w);
  import_onnxruntime := fun w => (Ok tt, w);
  InferenceSession := fun rt path w => (Ok path, w);
  get_inputs := fun sess => ["input"];
  run := fun sess feed w => (Ok (map (fun kv => map (Z.mul 2) (snd kv)) feed), w);
  assert_array_almost_equal := fun exp out decimal w => (example_cmp exp out decimal, w)
|}.

Definition unet : ModelSpec := Given (Model_v0_4 ["input.npy"] (Some "weights.pt")).

Definition quiet : St := mkSt tt [].

End OnnxConverterExample.

(** * Properties *)

(** ** The assembled operator lists *)

Module ProcSetupFacts.
Import ProcSetup.

Section Facts.

Context `{ProcOps}.

Lemma append_steps_app {T} (conv : T -> ProcDescr -> Processing) (t : T)
      (steps : list ProcDescr) (procs : list Processing) :
  append_steps conv t steps procs = procs ++ map (conv t) steps.
Proof.
  unfold append_steps. revert procs.
  induction steps as [|d steps IH]; intros procs; simpl.
  - by rewrite app_nil_r.
  - rewrite IH. by rewrite <- app_assoc.
Qed.

Lemma foldl_blocks {T} (f : list Processing -> T -> list Processing)
      (block : T -> list Processing) :
  (∀ acc t, f acc t = acc ++ block t) →
  ∀ ts acc, foldl f acc ts = acc ++ flat_map block ts.
Proof.
  intros Hf ts. induction ts as [|t ts IH]; intros acc; simpl.
  - by rewrite app_nil_r.
  - rewrite IH, Hf. by rewrite <- app_assoc.
Qed.

Lemma _prepare_v4_preprocs_ops ts :
  fst (_prepare_v4_preprocs ts) = flat_map ops_of_input_v0_4 ts.
Proof.
  unfold _prepare_v4_preprocs; simpl.
  rewrite (foldl_blocks _ ops_of_input_v0_4); [done|].
  intros acc t. rewrite append_steps_app.
  unfold ops_of_input_v0_4. by rewrite <- app_assoc.
Qed.

Lemma _prepare_v4_postprocs_ops ts :
  fst (_prepare_v4_postprocs ts) = flat_map ops_of_output_v0_4 ts.
Proof.
  unfold _prepare_v4_postprocs; simpl.
  rewrite (foldl_blocks _ ops_of_output_v0_4); [done|].
  intros acc t. rewrite append_steps_app.
  unfold ops_of_output_v0_4. by rewrite <- app_assoc.
Qed.

Lemma _prepare_v5_preprocs_ops ts :
  fst (_prepare_v5_preprocs ts) = flat_map ops_of_input_v0_5 ts.
Proof.
  unfold _prepare_v5_preprocs; simpl.
  rewrite (foldl_blocks _ ops_of_input_v0_5); [done|].
  intros acc t. by rewrite append_steps_app.
Qed.

Lemma _prepare_v5_postprocs_ops ts :
  fst (_prepare_v5_postprocs ts) = flat_map ops_of_output_v0_5 ts.
Proof.
  unfold _prepare_v5_postprocs; simpl.
  rewrite (foldl_blocks _ ops_of_output_v0_5); [done|].
  intros acc t. by rewrite append_steps_app.
Qed.

Lemma setup_pre_declared model :
  setup_pre (_prepare_setup_pre_and_postprocessing model) = declared_pre model.
Proof.
  destruct model as [m|m]; simpl.
  - apply _prepare_v4_preprocs_ops.
  - apply _prepare_v5_preprocs_ops.
Qed.

Lemma setup_post_declared model :
  setup_post (_prepare_setup_pre_and_postprocessing model) = declared_post model.
Proof.
  destruct model as [m|m]; simpl.
  - apply _prepare_v4_postprocs_ops.
  - apply _prepare_v5_postprocs_ops.
Qed.

Lemma elem_of_measures_of_acc procs (acc : gset Measure) m :
  m ∈ foldl (fun acc proc => acc ∪ required_measures proc) acc procs
  ↔ m ∈ acc ∨ ∃ proc, proc ∈ procs ∧ m ∈ required_measures proc.
Proof.
  revert acc. induction procs as [|p procs IH]; intros acc; simpl.
  - split; [auto|]. intros [?|(p & Hp & _)]; [done|]. by apply elem_of_nil in Hp.
  - rewrite IH. rewrite elem_of_union. split.
    + intros [[?|?]|(q & Hq & Hm)]; [by left| |].
      * right. exists p. split; [apply list_elem_of_here|done].
      * right. exists q. split; [by apply list_elem_of_further|done].
    + intros [?|(q & Hq & Hm)]; [by left; left|].
      apply elem_of_cons in Hq as [->|Hq]; [by left; right|].
      right. eauto.
Qed.

Lemma elem_of_measures_of procs m :
  m ∈ measures_of procs ↔ ∃ proc, proc ∈ procs ∧ m ∈ required_measures proc.
Proof.
  unfold measures_of. rewrite elem_of_measures_of_acc.
  split; [intros [Hm|?]; [by apply not_elem_of_empty in Hm|done]|auto].
Qed.

Lemma pre_measures_declared model m :
  m ∈ pre_measures (_prepare_setup_pre_and_postprocessing model)
  ↔ ∃ proc, proc ∈ declared_pre model ∧ m ∈ required_measures proc.
Proof.
  rewrite <- setup_pre_declared, <- elem_of_measures_of.
  by destruct model.
Qed.

Lemma post_measures_declared model m :
  m ∈ post_measures (_prepare_setup_pre_and_postprocessing model)
  ↔ ∃ proc, proc ∈ declared_post model ∧ m ∈ required_measures proc.
Proof.
  rewrite <- setup_post_declared, <- elem_of_measures_of.
  by destruct model.
Qed.

(** What [setup_pre_and_postprocessing] returns once the initial
    statistics are known. *)
Lemma setup_with_initial_stats model dataset keep fixed initial_stats :
  initial_stats_of (missing_of model fixed) dataset = Ok initial_stats →
  let s := _prepare_setup_pre_and_postprocessing model in
  setup_pre_and_postprocessing model dataset keep fixed
  = Ok {| pre := known_stats_ops fixed
                   ++ UpdateStats (StatsCalculator (pre_measures s)
                                                   (Some initial_stats)) keep
                   :: declared_pre model;
          post := known_stats_ops fixed
                    ++ (if decide (post_measures s = ∅) then []
                        else [UpdateStats (StatsCalculator (post_measures s)
                                                           (Some initial_stats))
                                          keep])
                    ++ declared_post model |}.
Proof.
  intros Hinit s. unfold setup_pre_and_postprocessing.
  fold s. unfold missing_of in Hinit. fold s in Hinit. rewrite Hinit. simpl.
  rewrite <- setup_pre_declared, <- setup_post_declared. fold s.
  unfold known_stats_ops.
  destruct (truthy_stats fixed); destruct (decide (post_measures s = ∅)); reflexivity.
Qed.

Lemma setup_raises model dataset keep fixed e :
  initial_stats_of (missing_of model fixed) dataset = Raise e →
  setup_pre_and_postprocessing model dataset keep fixed = Raise e.
Proof.
  intros Hinit. unfold setup_pre_and_postprocessing.
  unfold missing_of in Hinit. by rewrite Hinit.
Qed.

Lemma foldl_update (calc : StatsCalculatorT) (dataset : list Sample) :
  foldl update calc dataset
  = mkStatsCalculator (measures calc) (initial_dataset_measures calc)
                      (observed calc ++ dataset).
Proof.
  revert calc. induction dataset as [|x dataset IH]; intros calc; simpl.
  - rewrite app_nil_r. by destruct calc.
  - rewrite IH. simpl. by rewrite <- app_assoc.
Qed.

Lemma initial_stats_calc_Some (missing : gset Measure) (dataset : list Sample) m :
  m ∈ missing →
  initial_stats_calc missing dataset = Some (mkStatsCalculator missing None dataset).
Proof.
  intros Hm. unfold initial_stats_calc.
  destruct (decide (missing = ∅)) as [->|_].
  - by apply not_elem_of_empty in Hm.
  - by rewrite foldl_update.
Qed.

Lemma initial_stats_calc_measures (missing : gset Measure) (dataset : list Sample) calc :
  initial_stats_calc missing dataset = Some calc →
  measures calc = missing ∧ observed calc = dataset.
Proof.
  unfold initial_stats_calc. destruct (decide (missing = ∅)); [done|].
  rewrite foldl_update. by intros [= <-].
Qed.

Lemma elem_of_missing_of model fixed m :
  m ∈ missing_of model fixed
  ↔ not_fixed fixed m
    ∧ (m ∈ pre_measures (_prepare_setup_pre_and_postprocessing model)
       ∨ m ∈ post_measures (_prepare_setup_pre_and_postprocessing model)).
Proof.
  unfold missing_of, missing_dataset_stats.
  by rewrite elem_of_filter, elem_of_union.
Qed.

(** C2 (as amended): when [setup_pre_and_postprocessing] returns, the
    initial statistics were finalized, and each list is:
    [AddKnownDatasetStats] if fixed statistics were given and are not
    empty; then [UpdateStats] with a calculator for the measures of that
    direction, seeded with the initial statistics, and with the online
    flag -- in the post list only when postprocessing requires a measure;
    then the operators of the tensors in their declared order. *)
Theorem setup_pre_and_postprocessing_lists model dataset keep fixed pp :
  setup_pre_and_postprocessing model dataset keep fixed = Ok pp →
  ∃ initial_stats,
    initial_stats_of (missing_of model fixed) dataset = Ok initial_stats
    ∧ pre pp
      = known_stats_ops fixed
          ++ UpdateStats
               (StatsCalculator
                  (pre_measures (_prepare_setup_pre_and_postprocessing model))
                  (Some initial_stats)) keep
          :: declared_pre model
    ∧ post pp
      = known_stats_ops fixed
          ++ (if decide (post_measures (_prepare_setup_pre_and_postprocessing model)
                         = ∅)
              then []
              else [UpdateStats
                      (StatsCalculator
                         (post_measures (_prepare_setup_pre_and_postprocessing model))
                         (Some initial_stats)) keep])
          ++ declared_post model.
Proof.
  intros Hsetup.
  destruct (initial_stats_of (missing_of model fixed) dataset)
    as [initial_stats|e] eqn:Hinit.
  - exists initial_stats. split; [done|].
    rewrite (setup_with_initial_stats _ _ keep _ _ Hinit) in Hsetup.
    by injection Hsetup as <-.
  - by rewrite (setup_raises _ _ keep _ _ Hinit) in Hsetup.
Qed.

(** C3 (as amended): a measure that both preprocessing and
    postprocessing require, and for which no fixed value is given, is in
    the required set of the one calculator of the initial pass; that
    calculator sees every sample of the dataset once, and the statistics
    it finalizes seed the [UpdateStats] calculators of both lists (or
    [setup_pre_and_postprocessing] raises what [finalize] raised). *)
Theorem shared_measure_computed_once model dataset keep fixed m :
  m ∈ pre_measures (_prepare_setup_pre_and_postprocessing model) →
  m ∈ post_measures (_prepare_setup_pre_and_postprocessing model) →
  not_fixed fixed m →
  computed_once_and_shared model dataset keep fixed m.
Proof.
  intros Hpre Hpost Hfree. unfold computed_once_and_shared.
  assert (Hmiss : m ∈ missing_of model fixed).
  { apply elem_of_missing_of. auto. }
  exists (mkStatsCalculator (missing_of model fixed) None dataset).
  pose proof (initial_stats_calc_Some _ dataset _ Hmiss) as Hcalc.
  split; [done|]. simpl. split.
  { apply NoDup_count_occ'; [apply NoDup_ListNoDup, NoDup_elements|].
    apply list_elem_of_In, elem_of_elements, Hmiss. }
  split; [done|].
  destruct (finalize (mkStatsCalculator (missing_of model fixed) None dataset))
    as [stats|e] eqn:Hfin.
  - assert (Hinit : initial_stats_of (missing_of model fixed) dataset = Ok stats).
    { unfold initial_stats_of. by rewrite Hcalc. }
    eexists. split; [apply (setup_with_initial_stats _ _ keep _ _ Hinit)|].
    simpl. split.
    + apply elem_of_app. right. apply list_elem_of_here.
    + apply elem_of_app. right. apply elem_of_app. left.
      destruct (decide (post_measures (_prepare_setup_pre_and_postprocessing model)
                        = ∅)) as [Hempty|_].
      * rewrite Hempty in Hpost. by apply not_elem_of_empty in Hpost.
      * apply list_elem_of_here.
  - apply setup_raises. unfold initial_stats_of. by rewrite Hcalc.
Qed.

(** C4 (as amended): in format 0.4 every input and every output tensor
    has its [EnsureDtype] among the assembled operators, directly
    followed by its declared steps, so a tensor contributes one operator
    more than it declares steps, and [EnsureDtype] alone when it
    declares none. *)
Theorem v0_4_tensors_keep_EnsureDtype (m : ModelDescr_v0_4) :
  fst (_prepare_v4_preprocs (inputs4 m)) = flat_map ops_of_input_v0_4 (inputs4 m)
  ∧ fst (_prepare_v4_postprocs (outputs4 m))
    = flat_map ops_of_output_v0_4 (outputs4 m)
  ∧ (∀ t, t ∈ inputs4 m →
          normalizes_dtype (in4_name t) (fst (_prepare_v4_preprocs (inputs4 m)))
          ∧ length (ops_of_input_v0_4 t) = S (length (in4_preprocessing t)))
  ∧ (∀ t, t ∈ outputs4 m →
          normalizes_dtype (out4_name t) (fst (_prepare_v4_postprocs (outputs4 m)))
          ∧ length (ops_of_output_v0_4 t) = S (length (out4_postprocessing t))).
Proof.
  split; [apply _prepare_v4_preprocs_ops|].
  split; [apply _prepare_v4_postprocs_ops|].
  split.
  - intros t Ht. split.
    + exists (in4_data_type t). rewrite _prepare_v4_preprocs_ops.
      apply list_elem_of_In, in_flat_map. exists t.
      split; [by apply list_elem_of_In|]. by left.
    + unfold ops_of_input_v0_4. simpl. by rewrite length_map.
  - intros t Ht. split.
    + exists (out4_data_type t). rewrite _prepare_v4_postprocs_ops.
      apply list_elem_of_In, in_flat_map. exists t.
      split; [by apply list_elem_of_In|]. by left.
    + unfold ops_of_output_v0_4. simpl. by rewrite length_map.
Qed.

(** C5 (as amended): a measure with a fixed value is not among the
    measures of the initial pass, so the calculator that is fed the dataset
    does not require it.  When [setup_pre_and_postprocessing] returns, both
    lists start with [AddKnownDatasetStats] holding the mapping that was
    given, and this is the only place of the fixed values: the calculators
    of the [UpdateStats] that follow require the measures of their
    direction, the fixed ones among them, and are seeded with the result of
    the initial pass; so what follows [AddKnownDatasetStats] is the same
    for all values that are fixed for the same measures. *)
Theorem fixed_measure_not_aggregated model dataset keep
        (fixed : gmap Measure MeasureValue) m v :
  fixed !! m = Some v →
  (m ∉ missing_of model (Some fixed))
  ∧ (∀ calc, initial_stats_calc (missing_of model (Some fixed)) dataset = Some calc →
             m ∉ measures calc)
  ∧ (∀ pp, setup_pre_and_postprocessing model dataset keep (Some fixed) = Ok pp →
           ∃ initial_stats,
             initial_stats_of (missing_of model (Some fixed)) dataset
             = Ok initial_stats
             ∧ pre pp
               = AddKnownDatasetStats fixed
                   :: UpdateStats
                        (StatsCalculator
                           (pre_measures (_prepare_setup_pre_and_postprocessing model))
                           (Some initial_stats)) keep
                   :: declared_pre model
             ∧ post pp
               = AddKnownDatasetStats fixed
                   :: (if decide (post_measures
                                    (_prepare_setup_pre_and_postprocessing model) = ∅)
                       then []
                       else [UpdateStats
                               (StatsCalculator
                                  (post_measures
                                     (_prepare_setup_pre_and_postprocessing model))
                                  (Some initial_stats)) keep])
                   ++ declared_post model)
  ∧ (∀ (fixed' : gmap Measure MeasureValue) pp pp',
        (∀ m', fixed' !! m' = None ↔ fixed !! m' = None) →
        setup_pre_and_postprocessing model dataset keep (Some fixed) = Ok pp →
        setup_pre_and_postprocessing model dataset keep (Some fixed') = Ok pp' →
        tail (pre pp') = tail (pre pp) ∧ tail (post pp') = tail (post pp)).
Proof.
  intros Hfixed.
  assert (Hnot : m ∉ missing_of model (Some fixed)).
  { rewrite elem_of_missing_of. simpl. intros [Hnone _]. congruence. }
  assert (Hknown : ∀ fixed0 : gmap Measure MeasureValue,
             is_Some (fixed0 !! m) →
             known_stats_ops (Some fixed0) = [AddKnownDatasetStats fixed0]).
  { intros fixed0 [v0 Hv0]. unfold known_stats_ops, truthy_stats.
    destruct (decide (fixed0 = ∅)) as [->|_]; [|done].
    by rewrite lookup_empty in Hv0. }
  assert (Hlists : ∀ (fixed0 : gmap Measure MeasureValue) pp,
             is_Some (fixed0 !! m) →
             setup_pre_and_postprocessing model dataset keep (Some fixed0) = Ok pp →
             ∃ initial_stats,
               initial_stats_of (missing_of model (Some fixed0)) dataset
               = Ok initial_stats
               ∧ pre pp
                 = AddKnownDatasetStats fixed0
                     :: UpdateStats
                          (StatsCalculator
                             (pre_measures (_prepare_setup_pre_and_postprocessing model))
                             (Some initial_stats)) keep
                     :: declared_pre model
               ∧ post pp
                 = AddKnownDatasetStats fixed0
                     :: (if decide (post_measures
                                      (_prepare_setup_pre_and_postprocessing model) = ∅)
                         then []
                         else [UpdateStats
                                 (StatsCalculator
                                    (post_measures
                                       (_prepare_setup_pre_and_postprocessing model))
                                    (Some initial_stats)) keep])
                     ++ declared_post model).
  { intros fixed0 pp Hsome Hsetup.
    destruct (initial_stats_of (missing_of model (Some fixed0)) dataset)
      as [initial_stats|e] eqn:Hinit.
    - rewrite (setup_with_initial_stats _ _ keep _ _ Hinit) in Hsetup.
      injection Hsetup as <-. exists initial_stats. simpl.
      by rewrite (Hknown fixed0 Hsome).
    - by rewrite (setup_raises _ _ keep _ _ Hinit) in Hsetup. }
  split; [done|]. split; [|split].
  - intros calc Hcalc. apply initial_stats_calc_measures in Hcalc as [-> _]. done.
  - intros pp Hsetup. by apply Hlists.
  - intros fixed' pp pp' Hsame Hsetup Hsetup'.
    assert (Hsome' : is_Some (fixed' !! m)).
    { destruct (fixed' !! m) eqn:Hm'; [done|]. apply Hsame in Hm'. congruence. }
    assert (Hmissing : missing_of model (Some fixed') = missing_of model (Some fixed)).
    { apply set_eq. intros m'. rewrite !elem_of_missing_of. simpl.
      by rewrite Hsame. }
    destruct (Hlists fixed pp (ltac:(by eexists)) Hsetup)
      as (initial_stats & Hinit & -> & ->).
    destruct (Hlists fixed' pp' Hsome' Hsetup')
      as (initial_stats' & Hinit' & -> & ->).
    rewrite Hmissing, Hinit in Hinit'. by injection Hinit' as <-.
Qed.

End Facts.

Import ProcSetupExample.

(** The lists of [model_plain_v0_4] have the form of C2 (as amended). *)
Lemma setup_pre_and_postprocessing_lists_witness :
  setup_pre_and_postprocessing model_plain_v0_4 [] false None = Ok plain_v0_4_lists
  ∧ ∃ initial_stats,
      initial_stats_of (missing_of model_plain_v0_4 None) [] = Ok initial_stats
      ∧ pre plain_v0_4_lists
        = UpdateStats (StatsCalculator ∅ (Some initial_stats)) false
            :: declared_pre model_plain_v0_4
      ∧ post plain_v0_4_lists = declared_post model_plain_v0_4.
Proof.
  split; [reflexivity|].
  destruct (setup_pre_and_postprocessing_lists
              model_plain_v0_4 [] false None plain_v0_4_lists)
    as (initial_stats & Hinit & Hpre & Hpost); [reflexivity|].
  exists initial_stats. split; [exact Hinit|]. split.
  - exact Hpre.
  - exact Hpost.
Defined.

(** C2, the claim as stated fails: the post list of a model whose
    postprocessing requires no measure has no [UpdateStats] at its head. *)
Lemma post_list_without_UpdateStats :
  ∃ pp, setup_pre_and_postprocessing model_plain_v0_5 [] false None = Ok pp
        ∧ post pp = []
        ∧ ¬ UpdateStats_then (declared_post model_plain_v0_5) false (post pp).
Proof.
  eexists. split; [reflexivity|]. split; [reflexivity|].
  intros [calc Hcalc]. simpl in Hcalc. discriminate Hcalc.
Qed.

(** Both directions of [model_shared] get the statistics of one pass over
    [dataset3]. *)
Lemma shared_measure_computed_once_witness :
  computed_once_and_shared model_shared dataset3 false None (dataset_mean "raw").
Proof.
  apply shared_measure_computed_once.
  - reflexivity.
  - reflexivity.
  - exact I.
Defined.

(** C3, the claim as stated fails: with a fixed value for the dataset mean
    of [raw], which both directions of [model_shared] require, the initial
    pass does not compute that measure. *)
Lemma shared_measure_not_computed_when_fixed :
  (dataset_mean "raw"
     ∈ pre_measures (_prepare_setup_pre_and_postprocessing model_shared)
   ∧ dataset_mean "raw"
       ∈ post_measures (_prepare_setup_pre_and_postprocessing model_shared))
  ∧ ¬ computed_once_and_shared model_shared dataset3 false (Some mean_fixed)
        (dataset_mean "raw").
Proof.
  split; [split; reflexivity|].
  intros (calc & Hcalc & Hcount & _).
  apply initial_stats_calc_measures in Hcalc as [Hmeasures _].
  rewrite Hmeasures in Hcount. vm_compute in Hcount. discriminate Hcount.
Qed.

(** The input and the output of [model_plain_v0_4] declare no step and
    have their [EnsureDtype]. *)
Lemma v0_4_tensors_keep_EnsureDtype_witness :
  normalizes_dtype "raw" (declared_pre model_plain_v0_4)
  ∧ normalizes_dtype "out" (declared_post model_plain_v0_4).
Proof.
  destruct (v0_4_tensors_keep_EnsureDtype plain_v0_4) as (Hpre & Hpost & Hin & Hout).
  split.
  - destruct (Hin raw_v0_4) as [Hdtype _].
    + apply list_elem_of_here.
    + rewrite Hpre in Hdtype. exact Hdtype.
  - destruct (Hout out_v0_4) as [Hdtype _].
    + apply list_elem_of_here.
    + rewrite Hpost in Hdtype. exact Hdtype.
Defined.

(** C4, the claim as stated fails: in format 0.5 a tensor without declared
    steps gets no operator, and the lists that
    [setup_pre_and_postprocessing] returns hold no [EnsureDtype] for it. *)
Lemma v0_5_tensor_without_EnsureDtype :
  fst (_prepare_v5_preprocs [ {| in5_id := "raw"; in5_preprocessing := [] |} ]) = []
  ∧ ∃ pp, setup_pre_and_postprocessing model_plain_v0_5 [] false None = Ok pp
          ∧ ¬ normalizes_dtype "raw" (pre pp)
          ∧ ¬ normalizes_dtype "out" (post pp).
Proof.
  split; [reflexivity|].
  eexists. split; [reflexivity|]. split.
  - intros [dtype Hin]. apply elem_of_cons in Hin as [Heq|Hin]; [discriminate Heq|].
    by apply elem_of_nil in Hin.
  - intros [dtype Hin]. by apply elem_of_nil in Hin.
Qed.

(** With [mean_fixed], the dataset mean of [raw] is not computed from
    [dataset3], and both lists start with the fixed statistics. *)
Lemma fixed_measure_not_aggregated_witness :
  mean_fixed !! dataset_mean "raw" = Some 7%Z
  ∧ (dataset_mean "raw" ∉ missing_of model_shared (Some mean_fixed))
  ∧ setup_pre_and_postprocessing model_shared dataset3 false (Some mean_fixed)
    = Ok shared_lists_mean_fixed
  ∧ ∃ initial_stats,
      initial_stats_of (missing_of model_shared (Some mean_fixed)) dataset3
      = Ok initial_stats
      ∧ pre shared_lists_mean_fixed
        = AddKnownDatasetStats mean_fixed
            :: UpdateStats
                 (StatsCalculator
                    (pre_measures (_prepare_setup_pre_and_postprocessing model_shared))
                    (Some initial_stats)) false
            :: declared_pre model_shared.
Proof.
  assert (Hfixed : mean_fixed !! dataset_mean "raw" = Some 7%Z)
    by (reflexivity).
  assert (Hsetup : setup_pre_and_postprocessing model_shared dataset3 false
                     (Some mean_fixed) = Ok shared_lists_mean_fixed)
    by (reflexivity).
  destruct (fixed_measure_not_aggregated model_shared dataset3 false mean_fixed
              (dataset_mean "raw") 7%Z Hfixed) as (Hmissing & _ & Hlists & _).
  split; [exact Hfixed|]. split; [exact Hmissing|]. split; [exact Hsetup|].
  destruct (Hlists _ Hsetup) as (initial_stats & Hinit & Hpre & _).
  exists initial_stats. split; [exact Hinit|exact Hpre].
Defined.

(** C5, the claim as stated fails: the dataset mean of [raw] is fixed at 7,
    but the calculator of the [UpdateStats] in the list for preprocessing
    requires it and was not given the 7: it is seeded with the standard
    deviation of the initial pass only. *)
Lemma fixed_value_not_given_to_calculator :
  mean_fixed !! dataset_mean "raw" = Some 7%Z
  ∧ setup_pre_and_postprocessing model_shared dataset3 false (Some mean_fixed)
    = Ok shared_lists_mean_fixed
  ∧ ¬ seeded_with (pre shared_lists_mean_fixed) (dataset_mean "raw") 7%Z.
Proof.
  split; [reflexivity|]. split; [reflexivity|].
  intros Hseeded.
  destruct (Hseeded (StatsCalculator {[ dataset_mean "raw"; dataset_std "raw" ]}
                       (Some {[ dataset_std "raw" := 0%Z ]})) false)
    as (stats & Hstats & Hmean).
  - right. left.
  - simpl. apply elem_of_union_l. by apply elem_of_singleton.
  - injection Hstats as <-. discriminate Hmean.
Qed.

End ProcSetupFacts.

(** ** Testing a description *)

Module ResourceTestsFacts.
Import ResourceTests.

Section Facts.

Context `{Env}.

(** *** The events of a computation *)

Lemma emits_ret P {A} (a : A) : emits P (mret a).
Proof.
  intros s r s' [= <- <-]. exists []. by rewrite app_nil_r.
Qed.

Lemma emits_lift P {A} (r : result A) : emits P (lift r).
Proof.
  intros s r' s' [= <- <-]. exists []. by rewrite app_nil_r.
Qed.

Lemma emits_raise P {A} (e : exn) : emits P (raise (A := A) e).
Proof.
  intros s r' s' [= <- <-]. exists []. by rewrite app_nil_r.
Qed.

Lemma emits_call P {A} (ev : result A -> Event) f :
  (∀ r, P (ev r)) → emits P (call ev f).
Proof.
  intros HP s r s'. unfold call. destruct (f (world s)) as [r0 w].
  intros [= <- <-]. exists [ev r0]. split; [done|]. by constructor.
Qed.

Lemma emits_warn P message : P (Warn message) → emits P (warn message).
Proof.
  intros HP s r s' [= <- <-]. exists [Warn message]. split; [done|]. by constructor.
Qed.

Lemma emits_bind P {A B} (m : M St A) (k : A -> M St B) :
  emits P m → (∀ a, emits P (k a)) → emits P (m ≫= k).
Proof.
  intros Hm Hk s r s'. unfold mbind, M_bind.
  destruct (m s) as [[a|e] s1] eqn:Hms.
  - intros Hks. destruct (Hm _ _ _ Hms) as (ev1 & Ht1 & H1).
    destruct (Hk a _ _ _ Hks) as (ev2 & Ht2 & H2).
    exists (ev1 ++ ev2). rewrite Ht2, Ht1, app_assoc. split; [done|].
    by apply Forall_app.
  - intros [= <- <-]. exact (Hm _ _ _ Hms).
Qed.

Lemma emits_try_except P {A} (m : M St A) handler :
  emits P m → (∀ e, emits P (handler e)) → emits P (try_except m handler).
Proof.
  intros Hm Hh s r s'. unfold try_except.
  destruct (m s) as [[a|e] s1] eqn:Hms.
  - intros [= <- <-]. exact (Hm _ _ _ Hms).
  - intros Hhs. destruct (Hm _ _ _ Hms) as (ev1 & Ht1 & H1).
    destruct (Hh e _ _ _ Hhs) as (ev2 & Ht2 & H2).
    exists (ev1 ++ ev2). rewrite Ht2, Ht1, app_assoc. split; [done|].
    by apply Forall_app.
Qed.

Lemma emits_mapM P {A B} (f : A -> M St B) xs :
  (∀ x, emits P (f x)) → emits P (mapM f xs).
Proof.
  intros Hf. induction xs as [|x xs IH]; simpl.
  - apply emits_ret.
  - apply emits_bind; [apply Hf|]. intros y.
    apply emits_bind; [apply IH|]. intros ys. apply emits_ret.
Qed.

Lemma emits_foldlM P {A B} (f : B -> A -> M St B) xs b :
  (∀ b x, emits P (f b x)) → emits P (foldlM f b xs).
Proof.
  intros Hf. revert b. induction xs as [|x xs IH]; intros b; simpl.
  - apply emits_ret.
  - apply emits_bind; [apply Hf|]. intros b'. apply IH.
Qed.



Lemma events_since_app (s s' : St) events :
  trace s' = trace s ++ events → events_since s s' = events.
Proof.
  intros Ht. unfold events_since. by rewrite Ht, drop_app_length.
Qed.

Lemma load_v0_4_emits sources descrs : emits is_load (load_v0_4 sources descrs).
Proof.
  apply emits_mapM. intros [src d].
  apply emits_bind; [by apply emits_call|]. intros a. apply emits_lift.
Qed.

Lemma load_v0_5_emits descrs : emits is_load (load_v0_5 descrs).
Proof.
  apply emits_mapM. intros d.
  apply emits_bind; [by apply emits_call|]. intros path.
  apply emits_bind; [by apply emits_call|]. intros a. apply emits_lift.
Qed.



(** *** The loop over the parametrized test cases *)









Lemma forward_calls_app e1 e2 :
  forward_calls (e1 ++ e2) = forward_calls e1 ++ forward_calls e2.
Proof. apply omap_app. Qed.




(** *** The inference test always returns *)

Lemma _test_model_inference_eq model weight_format devices decimal summary s :
  _test_model_inference model weight_format devices decimal summary s
  = match reproduce_test_outputs model weight_format devices decimal s with
    | (Ok error, s') =>
        (Ok (add_detail summary (inference_detail error [] weight_format)), s')
    | (Raise e, s') =>
        (Ok (add_detail summary (failed_detail (exn_msg e) (exn_tb e) weight_format)),
         s')
    end.
Proof.
  unfold _test_model_inference, mbind, M_bind, try_except.
  by destruct (reproduce_test_outputs model weight_format devices decimal s)
    as [[error|e] s'].
Qed.

Lemma _test_model_inference_with_parametrized_inputs_eq
      model weight_format devices summary s :
  _test_model_inference_with_parametrized_inputs model weight_format devices summary s
  = if has_parameterized_input model then
      match check_parametrized_shapes model weight_format devices s with
      | (Ok error, s') =>
          (Ok (add_detail summary (inference_detail error [] weight_format)), s')
      | (Raise e, s') =>
          (Ok (add_detail summary
                          (failed_detail (exn_msg e) (exn_tb e) weight_format)),
           s')
      end
    else (Ok summary, s).
Proof.
  unfold _test_model_inference_with_parametrized_inputs.
  destruct (has_parameterized_input model); [|done]. simpl.
  unfold mbind, M_bind, try_except.
  by destruct (check_parametrized_shapes model weight_format devices s)
    as [[error|e] s'].
Qed.

Lemma _test_model_inference_returns model weight_format devices decimal summary s :
  ∃ detail s',
    _test_model_inference model weight_format devices decimal summary s
    = (Ok (add_detail summary detail), s').
Proof.
  rewrite _test_model_inference_eq.
  destruct (reproduce_test_outputs model weight_format devices decimal s)
    as [[error|e] s']; eauto.
Qed.

Lemma _test_model_inference_with_parametrized_inputs_returns
      model weight_format devices summary s :
  ∃ summary' s',
    _test_model_inference_with_parametrized_inputs model weight_format devices
                                                   summary s
    = (Ok summary', s').
Proof.
  rewrite _test_model_inference_with_parametrized_inputs_eq.
  destruct (has_parameterized_input model); [|eauto].
  destruct (check_parametrized_shapes model weight_format devices s)
    as [[error|e] s']; eauto.
Qed.

Lemma test_loaded_description_returns rd weight_format devices decimal expected_type s :
  ∃ rd' s',
    test_loaded_description rd weight_format devices decimal expected_type s
    = (Ok rd', s').
Proof.
  unfold test_loaded_description.
  match goal with |- context [body ?x] => generalize x end.
  intros rd0. destruct (body rd0) as [model|]; [|by eexists _, _].
  unfold mbind, M_bind.
  destruct (_test_model_inference_returns model weight_format devices decimal
              (validation_summary rd0) s) as (detail & s1 & ->).
  destruct model as [m|m]; [by eexists _, _|].
  destruct (_test_model_inference_with_parametrized_inputs_returns
              m weight_format devices
              (add_detail (validation_summary rd0) detail) s1) as (summary' & s2 & ->).
  by eexists _, _.
Qed.

Lemma load_description_and_test_eq
      source format_version weight_format devices decimal expected_type s :
  load_description_and_test source format_version weight_format devices decimal
                            expected_type s
  = match description_under_test source format_version s with
    | (Ok rd, s0) =>
        test_loaded_description rd weight_format devices decimal expected_type s0
    | (Raise e, s0) => (Raise e, s0)
    end.
Proof.
  unfold load_description_and_test, description_under_test.
  destruct source as [rd|content|file].
  - destruct (negb (String.eqb format_version "discover")
              && negb (String.eqb (rd_format_version rd) format_version));
      reflexivity.
  - reflexivity.
  - unfold mbind, M_bind, mret, M_ret, call. simpl.
    by destruct (load_description file format_version (world s)) as [[rd|e] w].
Qed.

Lemma test_description_eq
      source format_version weight_format devices decimal expected_type s :
  test_description source format_version weight_format devices decimal
                   expected_type s
  = match load_description_and_test source format_version weight_format devices
                                    decimal expected_type s with
    | (Ok rd, s') => (Ok (validation_summary rd), s')
    | (Raise e, s') => (Raise e, s')
    end.
Proof.
  unfold test_description, mbind, M_bind.
  by destruct (load_description_and_test source format_version weight_format
                 devices decimal expected_type s) as [[rd|e] s'].
Qed.

(** The tests of a model start from [summary_before_tests]; the inference
    test adds its detail, and the parametrized test of a 0.5 model
    follows. *)
Lemma test_loaded_description_eq rd weight_format devices decimal expected_type s :
  ∃ rd0,
    (∀ summary, validation_summary (set_summary rd0 summary) = summary)
    ∧ validation_summary rd0 = summary_before_tests rd expected_type
    ∧ test_loaded_description rd weight_format devices decimal expected_type s
      = match body rd with
        | IsModel model =>
            match _test_model_inference model weight_format devices decimal
                    (summary_before_tests rd expected_type) s with
            | (Ok summary, s1) =>
                match model with
                | V0_4 _ => (Ok (set_summary rd0 summary), s1)
                | V0_5 m =>
                    match _test_model_inference_with_parametrized_inputs
                            m weight_format devices summary s1 with
                    | (Ok summary', s2) => (Ok (set_summary rd0 summary'), s2)
                    | (Raise e, s2) => (Raise e, s2)
                    end
                end
            | (Raise e, s1) => (Raise e, s1)
            end
        | NotAModel => (Ok rd0, s)
        end.
Proof.
  exists (let rd1 :=
            set_summary rd
              (add_env (validation_summary rd)
                 {| pkg_name := "bioimageio.core";
                    pkg_version := bioimageio_core_version |}) in
          match expected_type with
          | Some t => _test_expected_resource_type rd1 t
          | None => rd1
          end).
  unfold test_loaded_description, summary_before_tests.
  destruct expected_type as [t|]; simpl;
    (split; [done|]); (split; [done|]);
    (destruct (body rd) as [model|]; [|done]); unfold mbind, M_bind;
    (destruct (_test_model_inference model weight_format devices decimal _ s)
      as [[summary|e] s1]; [|done]);
    (destruct model as [m|m]; [done|]);
    by destruct (_test_model_inference_with_parametrized_inputs
                   m weight_format devices summary s1) as [[summary'|e] s2].
Qed.

Lemma parametrized_details model weight_format devices summary s summary' s' :
  _test_model_inference_with_parametrized_inputs model weight_format devices
                                                 summary s = (Ok summary', s') →
  details summary `prefix_of` details summary'.
Proof.
  rewrite _test_model_inference_with_parametrized_inputs_eq.
  destruct (has_parameterized_input model).
  - destruct (check_parametrized_shapes model weight_format devices s)
      as [[error|e] s1]; intros [= <- <-]; by apply prefix_app_r.
  - by intros [= <- <-].
Qed.

(** C1 (as amended): the description that is tested is the source itself,
    what is built from its content, or what [load_description] returns for
    a file source.  [load_description_and_test] and [test_description]
    raise only when the source is a file and [load_description] raises for
    it, and then that exception; in every other case they return, the
    latter with the validation summary of the tested description, which
    keeps the details it had before the tests.  An exception raised by the
    [try] block of [_test_model_inference] (loading the test tensors,
    creating the pipeline, [forward], leaving the pipeline, comparing the
    outputs) is in the returned summary as a detail with status [failed]
    that holds the message and the traceback of the exception, and so is,
    as the last detail, an exception raised by the [try] block of the
    parametrized test. *)
Theorem testing_never_raises
        source format_version weight_format devices decimal expected_type s :
  match source with
  | FromDescr rd =>
      description_under_test source format_version s
      = if negb (String.eqb format_version "discover")
           && negb (String.eqb (rd_format_version rd) format_version)
        then (Ok (build_description (dump_description rd) format_version),
              mkSt (world s)
                   (trace s
                      ++ [Warn ("deserializing source to ensure we validate and "
                                  +:+ "test using format " +:+ format_version)]))
        else (Ok rd, s)
  | FromContent content =>
      description_under_test source format_version s
      = (Ok (build_description content format_version), s)
  | FromFile file =>
      ∀ outcome w,
        load_description file format_version (world s) = (outcome, w) →
        description_under_test source format_version s
        = (outcome, mkSt w (trace s ++ [LoadDescription file]))
  end
  ∧ (∀ e s0,
        description_under_test source format_version s = (Raise e, s0) →
        (∃ file w, source = FromFile file
                   ∧ load_description file format_version (world s) = (Raise e, w))
        ∧ load_description_and_test source format_version weight_format devices
                                    decimal expected_type s = (Raise e, s0)
        ∧ test_description source format_version weight_format devices
                           decimal expected_type s = (Raise e, s0))
  ∧ (∀ rd s0,
        description_under_test source format_version s = (Ok rd, s0) →
        (∃ rd' s',
            load_description_and_test source format_version weight_format devices
                                      decimal expected_type s = (Ok rd', s')
            ∧ test_description source format_version weight_format devices
                               decimal expected_type s
              = (Ok (validation_summary rd'), s')
            ∧ details (summary_before_tests rd expected_type)
                `prefix_of` details (validation_summary rd'))
        ∧ (∀ model e s1,
              body rd = IsModel model →
              reproduce_test_outputs model weight_format devices decimal s0
              = (Raise e, s1) →
              ∃ summary' s',
                test_description source format_version weight_format devices
                                 decimal expected_type s = (Ok summary', s')
                ∧ details (summary_before_tests rd expected_type)
                    ++ [failed_detail (exn_msg e) (exn_tb e) weight_format]
                    `prefix_of` details summary')
        ∧ (∀ m outcome s1 e s2,
              body rd = IsModel (V0_5 m) →
              has_parameterized_input m = true →
              reproduce_test_outputs (V0_5 m) weight_format devices decimal s0
              = (outcome, s1) →
              check_parametrized_shapes m weight_format devices s1 = (Raise e, s2) →
              ∃ detail,
                test_description source format_version weight_format devices
                                 decimal expected_type s
                = (Ok (add_detail
                         (add_detail (summary_before_tests rd expected_type) detail)
                         (failed_detail (exn_msg e) (exn_tb e) weight_format)),
                   s2))).
Proof.
  split; [|split].
  - destruct source as [rd|content|file].
    + unfold description_under_test.
      by destruct (negb (String.eqb format_version "discover")
                   && negb (String.eqb (rd_format_version rd) format_version)).
    + done.
    + intros outcome w Hload.
      unfold description_under_test, mbind, M_bind, mret, M_ret, call.
      simpl. rewrite Hload. by destruct outcome.
  - intros e s0 Hdescr. split; [|split].
    + destruct source as [rd|content|file].
      * unfold description_under_test in Hdescr.
        by destruct (negb (String.eqb format_version "discover")
                     && negb (String.eqb (rd_format_version rd) format_version)).
      * done.
      * exists file. unfold description_under_test, mbind, M_bind, mret, M_ret, call
          in Hdescr. simpl in Hdescr.
        destruct (load_description file format_version (world s)) as [[rd|e'] w];
          [done|]. injection Hdescr as <- <-. by exists w.
    + by rewrite load_description_and_test_eq, Hdescr.
    + by rewrite test_description_eq, load_description_and_test_eq, Hdescr.
  - intros rd s0 Hdescr.
    destruct (test_loaded_description_eq rd weight_format devices decimal
                expected_type s0) as (rd0 & Hset & Hsummary & Htest).
    rewrite test_description_eq, load_description_and_test_eq, Hdescr, Htest.
    split; [|split].
    + destruct (body rd) as [model|].
      * rewrite _test_model_inference_eq.
        destruct (reproduce_test_outputs model weight_format devices decimal s0)
          as [[error|e] s1].
        -- destruct model as [m|m].
           ++ eexists _, _. split; [reflexivity|]. split; [reflexivity|].
              rewrite Hset. by apply prefix_app_r.
           ++ destruct (_test_model_inference_with_parametrized_inputs
                          m weight_format devices _ s1) as [[summary'|e] s2] eqn:Hparam.
              ** eexists _, _. split; [reflexivity|]. split; [reflexivity|].
                 rewrite Hset. apply parametrized_details in Hparam.
                 etrans; [|exact Hparam]. by apply prefix_app_r.
              ** destruct (_test_model_inference_with_parametrized_inputs_returns
                             m weight_format devices
                             (add_detail (summary_before_tests rd expected_type)
                                         (inference_detail error [] weight_format)) s1)
                   as (summary' & s2' & Hreturns). congruence.
        -- destruct model as [m|m].
           ++ eexists _, _. split; [reflexivity|]. split; [reflexivity|].
              rewrite Hset. by apply prefix_app_r.
           ++ destruct (_test_model_inference_with_parametrized_inputs
                          m weight_format devices _ s1) as [[summary'|e'] s2] eqn:Hparam.
              ** eexists _, _. split; [reflexivity|]. split; [reflexivity|].
                 rewrite Hset. apply parametrized_details in Hparam.
                 etrans; [|exact Hparam]. by apply prefix_app_r.
              ** destruct (_test_model_inference_with_parametrized_inputs_returns
                             m weight_format devices
                             (add_detail (summary_before_tests rd expected_type)
                                         (failed_detail (exn_msg e) (exn_tb e)
                                                        weight_format)) s1)
                   as (summary' & s2' & Hreturns). congruence.
      * eexists _, _. split; [reflexivity|]. split; [reflexivity|].
        by rewrite Hsummary.
    + intros model e s1 Hbody Hraise. rewrite Hbody, _test_model_inference_eq, Hraise.
      destruct model as [m|m].
      * eexists _, _. split; [reflexivity|]. by rewrite Hset.
      * destruct (_test_model_inference_with_parametrized_inputs
                    m weight_format devices _ s1) as [[summary'|e'] s2] eqn:Hparam.
        -- eexists _, _. split; [reflexivity|]. rewrite Hset.
           by apply parametrized_details in Hparam.
        -- destruct (_test_model_inference_with_parametrized_inputs_returns
                       m weight_format devices
                       (add_detail (summary_before_tests rd expected_type)
                                   (failed_detail (exn_msg e) (exn_tb e)
                                                  weight_format)) s1)
             as (summary' & s2' & Hreturns). congruence.
    + intros m outcome s1 e s2 Hbody Hparam Hfirst Hraise.
      rewrite Hbody, _test_model_inference_eq, Hfirst.
      destruct outcome as [error|e1];
        rewrite _test_model_inference_with_parametrized_inputs_eq, Hparam, Hraise;
        eexists; by rewrite Hset.
Qed.



End Facts.

Import ResourceTestsExample.

(** A backend that crashes in [forward]: the message and the traceback of
    the exception are in the summary that [test_description] returns. *)
Lemma testing_never_raises_witness :
  description_under_test (E := example_env crashing)
    (FromDescr (description_of model_v0_4)) "discover" start
  = (Ok (description_of model_v0_4), start)
  ∧ body (description_of model_v0_4) = IsModel model_v0_4
  ∧ reproduce_test_outputs (E := example_env crashing) model_v0_4 None None 4 start
    = (Raise boom, after_forward (Raise boom))
  ∧ ∃ summary' s',
      test_description (E := example_env crashing)
        (FromDescr (description_of model_v0_4)) "discover" None None 4
        (Some "model") start = (Ok summary', s')
      ∧ details (summary_before_tests (E := example_env crashing)
                   (description_of model_v0_4) (Some "model"))
          ++ [failed_detail "inference session crashed"
                            ["  File _prediction_pipeline.py, in forward"] None]
          `prefix_of` details summary'.
Proof.
  split; [reflexivity|]. split; [reflexivity|]. split; [reflexivity|].
  exact (proj1 (proj2 (proj2 (proj2 (testing_never_raises
                  (H0 := example_env crashing)
                  (FromDescr (description_of model_v0_4)) "discover" None None 4%Z
                  (Some "model") start))
               (description_of model_v0_4) start eq_refl))
               model_v0_4 boom (after_forward (Raise boom)) eq_refl eq_refl).
Defined.

(** C1, the claim as stated fails: for a file that [load_description]
    cannot load, the exception of [load_description] leaves
    [test_description] and [load_description_and_test]; no summary is
    returned. *)
Lemma missing_file_raises :
  load_description (Env := example_env doubling) "missing.yaml" "discover" tt
  = (Raise (file_not_found "missing.yaml"), tt)
  ∧ test_description (E := example_env doubling) (FromFile "missing.yaml")
      "discover" None None 4 None start
    = (Raise (file_not_found "missing.yaml"),
       mkSt tt [LoadDescription "missing.yaml"])
  ∧ load_description_and_test (E := example_env doubling) (FromFile "missing.yaml")
      "discover" None None 4 None start
    = (Raise (file_not_found "missing.yaml"),
       mkSt tt [LoadDescription "missing.yaml"]).
Proof.
  split; [reflexivity|]. split; reflexivity.
Qed.




End ResourceTestsFacts.

(** ** The ONNX adapter *)

Module OnnxAdapterFacts.
Import OnnxAdapter.

Section Facts.

Context {T : Types} {E : Env}.

(** C8: a device list never makes the construction of the adapter fail:
    with a device list [__init__] raises what it raises without one, and
    otherwise returns the same adapter, on the same session, after one more
    warning; [unload] issues a warning, changes nothing else and returns. *)
Theorem unsupported_capabilities_only_warn :
  (∀ model_description devices s,
      __init__ model_description (Some devices) s
      = match __init__ model_description None s with
        | (Ok adapter, s') =>
            (Ok adapter, mkSt (world s') (warnings s' ++ [devices_warning devices]))
        | (Raise e, s') => (Raise e, s')
        end)
  ∧ (∀ adapter s,
        unload adapter s = (Ok tt, mkSt (world s) (warnings s ++ [unload_warning]))).
Proof.
  split; [|done].
  intros model_description devices s. unfold __init__.
  destruct rt as [runtime|]; [|done].
  destruct (weights_onnx_source model_description) as [source|]; [|done].
  unfold mbind, M_bind, call.
  by destruct (InferenceSession runtime source (world s)) as [[session|e] w].
Qed.

End Facts.

Import OnnxExample.

(** The adapter of [example_model] for the devices [cpu] and [cuda]. *)
Lemma devices_are_ignored :
  __init__ (E := example_env) example_model (Some ["cpu"; "cuda"]) (mkSt tt [])
  = (Ok {| _internal_output_axes := [["b"; "c"; "y"; "x"]];
           _session := "weights.onnx";
           _input_names := ["input"] |},
     mkSt tt [ "Device management is not implemented for onnx yet, "
                 +:+ "ignoring the devices [cpu, cuda]" ]).
Proof. reflexivity. Qed.

End OnnxAdapterFacts.

(** ** [predict] *)

Module PredictionFacts.
Import Prediction.

Section Facts.

Context {T : Types} {E : Env}.

Lemma predict_after_check prediction_pipeline inputs inputs_seq :
  inputs_seq_of prediction_pipeline inputs = Ok inputs_seq →
  predict prediction_pipeline inputs
  = (elements ← iterate inputs;
     tagged_data ← mapM tag (zip elements (input_axes prediction_pipeline));
     forward prediction_pipeline tagged_data).
Proof. intros Hseq. unfold predict. by rewrite Hseq. Qed.

(** C9: for a list or tuple, [predict] fails its assertion when the length
    differs from the number of input ids, and returns only when the lengths
    are equal; one tensor or one array is checked as the sequence of that
    one element, so the assertion fails unless there is one input id. *)
Theorem predict_checks_number_of_inputs prediction_pipeline :
  (∀ items : list Value,
      length items ≠ length (input_ids prediction_pipeline) →
      predict prediction_pipeline (Sequence items) = Raise (Exn AssertionError "" []))
  ∧ (∀ items out,
        predict prediction_pipeline (Sequence items) = Ok out →
        length items = length (input_ids prediction_pipeline))
  ∧ (∀ t, inputs_seq_of prediction_pipeline (OneTensor t)
          = inputs_seq_of prediction_pipeline (Sequence [VTensor t]))
  ∧ (∀ a, inputs_seq_of prediction_pipeline (OneArray a)
          = inputs_seq_of prediction_pipeline (Sequence [VArray a]))
  ∧ (∀ t, length (input_ids prediction_pipeline) ≠ 1 →
          predict prediction_pipeline (OneTensor t) = Raise (Exn AssertionError "" []))
  ∧ (∀ a, length (input_ids prediction_pipeline) ≠ 1 →
          predict prediction_pipeline (OneArray a) = Raise (Exn AssertionError "" [])).
Proof.
  assert (Hfail : ∀ inputs_seq : list Value,
             length inputs_seq ≠ length (input_ids prediction_pipeline) →
             py_assert (Nat.eqb (length inputs_seq)
                                (length (input_ids prediction_pipeline)))
             = Raise (Exn AssertionError "" [])).
  { intros inputs_seq Hlen. unfold py_assert.
    by destruct (Nat.eqb_spec (length inputs_seq)
                              (length (input_ids prediction_pipeline))). }
  repeat split.
  - intros items Hlen. unfold predict, inputs_seq_of. by rewrite (Hfail items Hlen).
  - intros items out. unfold predict, inputs_seq_of, py_assert.
    destruct (Nat.eqb_spec (length items) (length (input_ids prediction_pipeline)));
      [done|]. intros [=].
  - intros t Hlen. unfold predict, inputs_seq_of.
    by rewrite (Hfail [VTensor t]) by (simpl; congruence).
  - intros a Hlen. unfold predict, inputs_seq_of.
    by rewrite (Hfail [VArray a]) by (simpl; congruence).
Qed.

End Facts.

Import PredictionExample.

(** One array for the two inputs of [two_inputs] fails the assertion; two
    arrays pass it. *)
Lemma predict_checks_number_of_inputs_witness :
  predict (E := example_env) two_inputs (Sequence [VArray [1%Z]])
  = Raise (Exn AssertionError "" [])
  ∧ predict (E := example_env) two_inputs (OneArray [1%Z; 2%Z])
    = Raise (Exn AssertionError "" [])
  ∧ length [VArray [1%Z]; VTensor ([2%Z], ["y"])] = length (input_ids two_inputs).
Proof.
  destruct (predict_checks_number_of_inputs (E := example_env) two_inputs)
    as (Hseq & Honly & _ & _ & _ & Harray).
  split; [apply Hseq; simpl; lia|].
  split; [apply Harray; simpl; lia|].
  apply (Honly _ [([1%Z], ["x"]); ([2%Z], ["y"])]). reflexivity.
Defined.

End PredictionFacts.

(** ** [download_rdf] *)

Module IOFacts.
Import IO.

Lemma endswith_unfold s suffix :
  endswith s suffix
  = if String.eqb s suffix then true
    else match s with
         | EmptyString => false
         | String _ s' => endswith s' suffix
         end.
Proof. by destruct s. Qed.

Lemma endswith_spec s suffix : endswith s suffix = true ↔ ∃ stem, s = stem +:+ suffix.
Proof.
  induction s as [|c s IH]; rewrite endswith_unfold.
  - destruct (String.eqb_spec "" suffix) as [<-|Hne].
    + split; [by exists ""|done].
    + split; [intros [=]|]. intros [stem Hstem].
      destruct stem; simpl in Hstem; [done|]. discriminate Hstem.
  - destruct (String.eqb_spec (String c s) suffix) as [<-|Hne].
    + split; [by exists ""|done].
    + rewrite IH. split.
      * intros [stem ->]. by exists (String c stem).
      * intros [stem Hstem]. destruct stem as [|c' stem]; simpl in Hstem.
        -- by destruct Hne.
        -- injection Hstem as _ ->. by exists stem.
Qed.

Lemma filter_cons_split {A} (f : A -> bool) (l : list A) a rest :
  List.filter f l = a :: rest →
  ∃ l1 l2, l = l1 ++ a :: l2 ∧ Forall (fun x => f x = false) l1
           ∧ f a = true ∧ List.filter f l2 = rest.
Proof.
  induction l as [|x l IH]; simpl; [done|].
  destruct (f x) eqn:Hfx.
  - intros [= -> <-]. exists [], l. by repeat split.
  - intros Hfilter. destruct (IH Hfilter) as (l1 & l2 & -> & Hl1 & Ha & Hrest).
    exists (x :: l1), l2. repeat split; try done. by constructor.
Qed.

Lemma filter_nil_Forall {A} (f : A -> bool) (l : list A) :
  List.filter f l = [] → Forall (fun x => f x = false) l.
Proof.
  induction l as [|x l IH]; simpl; [constructor|].
  destruct (f x) eqn:Hfx; [done|]. intros Hfilter. constructor; auto.
Qed.

Lemma not_rdf_name names :
  Forall (fun n => endswith n ".bioimageio.yaml" = false) names →
  Forall (fun n => ¬ is_rdf_name n) names.
Proof.
  intros Hall. eapply Forall_impl; [exact Hall|].
  intros n Hn Hrdf. apply endswith_spec in Hrdf. congruence.
Qed.

Lemma contains_spec names x : contains names x = true ↔ x ∈ names.
Proof.
  unfold contains. rewrite existsb_exists, list_elem_of_In. split.
  - intros (y & Hin & Heq). apply String.eqb_eq in Heq. by subst.
  - intros Hin. exists x. split; [done|apply String.eqb_refl].
Qed.

Section Facts.

Context {T : Types} {E : Env}.

Lemma choose_rdf_file_name_choice local_source names :
  rdf_choice names (choose_rdf_file_name local_source names).
Proof.
  unfold choose_rdf_file_name.
  destruct (List.filter (fun fname => endswith fname ".bioimageio.yaml") names)
    as [|a [|b rest]] eqn:Hfilter.
  - apply filter_nil_Forall, not_rdf_name in Hfilter.
    destruct (contains names LEGACY_RDF_NAME) eqn:Hlegacy.
    + apply choice_legacy; [done|]. by apply contains_spec.
    + apply choice_none; [done| |done]. rewrite <- contains_spec. congruence.
  - apply filter_cons_split in Hfilter as (l1 & l2 & -> & Hl1 & Ha & Hl2).
    apply choice_single.
    + by apply endswith_spec.
    + by apply not_rdf_name.
    + by apply not_rdf_name, filter_nil_Forall.
  - apply filter_cons_split in Hfilter as (l1 & l2 & -> & Hl1 & Ha & Hl2).
    apply filter_cons_split in Hl2 as (l3 & l4 & -> & Hl3 & Hb & _).
    apply choice_multiple; [by apply endswith_spec|by apply endswith_spec|done].
Qed.

(** C10: the file read from an archive is chosen as [rdf_choice] says, and
    is a function of the names in the archive; an error of the choice is
    the error of [download_rdf], raised before anything is extracted; the
    chosen file is read from the directory the archive is extracted to; and
    content that is not a mapping is a [TypeError]. *)
Theorem download_rdf_resolution :
  (∀ local_source names, rdf_choice names (choose_rdf_file_name local_source names))
  ∧ (∀ source known_hash rdf_encoding w local w1 names w2,
        download source known_hash w = (Ok local, w1) →
        is_zipfile (path local) w1 = true →
        namelist (path local) w1 = (Ok names, w2) →
        match choose_rdf_file_name (path local) names with
        | Raise e => download_rdf source known_hash rdf_encoding w = (Raise e, w2)
        | Ok rdf_file_name =>
            ∀ w3, extractall (path local) (unzip_path (path local)) w2 = (Ok tt, w3) →
                  download_rdf source known_hash rdf_encoding w
                  = read_rdf (joinpath (unzip_path (path local)) rdf_file_name)
                             (root local) (file_name local) rdf_encoding w3
        end)
  ∧ (∀ local_source root file_name rdf_encoding w content w',
        load_yaml local_source rdf_encoding w = (Ok content, w') →
        read_rdf local_source root file_name rdf_encoding w
        = match content with
          | YMapping items => (Ok (mkLocalRdf items root file_name), w')
          | _ => (Raise (Exn TypeError
                             ("Expected RDF content to be a mapping, but got '"
                                +:+ type_repr content +:+ "'.") []), w')
          end).
Proof.
  split; [apply choose_rdf_file_name_choice|]. split.
  - intros source known_hash rdf_encoding w [local_source root file_name] w1 names w2
           Hdownload Hzip Hnames. simpl in *.
    unfold download_rdf, mbind, M_bind. rewrite Hdownload, Hzip, Hnames.
    unfold lift. destruct (choose_rdf_file_name local_source names) as [fname|e];
      [|done].
    intros w3 Hextract. by rewrite Hextract.
  - intros local_source root file_name rdf_encoding w content w' Hload.
    unfold read_rdf, mbind, M_bind. rewrite Hload. by destruct content.
Qed.

End Facts.

Import IOExample.

(** An archive with [rdf.yaml] and one [*.bioimageio.yaml]: the latter is
    read, and its content, a list, is rejected. *)
Lemma download_rdf_resolution_witness :
  choose_rdf_file_name (E := example_env) "model.zip" (example_namelist "model.zip")
  = Ok "unet.bioimageio.yaml"
  ∧ download_rdf (E := example_env) "model.zip" None "utf-8" tt
    = read_rdf (E := example_env) "model.zip.unzip/unet.bioimageio.yaml" "."
               "model.zip" "utf-8" tt
  ∧ read_rdf (E := example_env) "model.zip.unzip/unet.bioimageio.yaml" "."
             "model.zip" "utf-8" tt
    = (Raise (Exn TypeError
                  "Expected RDF content to be a mapping, but got '<class 'list'>'." []),
       tt).
Proof.
  destruct (download_rdf_resolution (E := example_env)) as (_ & Harchive & Hread).
  split; [reflexivity|]. split.
  - exact (Harchive "model.zip" None "utf-8" tt
                    {| path := "model.zip"; root := "."; file_name := "model.zip" |}
                    tt (example_namelist "model.zip") tt
                    eq_refl eq_refl eq_refl tt eq_refl).
  - exact (Hread "model.zip.unzip/unet.bioimageio.yaml" "." "model.zip" "utf-8" tt
                 (YList [YStr "model"]) tt eq_refl).
Defined.

End IOFacts.

(** ** More on the assembled operator lists *)

Module ProcSetupMore.
Import ProcSetup ProcSetupQueries ProcSetupFacts.

Section Facts.

Context `{ProcOps}.

(** X2: fixed statistics that are an empty mapping are the same as none. *)
Theorem empty_fixed_stats_as_none model dataset keep :
  setup_pre_and_postprocessing model dataset keep (Some ∅)
  = setup_pre_and_postprocessing model dataset keep None.
Proof.
  unfold setup_pre_and_postprocessing.
  assert (Hmissing : ∀ a b : gset Measure,
             missing_dataset_stats a b (Some ∅) = missing_dataset_stats a b None).
  { intros a b. unfold missing_dataset_stats. apply set_eq. intros m.
    rewrite !elem_of_filter. simpl. rewrite lookup_empty. tauto. }
  rewrite Hmissing. unfold truthy_stats.
  by destruct (decide ((∅ : gmap Measure MeasureValue) = ∅)).
Qed.

(** X3: when no required measure is left to compute (each has a fixed value,
    or none is required), the dataset is not looked at:
    [setup_pre_and_postprocessing] returns, whatever [finalize] would do,
    and returns the same lists for every dataset. *)
Theorem dataset_unused_when_nothing_missing model dataset keep fixed :
  missing_of model fixed = ∅ →
  (∃ pp, setup_pre_and_postprocessing model dataset keep fixed = Ok pp)
  ∧ setup_pre_and_postprocessing model dataset keep fixed
    = setup_pre_and_postprocessing model [] keep fixed.
Proof.
  intros Hmissing.
  assert (Hinit : ∀ ds, initial_stats_of (missing_of model fixed) ds = Ok ∅).
  { intros ds. unfold initial_stats_of, initial_stats_calc. rewrite Hmissing.
    by destruct (decide ((∅ : gset Measure) = ∅)). }
  rewrite (setup_with_initial_stats _ _ keep _ _ (Hinit dataset)).
  rewrite (setup_with_initial_stats _ _ keep _ _ (Hinit [])).
  split; [eauto|done].
Qed.

(** X4: for each direction, the required dataset measures and the required
    sample measures are disjoint and together are the required measures. *)
Theorem dataset_and_sample_measures_partition model :
  dataset_pre (get_required_dataset_measures model)
    ∪ sample_pre (get_requried_sample_measures model)
  = required_pre (get_requried_measures model)
  ∧ dataset_pre (get_required_dataset_measures model)
      ## sample_pre (get_requried_sample_measures model)
  ∧ dataset_post (get_required_dataset_measures model)
      ∪ sample_post (get_requried_sample_measures model)
    = required_post (get_requried_measures model)
  ∧ dataset_post (get_required_dataset_measures model)
      ## sample_post (get_requried_sample_measures model).
Proof.
  assert (Hsplit : ∀ X : gset Measure,
             filter is_DatasetMeasure X ∪ filter is_SampleMeasure X = X
             ∧ filter is_DatasetMeasure X ## filter is_SampleMeasure X).
  { intros X. split.
    - apply set_eq. intros m. rewrite elem_of_union, !elem_of_filter.
      unfold is_DatasetMeasure, is_SampleMeasure.
      destruct (scope m); intuition congruence.
    - apply elem_of_disjoint. intros m. rewrite !elem_of_filter.
      unfold is_DatasetMeasure, is_SampleMeasure. intros [Hd _] [Hs _]. congruence. }
  simpl. split; [apply Hsplit|]. split; [apply Hsplit|].
  split; [apply Hsplit|apply Hsplit].
Qed.

End Facts.

Import ProcSetupExample ProcSetupMoreExample.

(** With fixed values for both statistics of [raw], [model_shared] is set
    up without data. *)
Lemma dataset_unused_when_nothing_missing_witness :
  (∃ pp, setup_pre_and_postprocessing model_shared dataset3 false (Some both_fixed)
         = Ok pp)
  ∧ setup_pre_and_postprocessing model_shared dataset3 false (Some both_fixed)
    = setup_pre_and_postprocessing model_shared [] false (Some both_fixed).
Proof.
  apply dataset_unused_when_nothing_missing. reflexivity.
Defined.

End ProcSetupMore.

(** ** More on testing a description *)

Module ResourceTestsMore.
Import ResourceTests ResourceTestsReports ResourceTestsFacts.

Lemma append_empty_r (a : string) : a +:+ "" = a.
Proof.
  induction a as [|c a IH]; [done|].
  change (String c (a +:+ "") = String c a). by f_equal.
Qed.

Lemma append_assoc (a b c : string) : (a +:+ b) +:+ c = a +:+ (b +:+ c).
Proof.
  induction a as [|x a IH]; [done|].
  change (String x ((a +:+ b) +:+ c) = String x (a +:+ (b +:+ c))). by f_equal.
Qed.

Section Facts.

Context {T : Types} {E : Env}.

Lemma bind_inv {A B} (m : M St A) (k : A -> M St B) s r s1 :
  (m ≫= k) s = (r, s1) →
  (∃ e, m s = (Raise e, s1) ∧ r = Raise e)
  ∨ ∃ a s0, m s = (Ok a, s0) ∧ k a s0 = (r, s1).
Proof.
  unfold mbind, M_bind. destruct (m s) as [[a|e] s0].
  - intros Hk. right. eauto.
  - intros [= <- <-]. left. eauto.
Qed.

(** *** The comparison of the outputs *)

Lemma compare_output_pure cmp decimal error res exp s :
  pure_comparison cmp →
  compare_output decimal error (res, exp) s
  = let s1 := mkSt (world s) (trace s ++ [Compare res exp]) in
    match cmp res exp decimal with
    | Ok _ => (Ok error, s1)
    | Raise e =>
        match exn_cls e with
        | AssertionError => (Ok (Some (or_empty error +:+ disagreement e)), s1)
        | _ => (Raise e, s1)
        end
    end.
Proof.
  intros Hpure. unfold compare_output, try_except, mbind, M_bind, call.
  rewrite Hpure. destruct (cmp res exp decimal) as [[]|e]; simpl; [done|].
  by destruct (exn_cls e).
Qed.

Lemma foldlM_compare_None cmp decimal pairs error s r s' :
  pure_comparison cmp →
  foldlM (compare_output decimal) error pairs s = (r, s') →
  r = Ok None ↔ error = None ∧ Forall (agree cmp decimal) pairs.
Proof.
  intros Hpure. revert error s.
  induction pairs as [|[res exp] pairs IH]; intros error s; cbn [foldlM].
  - intros [= <- <-]. split; [intros [= ->]; by split|intros [-> _]; done].
  - unfold mbind, M_bind. rewrite (compare_output_pure cmp) by done.
    cbv zeta. unfold agree.
    destruct (cmp res exp decimal) as [[]|e] eqn:Hcmp.
    + intros Hfold. rewrite (IH _ _ Hfold). split.
      * intros [-> Hall]. split; [done|]. by constructor.
      * intros [-> Hall]. apply Forall_cons in Hall as [_ Hall]. by split.
    + assert (Hno : ¬ Forall (fun pair => cmp (fst pair) (snd pair) decimal = Ok tt)
                             ((res, exp) :: pairs)).
      { intros Hall. apply Forall_cons in Hall as [Hhead _]. simpl in Hhead.
        congruence. }
      destruct (exn_cls e).
      2-6: intros [= <- <-]; split; [intros [=]|intros [_ Hall]; by destruct Hno].
      intros Hfold. rewrite (IH _ _ Hfold). split.
      * intros [[=] _].
      * intros [_ Hall]. by destruct Hno.
Qed.

Lemma extended_cons a part parts :
  extended (Some (a +:+ part)) parts = Some (a +:+ join (part :: parts)).
Proof.
  destruct parts as [|p parts]; simpl.
  - by rewrite append_empty_r.
  - by rewrite append_assoc.
Qed.

Lemma foldlM_compare_all cmp decimal pairs error s :
  pure_comparison cmp →
  only_assertions cmp decimal pairs →
  foldlM (compare_output decimal) error pairs s
  = (Ok (extended error (mismatches cmp decimal pairs)),
     mkSt (world s)
          (trace s ++ map (fun pair => Compare (fst pair) (snd pair)) pairs)).
Proof.
  intros Hpure. revert error s.
  induction pairs as [|[res exp] pairs IH]; intros error s Honly; cbn [foldlM].
  - rewrite app_nil_r. by destruct s.
  - apply Forall_cons in Honly as [Hhead Honly]. simpl in Hhead.
    unfold mbind, M_bind. rewrite (compare_output_pure cmp) by done. cbv zeta.
    unfold mismatches. simpl.
    destruct (cmp res exp decimal) as [[]|e] eqn:Hcmp.
    + rewrite IH by done. simpl. by rewrite <- app_assoc.
    + rewrite (Hhead e eq_refl). rewrite IH by done. simpl.
      rewrite <- app_assoc, extended_cons. reflexivity.
Qed.

Lemma compare_output_trace decimal error res exp s r s1 :
  compare_output decimal error (res, exp) s = (r, s1) →
  trace s1 = trace s ++ [Compare res exp].
Proof.
  unfold compare_output, try_except, mbind, M_bind, call.
  destruct (assert_array_almost_equal res exp decimal (world s)) as [[[]|e] w];
    simpl; [by intros [= <- <-]|].
  destruct (exn_cls e); by intros [= <- <-].
Qed.

Lemma foldlM_compare_trace decimal pairs error s r s' :
  foldlM (compare_output decimal) error pairs s = (r, s') →
  ∃ k, trace s' = trace s ++ map (fun pair => Compare (fst pair) (snd pair))
                                 (take k pairs).
Proof.
  revert error s. induction pairs as [|[res exp] pairs IH]; intros error s;
    cbn [foldlM].
  - intros [= <- <-]. exists 0. by rewrite app_nil_r.
  - unfold mbind, M_bind.
    destruct (compare_output decimal error (res, exp) s) as [[error1|e] s1] eqn:Hstep;
      apply compare_output_trace in Hstep.
    + intros Hfold. destruct (IH _ _ Hfold) as [k Hk]. exists (S k).
      rewrite Hk, Hstep. simpl. by rewrite <- app_assoc.
    + intros [= <- <-]. exists 1. rewrite Hstep.
      destruct pairs; reflexivity.
Qed.

(** *** The events before the comparison *)

Lemma forward_in_pipeline_trace model weight_format devices inputs s r s1 :
  with_pipeline (open_pipeline model devices weight_format)
                (fun p => call (Forward inputs) (forward p inputs)) s = (r, s1) →
  (trace s1 = trace s ++ [CreatePipeline devices weight_format] ∧ ∃ e, r = Raise e)
  ∨ ∃ outcome,
      trace s1 = trace s ++ [CreatePipeline devices weight_format;
                             Forward inputs outcome; Exit]
      ∧ ∀ results, r = Ok results → outcome = Ok results.
Proof.
  unfold with_pipeline, mbind, M_bind, open_pipeline, call.
  destruct (create_prediction_pipeline model devices weight_format (world s))
    as [[p|e] w1]; cbv beta iota.
  - simpl. destruct (forward p inputs w1) as [outcome w2]. simpl.
    destruct (pipeline_exit p w2) as [[[]|e] w3]; intros [= <- <-]; right;
      exists outcome; simpl; rewrite <- !app_assoc; (split; [done|]).
    + by intros results ->.
    + by intros results [=].
  - intros [= <- <-]. left. eauto.
Qed.

Lemma run_test_inputs_trace model weight_format devices s r s1 :
  run_test_inputs model weight_format devices s = (r, s1) →
  ∃ loads rest,
    trace s1 = trace s ++ loads ++ rest
    ∧ Forall is_load loads
    ∧ ((rest = [] ∧ ∃ e, r = Raise e)
       ∨ (rest = [CreatePipeline devices weight_format] ∧ ∃ e, r = Raise e)
       ∨ ∃ inputs outcome,
           rest = [CreatePipeline devices weight_format; Forward inputs outcome; Exit]
           ∧ ∀ results expected, r = Ok (results, expected) → outcome = Ok results).
Proof.
  unfold run_test_inputs. intros Hrun.
  apply bind_inv in Hrun as [(e & Hload & ->)|([inputs expected] & s0 & Hload & Hrun)].
  - match type of Hload with ?m s = _ => assert (Hemits : emits is_load m) end.
    { destruct model as [m|m];
        (apply emits_bind; [first [apply load_v0_4_emits|apply load_v0_5_emits]|]);
        intros inputs;
        (apply emits_bind; [first [apply load_v0_4_emits|apply load_v0_5_emits]|]);
        intros expected; apply emits_ret. }
    destruct (Hemits _ _ _ Hload) as (loads & Htrace & Hloads).
    exists loads, []. rewrite app_nil_r. split; [done|]. split; [done|].
    left. eauto.
  - match type of Hload with ?m s = _ => assert (Hemits : emits is_load m) end.
    { destruct model as [m|m];
        (apply emits_bind; [first [apply load_v0_4_emits|apply load_v0_5_emits]|]);
        intros inputs';
        (apply emits_bind; [first [apply load_v0_4_emits|apply load_v0_5_emits]|]);
        intros expected'; apply emits_ret. }
    destruct (Hemits _ _ _ Hload) as (loads & Htrace & Hloads).
    apply bind_inv in Hrun as [(e & Hpipe & ->)|(results & s2 & Hpipe & Hret)].
    + apply forward_in_pipeline_trace in Hpipe
        as [[Htr [e' [= <-]]]|(outcome & Htr & Hout)].
      * exists loads, [CreatePipeline devices weight_format].
        rewrite Htr, Htrace, <- app_assoc. split; [done|]. split; [done|].
        right; left. eauto.
      * exists loads, [CreatePipeline devices weight_format;
                       Forward inputs outcome; Exit].
        rewrite Htr, Htrace, <- app_assoc. split; [done|]. split; [done|].
        right; right. exists inputs, outcome. split; [done|]. by intros ? ? [=].
    + injection Hret as <- <-.
      apply forward_in_pipeline_trace in Hpipe
        as [[Htr [e' [=]]]|(outcome & Htr & Hout)].
      exists loads, [CreatePipeline devices weight_format;
                     Forward inputs outcome; Exit].
      rewrite Htr, Htrace, <- app_assoc. split; [done|]. split; [done|].
      right; right. exists inputs, outcome. split; [done|].
      intros results' expected' [= <- <-]. by apply Hout.
Qed.

(** X5: the tests of a loaded description keep its type and body, add the
    package of [bioimageio.core] to the environment of the summary, and
    append details to the ones that are there: one for the expected type if
    one is given, one for the inference of a model, and one more for a 0.5
    model with a parameterized input axis.  For anything but a model nothing
    outside is touched. *)
Theorem details_are_appended rd weight_format devices decimal expected_type s :
  ∃ rd' s' new,
    test_loaded_description rd weight_format devices decimal expected_type s
    = (Ok rd', s')
    ∧ body rd' = body rd
    ∧ rd_type rd' = rd_type rd
    ∧ env (validation_summary rd')
      = env (validation_summary rd)
          ++ [ {| pkg_name := "bioimageio.core";
                  pkg_version := bioimageio_core_version |} ]
    ∧ details (validation_summary rd') = details (validation_summary rd) ++ new
    ∧ length new = details_added rd expected_type
    ∧ (body rd = NotAModel → s' = s).
Proof.
  destruct rd as [ty fv bd [ds ev]]. unfold test_loaded_description, details_added.
  destruct expected_type as [t|]; destruct bd as [[m|m]|]; simpl;
    unfold mbind, M_bind;
    repeat match goal with
      | |- context [_test_model_inference ?a ?b ?c ?d ?sm ?st] =>
          let detail := fresh "detail" in
          let s1 := fresh "s1" in
          let Hinf := fresh "Hinf" in
          destruct (_test_model_inference_returns a b c d sm st)
            as (detail & s1 & Hinf);
          rewrite Hinf; clear Hinf
      end;
    try rewrite _test_model_inference_with_parametrized_inputs_eq;
    try destruct (has_parameterized_input m);
    repeat match goal with
      | |- context [check_parametrized_shapes ?a ?b ?c ?st] =>
          destruct (check_parametrized_shapes a b c st) as [[?|?] ?]
      end;
    simpl; eexists _, _, _;
    (split; [reflexivity|]); simpl; rewrite <- ?app_assoc;
    (split; [reflexivity|]); (split; [reflexivity|]); (split; [reflexivity|]);
    (split; [first [reflexivity | symmetry; apply app_nil_r]|]);
    (split; [reflexivity|]); try done.
Qed.

(** X6: when the test inputs went through the pipeline, and the comparison
    of arrays is a function of its arguments, the detail of the inference
    test is [passed] exactly when there are as many outputs as expected and
    the comparison accepts every output with its expected output. *)
Theorem passed_iff_all_outputs_agree
        cmp model weight_format devices decimal summary s results expected s1 :
  pure_comparison cmp →
  run_test_inputs model weight_format devices s = (Ok (results, expected), s1) →
  ∃ detail s',
    _test_model_inference model weight_format devices decimal summary s
    = (Ok (add_detail summary detail), s')
    ∧ (status detail = passed
       ↔ length results = length expected
         ∧ Forall (agree cmp decimal) (zip results expected)).
Proof.
  intros Hpure Hrun. rewrite _test_model_inference_eq.
  unfold reproduce_test_outputs, mbind, M_bind. rewrite Hrun.
  destruct (decide (length results ≠ length expected)) as [Hne|Heq].
  - eexists _, _. split; [reflexivity|]. simpl.
    split; [intros [=]|intros [Hlen _]; done].
  - assert (Hlen : length results = length expected).
    { destruct (decide (length results = length expected)); [done|]. by destruct Heq. }
    destruct (foldlM (compare_output decimal) None (zip results expected) s1)
      as [r s'] eqn:Hfold.
    pose proof (foldlM_compare_None _ _ _ _ _ _ _ Hpure Hfold) as Hiff.
    destruct r as [[message|]|e]; eexists _, _; (split; [reflexivity|]); simpl.
    + split; [intros [=]|]. intros [_ Hall].
      assert (Hnone : Ok (Some message) = Ok (None : option string))
        by (apply Hiff; split; done).
      discriminate Hnone.
    + split; [|done]. intros _. split; [done|]. by apply Hiff.
    + split; [intros [=]|]. intros [_ Hall].
      assert (Hnone : Raise e = Ok (None : option string))
        by (apply Hiff; split; done).
      discriminate Hnone.
Qed.

(** X7: with as many outputs as expected, and a comparison that is a
    function and rejects with [AssertionError] only, a mismatch does not
    end the loop: every output is compared with its expected output, once
    and in order, and the message of the detail is made of one part for
    every rejected pair, in order, with an empty traceback. *)
Theorem every_output_is_compared
        cmp model weight_format devices decimal summary s results expected s1 :
  pure_comparison cmp →
  run_test_inputs model weight_format devices s = (Ok (results, expected), s1) →
  length results = length expected →
  only_assertions cmp decimal (zip results expected) →
  _test_model_inference model weight_format devices decimal summary s
  = (Ok (add_detail summary
           (inference_detail
              (report (mismatches cmp decimal (zip results expected)))
              [] weight_format)),
     mkSt (world s1)
          (trace s1 ++ map (fun pair => Compare (fst pair) (snd pair))
                           (zip results expected))).
Proof.
  intros Hpure Hrun Hlen Honly. rewrite _test_model_inference_eq.
  unfold reproduce_test_outputs, mbind, M_bind. rewrite Hrun.
  destruct (decide (length results ≠ length expected)) as [Hne|_]; [done|].
  rewrite (foldlM_compare_all cmp) by done.
  by destruct (mismatches cmp decimal (zip results expected)).
Qed.

(** X8: the calls that one inference test makes have the form of
    [inference_events]: at most one pipeline is created and [forward] is
    called at most once; a pipeline that was created is left, also when
    [forward] raised; and the outputs are compared only after the pipeline
    was left, at most once for every pair of an output and its expected
    output. *)
Theorem inference_events_shape model weight_format devices decimal summary s :
  inference_events devices weight_format
    (events_since s
       (snd (_test_model_inference model weight_format devices decimal summary s))).
Proof.
  rewrite _test_model_inference_eq.
  destruct (reproduce_test_outputs model weight_format devices decimal s)
    as [r s'] eqn:Hrep.
  assert (Hev : inference_events devices weight_format (events_since s s')).
  { unfold reproduce_test_outputs in Hrep.
    apply bind_inv in Hrep
      as [(e & Hrun & ->)|([results expected] & s1 & Hrun & Hcmp)];
      apply run_test_inputs_trace in Hrun
        as (loads & rest & Htr & Hloads & Hrest).
    - rewrite (events_since_app _ _ _ Htr). exists loads, rest.
      split; [done|]. split; [done|].
      destruct Hrest as [[-> _]|[[-> _]|(inputs & outcome & -> & Hout)]];
        [by left|by right; left|].
      right; right. exists inputs, outcome, []. split; [done|].
      destruct outcome; [|done]. exists []. apply prefix_nil.
    - destruct Hrest as [[_ [e [=]]]|[[_ [e [=]]]|(inputs & outcome & -> & Hout)]].
      rewrite (Hout _ _ eq_refl) in *.
      assert (Hk : ∃ k, trace s' = trace s1
                                   ++ map (fun pair => Compare (fst pair) (snd pair))
                                          (take k (zip results expected))).
      { destruct (decide (length results ≠ length expected)).
        - injection Hcmp as _ <-. exists 0. by rewrite app_nil_r.
        - by apply foldlM_compare_trace in Hcmp. }
      destruct Hk as [k Hk].
      assert (Htrace : trace s' = trace s ++ loads
                 ++ CreatePipeline devices weight_format
                      :: Forward inputs (Ok results) :: Exit
                      :: map (fun pair => Compare (fst pair) (snd pair))
                             (take k (zip results expected))).
      { rewrite Hk, Htr. by rewrite <- !app_assoc. }
      rewrite (events_since_app _ _ _ Htrace).
      eexists loads, _. split; [reflexivity|]. split; [done|].
      right; right. exists inputs, (Ok results), (take k (zip results expected)).
      split; [done|]. exists expected. apply prefix_take. }
  by destruct r.
Qed.

End Facts.

Import ResourceTestsExample ResourceTestsMoreExample.

(** With the doubling backend the one output agrees and the test passes;
    with the incrementing backend it does not. *)
Lemma passed_iff_all_outputs_agree_witness :
  (∃ detail s',
      _test_model_inference (E := example_env doubling) model_v0_4 None None 4
                            empty_summary start
      = (Ok (add_detail empty_summary detail), s')
      ∧ (status detail = passed
         ↔ length [Some [2; 4; 6]%Z] = length [([2; 4; 6]%Z, ["x"])]
           ∧ Forall (agree example_cmp 4)
                    (zip [Some [2; 4; 6]%Z] [([2; 4; 6]%Z, ["x"])])))
  ∧ Forall (agree example_cmp 4) (zip [Some [2; 4; 6]%Z] [([2; 4; 6]%Z, ["x"])]).
Proof.
  split.
  - apply (passed_iff_all_outputs_agree (E := example_env doubling) example_cmp
             model_v0_4 None None 4%Z empty_summary start
             [Some [2; 4; 6]%Z] [([2; 4; 6]%Z, ["x"])]
             (after_forward (Ok [Some [2; 4; 6]%Z]))).
    + by intros res exp decimal [].
    + reflexivity.
  - repeat constructor.
Defined.

Lemma every_output_is_compared_witness :
  _test_model_inference (E := example_env incrementing) model_v0_4 None None 4
                        empty_summary start
  = (Ok (add_detail empty_summary
           (failed_detail
              ("Output and expected output disagree:" +:+ nl
                 +:+ " Arrays are not almost equal to 4 decimals")
              [] None)),
     after_comparison [2; 3; 4]%Z).
Proof.
  apply (every_output_is_compared (E := example_env incrementing) example_cmp
           model_v0_4 None None 4%Z empty_summary start
           [Some [2; 3; 4]%Z] [([2; 4; 6]%Z, ["x"])]
           (after_forward (Ok [Some [2; 3; 4]%Z]))).
  - by intros res exp decimal [].
  - reflexivity.
  - reflexivity.
  - constructor; [|constructor]. intros e [= <-]. reflexivity.
Defined.

End ResourceTestsMore.

(** ** More on the ONNX adapter *)

Module OnnxAdapterMore.
Import OnnxAdapter.

Section Facts.

Context {T : Types} {E : Env}.

Lemma lookup_zip_Some {A B} (l : list A) (k : list B) i a b :
  zip l k !! i = Some (a, b) ↔ l !! i = Some a ∧ k !! i = Some b.
Proof.
  revert k i. induction l as [|x l IH]; intros [|y k] [|i]; simpl;
    try (split; [intros [=]|intros [[=] [=]]]; fail).
  - split; [by intros [= -> ->]|by intros [[= ->] [= ->]]].
  - apply IH.
Qed.

Lemma tensors_of_fitting (pairs : list (option NDArray * list string)) :
  Forall fits pairs →
  mapM tensor_or_None pairs
  = Ok (map (fun pair => (fun array => mkTensor array (snd pair)) <$> fst pair) pairs).
Proof.
  induction 1 as [|[r axes] pairs Hfits _ IH]; [done|].
  change (mapM tensor_or_None ((r, axes) :: pairs))
    with (rbind (tensor_or_None (r, axes))
                (fun y => rbind (mapM tensor_or_None pairs) (fun k => Ok (y :: k)))).
  rewrite IH. destruct r as [array|]; [|done].
  unfold tensor_or_None, new_Tensor.
  rewrite decide_True by (symmetry; by apply Hfits). done.
Qed.

Lemma tensors_of_returned (pairs : list (option NDArray * list string)) outs :
  mapM tensor_or_None pairs = Ok outs →
  Forall fits pairs
  ∧ outs = map (fun pair => (fun array => mkTensor array (snd pair)) <$> fst pair) pairs.
Proof.
  revert outs. induction pairs as [|[r axes] pairs IH]; intros outs.
  - intros [= <-]. by split.
  - change (mapM tensor_or_None ((r, axes) :: pairs))
      with (rbind (tensor_or_None (r, axes))
                  (fun y => rbind (mapM tensor_or_None pairs) (fun k => Ok (y :: k)))).
    destruct (tensor_or_None (r, axes)) as [t|e] eqn:Ht; [|done]. simpl.
    destruct (mapM tensor_or_None pairs) as [ts|e]; [|done]. simpl.
    intros [= <-]. destruct (IH ts eq_refl) as [Hfits ->].
    unfold tensor_or_None, new_Tensor in Ht. destruct r as [array|].
    + destruct (decide (length axes = ndim array)) as [Hdims|]; [|done].
      injection Ht as <-. split; [|done]. constructor; [|done].
      intros array' [= <-]. done.
    + injection Ht as <-. split; [|done]. constructor; [|done]. by intros array [=].
Qed.

(** X9: when the number of inputs is the number of inputs of the session
    and the session runs, [forward] returns if every result that is there
    has as many dimensions as the output described at its position has
    axes, and raises otherwise.  It returns as many tensors as the shorter
    of the results and the described outputs; the tensor at a position holds
    the result at that position with the axes of the output described at
    that position, a missing result stays missing, and no warning is
    issued.  A result that is no list or tuple counts as one result. *)
Theorem forward_outputs self input_tensors s result w :
  length input_tensors = length (_input_names self) →
  run (_session self)
      (dict_of_zip (_input_names self) (map (fun ipt => data <$> ipt) input_tensors))
      (world s) = (Ok result, w) →
  (Forall fits (zip (match result with Several rs => rs | Single r => [r] end)
                    (_internal_output_axes self)) →
   ∃ outs,
     forward self input_tensors s = (Ok outs, mkSt w (warnings s))
     ∧ length outs
       = min (length (match result with Several rs => rs | Single r => [r] end))
             (length (_internal_output_axes self))
     ∧ ∀ i r axes,
         match result with Several rs => rs | Single r => [r] end !! i = Some r →
         _internal_output_axes self !! i = Some axes →
         outs !! i = Some ((fun a => mkTensor a axes) <$> r))
  ∧ (¬ Forall fits (zip (match result with Several rs => rs | Single r => [r] end)
                        (_internal_output_axes self)) →
     ∃ e, forward self input_tensors s = (Raise e, mkSt w (warnings s))).
Proof.
  intros Hlen Hrun. unfold forward, py_assert, lift, mbind, M_bind, call.
  rewrite Hlen, Nat.eqb_refl, Hrun. split.
  - intros Hfits. rewrite (tensors_of_fitting _ Hfits). eexists. split; [reflexivity|].
    split.
    + by rewrite length_map, length_zip.
    + intros i r axes Hr Haxes. rewrite list_lookup_fmap.
      assert (Hzip : zip match result with Several rs => rs | Single r0 => [r0] end
                         (_internal_output_axes self) !! i = Some (r, axes))
        by by apply lookup_zip_Some.
      by rewrite Hzip.
  - intros Hfits.
    destruct (mapM tensor_or_None _) as [outs|e] eqn:Houts; [|by exists e].
    by apply tensors_of_returned in Houts as [Hall _].
Qed.

(** X10: an adapter that was constructed for a model description tags what
    [forward] returns with the axes of the description: [forward] returns
    only for as many inputs as the session has, it returns at most one
    tensor per described output, and the dimensions of a returned tensor are
    the letters of the axes string (format 0.4) or the ids of the axes
    (format 0.5) of the output described at its position. *)
Theorem forward_tags_outputs_with_described_axes
        model_description devices s self s1 input_tensors s2 outs s3 :
  __init__ model_description devices s = (Ok self, s1) →
  forward self input_tensors s2 = (Ok outs, s3) →
  length input_tensors = length (get_inputs (_session self))
  ∧ (length outs ≤ length (outputs model_description))%nat
  ∧ ∀ i t, outs !! i = Some (Some t) →
           ∃ out, outputs model_description !! i = Some out
                  ∧ dims t = match axes out with
                             | AxesStr letters => letters_of letters
                             | AxesList ids => ids
                             end.
Proof.
  intros Hinit Hfwd.
  assert (Hself : _internal_output_axes self
                  = map (fun out => match axes out with
                                    | AxesStr letters => letters_of letters
                                    | AxesList ids => ids
                                    end) (outputs model_description)
                  ∧ _input_names self = get_inputs (_session self)).
  { unfold __init__ in Hinit. destruct rt as [runtime|]; [|discriminate Hinit].
    destruct (weights_onnx_source model_description) as [source|];
      [|discriminate Hinit].
    unfold mbind, M_bind, call in Hinit.
    destruct (InferenceSession runtime source (world s)) as [[session|e] w0];
      [|discriminate Hinit].
    destruct devices; simpl in Hinit; by injection Hinit as <- _. }
  destruct Hself as [Haxes Hnames].
  unfold forward, py_assert, lift, mbind, M_bind, call in Hfwd.
  destruct (Nat.eqb_spec (length input_tensors) (length (_input_names self)))
    as [Hlen|]; [|discriminate Hfwd].
  destruct (run _ _ _) as [[result|e] w]; [|discriminate Hfwd].
  destruct (mapM tensor_or_None _) as [outs'|e] eqn:Houts; [|discriminate Hfwd].
  injection Hfwd as <- _. apply tensors_of_returned in Houts as [_ ->].
  split; [by rewrite <- Hnames|]. split.
  - rewrite length_map, length_zip, Haxes, length_map. lia.
  - intros i t Ht. rewrite list_lookup_fmap in Ht.
    destruct (zip _ _ !! i) as [[r axes_i]|] eqn:Hzip; [|discriminate Ht].
    apply lookup_zip_Some in Hzip as [_ Hi]. rewrite Haxes, list_lookup_fmap in Hi.
    destruct (outputs model_description !! i) as [out|]; [|discriminate Hi].
    exists out. split; [done|]. simpl in Hi, Ht. injection Hi as <-.
    destruct r; simpl in Ht; [|discriminate Ht]. by injection Ht as <-.
Qed.

(** X11: the inputs are given to the session by name: when the session has
    no two inputs of one name and there are as many tensors as names, the
    feed of [forward] holds, for the name at a position, the data of the
    tensor at that position (nothing for a missing tensor), and it holds
    nothing else. *)
Theorem inputs_are_fed_by_name
        (names : list string) (input_tensors : list (option Tensor)) name array :
  NoDup names →
  length input_tensors = length names →
  dict_of_zip names (map (fun ipt => data <$> ipt) input_tensors) !! name = Some array
  ↔ ∃ i ipt, names !! i = Some name ∧ input_tensors !! i = Some ipt
             ∧ array = data <$> ipt.
Proof.
  intros Hnodup Hlen. unfold dict_of_zip.
  assert (Hfst : (reverse (zip names (map (fun ipt => data <$> ipt) input_tensors))).*1
                 ≡ₚ names).
  { rewrite fmap_reverse, reverse_Permutation.
    rewrite fst_zip; [done|]. rewrite length_map. lia. }
  rewrite <- elem_of_list_to_map by by rewrite Hfst.
  rewrite elem_of_reverse, list_elem_of_lookup. split.
  - intros [i Hi]. apply lookup_zip_Some in Hi as [Hname Harr].
    rewrite list_lookup_fmap in Harr.
    destruct (input_tensors !! i) as [ipt|] eqn:Hipt; [|discriminate Harr].
    exists i, ipt. by injection Harr as <-.
  - intros (i & ipt & Hname & Hipt & ->). exists i. apply lookup_zip_Some.
    split; [done|]. by rewrite list_lookup_fmap, Hipt.
Qed.

End Facts.

Import OnnxExample OnnxMoreExample.

(** The one result [1, 2] fits the one axis of [vector_adapter] and not the
    four axes of [example_adapter]. *)
Lemma forward_outputs_witness :
  (∃ outs,
      forward (E := example_env) vector_adapter [Some (one_two ["x"])] quiet
      = (Ok outs, quiet)
      ∧ length outs = 1
      ∧ outs !! 0 = Some (Some (one_two ["x"])))
  ∧ ∃ e, forward (E := example_env) example_adapter [Some (one_two ["x"])] quiet
         = (Raise e, quiet).
Proof.
  split.
  - destruct (proj1 (forward_outputs (T := types) (E := example_env) vector_adapter
                       [Some (one_two ["x"])] quiet
                       (Several (T := types) [Some [1; 2]%Z]) (world quiet)
                       eq_refl eq_refl))
      as (outs & Hfwd & Hlen & Hout).
    { constructor; [|constructor]. intros array [= <-]. reflexivity. }
    exists outs. split; [exact Hfwd|]. split; [exact Hlen|].
    exact (Hout 0 (Some ([1; 2]%Z : NDArray)) ["x"] eq_refl eq_refl).
  - apply (proj2 (forward_outputs (T := types) (E := example_env) example_adapter
                    [Some (one_two ["x"])] quiet
                    (Several (T := types) [Some [1; 2]%Z]) (world quiet)
                    eq_refl eq_refl)).
    intros Hfits. apply Forall_cons in Hfits as [Hfit _].
    specialize (Hfit [1; 2]%Z eq_refl). discriminate Hfit.
Defined.

Lemma forward_tags_outputs_with_described_axes_witness :
  length [Some (one_two ["x"])]
  = length (get_inputs (Env := example_env) (_session vector_adapter))
  ∧ (length [Some (one_two ["x"])] ≤ length (outputs vector_model))%nat
  ∧ ∀ i t, [Some (one_two ["x"])] !! i = Some (Some t) →
           ∃ out, outputs vector_model !! i = Some out
                  ∧ dims t = match axes out with
                             | AxesStr letters => letters_of letters
                             | AxesList ids => ids
                             end.
Proof.
  apply (forward_tags_outputs_with_described_axes (T := types) (E := example_env)
           vector_model None quiet vector_adapter quiet
           [Some (one_two ["x"])] quiet
           [Some (one_two ["x"])] quiet);
    reflexivity.
Defined.

Lemma inputs_are_fed_by_name_witness :
  dict_of_zip ["raw"; "mask"]
              (map (fun ipt => data <$> ipt) [Some (one_two ["x"]); None]) !! "mask"
  = Some None.
Proof.
  apply (inputs_are_fed_by_name (T := types) ["raw"; "mask"]
           [Some (one_two ["x"]); None] "mask" None).
  - by apply (bool_decide_unpack _).
  - reflexivity.
  - by exists 1, None.
Defined.

End OnnxAdapterMore.

(** ** More on [predict] *)

Module PredictionMore.
Import Prediction.

Section Facts.

Context {T : Types} {E : Env}.

Lemma mapM_tag_tensors (tensors : list Tensor) (specs : list AxesSpec) :
  mapM tag (zip (VTensor <$> tensors) specs) = Ok (take (length specs) tensors).
Proof.
  revert specs. induction tensors as [|t tensors IH]; intros [|spec specs];
    try reflexivity.
  simpl. unfold mbind, result_bind. simpl. by rewrite IH.
Qed.

Lemma getitem_present items tid :
  tid ∈ map fst items → ∃ v, getitem items tid = Ok v.
Proof.
  induction items as [|[k v] items IH]; simpl; [by intros ?%elem_of_nil|].
  intros Hin. destruct (String.eqb_spec k tid) as [->|Hne]; [by eexists|].
  apply IH. apply elem_of_cons in Hin as [->|]; done.
Qed.

Lemma getitem_missing items tid :
  tid ∉ map fst items → getitem items tid = Raise (Exn KeyError (repr_key tid) []).
Proof.
  induction items as [|[k v] items IH]; simpl; [done|].
  intros Hin. destruct (String.eqb_spec k tid) as [->|Hne].
  - destruct Hin. by left.
  - apply IH. intros ?. apply Hin. by right.
Qed.

(** What [getitem] gives for two mappings with the same keys: a value for
    both, or the same [KeyError]. *)
Lemma getitem_same_keys items items' tid :
  map fst items = map fst items' →
  (∃ v v', getitem items tid = Ok v ∧ getitem items' tid = Ok v')
  ∨ (∃ e, getitem items tid = Raise e ∧ getitem items' tid = Raise e).
Proof.
  intros Hkeys. destruct (decide (tid ∈ map fst items)) as [Hin|Hnotin].
  - left. destruct (getitem_present items tid Hin) as [v Hv].
    rewrite Hkeys in Hin. destruct (getitem_present items' tid Hin) as [v' Hv'].
    by exists v, v'.
  - right. eexists. split; [by apply getitem_missing|].
    apply getitem_missing. by rewrite <- Hkeys.
Qed.

Lemma mapM_same_outcome {A B} (f g : A -> result B) (l : list A) :
  (∀ x, (∃ v v', f x = Ok v ∧ g x = Ok v')
        ∨ (∃ e, f x = Raise e ∧ g x = Raise e)) →
  (∃ vs vs', mapM f l = Ok vs ∧ mapM g l = Ok vs')
  ∨ (∃ e, mapM f l = Raise e ∧ mapM g l = Raise e).
Proof.
  intros Hfg. induction l as [|x l IH]; [left; by exists [], []|].
  change (mapM f (x :: l)) with (rbind (f x) (fun y => rbind (mapM f l) (fun k => Ok (y :: k)))).
  change (mapM g (x :: l)) with (rbind (g x) (fun y => rbind (mapM g l) (fun k => Ok (y :: k)))).
  destruct (Hfg x) as [(v & v' & Hv & Hv')|(e & He & He')].
  - rewrite Hv, Hv'. cbn [rbind].
    destruct IH as [(vs & vs' & Hvs & Hvs')|(e & He & He')].
    + rewrite Hvs, Hvs'. left. by eexists _, _.
    + rewrite He, He'. right. by exists e.
  - rewrite He, He'. right. by exists e.
Qed.

(** X12: tensors given as a list or tuple, as many as the pipeline has
    input ids, go to [forward] as they are, in order, without a call of
    [Tensor.from_numpy]; when the pipeline has fewer input axes than there
    are tensors, the tensors beyond are left out. *)
Theorem predict_passes_tensors_on prediction_pipeline (tensors : list Tensor) :
  length tensors = length (input_ids prediction_pipeline) →
  predict prediction_pipeline (Sequence (VTensor <$> tensors))
  = forward prediction_pipeline
            (take (length (input_axes prediction_pipeline)) tensors).
Proof.
  intros Hlen. unfold predict, inputs_seq_of, py_assert.
  rewrite length_fmap, Hlen, Nat.eqb_refl. simpl.
  unfold mbind, result_bind. simpl. by rewrite mapM_tag_tensors.
Qed.

(** X13: for a mapping that lacks an input id of the pipeline, [predict]
    raises the [KeyError] of the first id that is missing, whose message
    is the [repr] of that id. *)
Theorem predict_mapping_missing_id prediction_pipeline items found tid others :
  input_ids prediction_pipeline = found ++ tid :: others →
  Forall (fun id => id ∈ map fst items) found →
  tid ∉ map fst items →
  predict prediction_pipeline (Mapping items)
  = Raise (Exn KeyError (repr_key tid) []).
Proof.
  intros Hids Hfound Hmissing. unfold predict, inputs_seq_of. rewrite Hids.
  clear Hids.
  assert (Hseq : ∀ f : string -> result Value,
             (∀ id, id ∈ map fst items → ∃ v, f id = Ok v) →
             f tid = Raise (Exn KeyError (repr_key tid) []) →
             mapM f (found ++ tid :: others)
             = Raise (Exn KeyError (repr_key tid) [])).
  { intros f Hpresent Hraise.
    induction Hfound as [|id found Hin _ IH].
    - change (rbind (f tid) (fun y => rbind (mapM f others) (fun k => Ok (y :: k)))
              = Raise (Exn KeyError (repr_key tid) [])).
      by rewrite Hraise.
    - change (rbind (f id)
                    (fun y => rbind (mapM f (found ++ tid :: others))
                                    (fun k => Ok (y :: k)))
              = Raise (Exn KeyError (repr_key tid) [])).
      destruct (Hpresent id Hin) as [v ->]. cbn [rbind]. by rewrite IH. }
  rewrite Hseq; [done| |].
  - intros id Hin. destruct (getitem_present items id Hin) as [v Hv].
    unfold mbind, result_bind. rewrite Hv. by eexists.
  - unfold mbind, result_bind. by rewrite (getitem_missing items tid Hmissing).
Qed.

(** X14: for a mapping, the values do not reach [forward]: what [predict]
    returns or raises depends on the keys of the mapping only, and two
    mappings with the same keys in the same order give the same. *)
Theorem predict_mapping_ignores_values prediction_pipeline items items' :
  map fst items = map fst items' →
  predict prediction_pipeline (Mapping items)
  = predict prediction_pipeline (Mapping items').
Proof.
  intros Hkeys. unfold predict.
  assert (Hiter : iterate (Mapping items) = iterate (Mapping items')).
  { simpl. f_equal. rewrite <- !(map_map fst VStr). by rewrite Hkeys. }
  rewrite Hiter. unfold inputs_seq_of.
  match goal with
  | |- context [mapM ?f (input_ids prediction_pipeline) ≫= _] =>
      match goal with
      | |- _ = (mapM ?g (input_ids prediction_pipeline) ≫= _) =>
          destruct (mapM_same_outcome f g (input_ids prediction_pipeline))
            as [(vs & vs' & Hvs & Hvs')|(e & He & He')]
      end
  end.
  - intros tid.
    destruct (getitem_same_keys items items' tid Hkeys)
      as [(v & v' & Hv & Hv')|(e & He & He')].
    + left. unfold mbind, result_bind. rewrite Hv, Hv'. by eexists _, _.
    + right. unfold mbind, result_bind. rewrite He, He'. by exists e.
  - unfold mbind, result_bind in *. by rewrite Hvs, Hvs'.
  - unfold mbind, result_bind in *. by rewrite He, He'.
Qed.

(** X15: one array for a pipeline with one input does not reach [forward]
    as it is: [predict] iterates over the array itself, and what it tags
    with the input axes and passes on is the first element of the array. *)
Theorem predict_iterates_over_single_array
        prediction_pipeline a first others ipt_spec :
  length (input_ids prediction_pipeline) = 1 →
  input_axes prediction_pipeline = [ipt_spec] →
  iter_array a = Ok (first :: others) →
  predict prediction_pipeline (OneArray a)
  = (tensor ← tag (first, ipt_spec); forward prediction_pipeline [tensor]).
Proof.
  intros Hids Haxes Hiter.
  unfold predict, inputs_seq_of, py_assert, iterate.
  change (length [VArray a]) with 1. rewrite Hids, Hiter, Haxes.
  cbv beta iota delta [mbind result_bind rbind Nat.eqb mret result_ret].
  change (mapM tag (zip (first :: others) [ipt_spec]))
    with (rbind (tag (first, ipt_spec))
                (fun y => rbind (mapM tag (zip others [])) (fun k => Ok (y :: k)))).
  destruct (tag (first, ipt_spec)) as [tensor|e]; [|reflexivity].
  by destruct others.
Qed.

End Facts.

Import PredictionExample PredictionMoreExample.

Lemma predict_passes_tensors_on_witness :
  predict (E := example_env) two_inputs (Sequence (VTensor <$> two_tensors))
  = Ok two_tensors.
Proof.
  exact (predict_passes_tensors_on (T := types) (E := example_env) two_inputs
           two_tensors eq_refl).
Defined.

Lemma predict_mapping_missing_id_witness :
  predict (E := example_env) two_inputs (Mapping raw_only)
  = Raise (Exn KeyError "'mask'" []).
Proof.
  apply (predict_mapping_missing_id (T := types) (E := example_env) two_inputs
           raw_only ["raw"] "mask" []).
  - reflexivity.
  - constructor; [|constructor]. by apply (bool_decide_unpack _).
  - by apply (bool_decide_unpack _).
Defined.

(** The array with the numbers 1 and 2 for the one input of a pipeline:
    [forward] gets the array with the number 1 only. *)
Lemma predict_iterates_over_single_array_witness :
  predict (E := example_env) one_input (OneArray [1%Z; 2%Z]) = Ok [([1%Z], ["x"])].
Proof.
  exact (predict_iterates_over_single_array (T := types) (E := example_env)
           one_input [1%Z; 2%Z] (VArray [1%Z]) [VArray [2%Z]] {| axes := ["x"] |}
           eq_refl eq_refl eq_refl).
Defined.

Lemma predict_mapping_ignores_values_witness :
  predict (E := example_env) two_inputs (Mapping arrays_by_id)
  = predict (E := example_env) two_inputs (Mapping others_by_id).
Proof.
  apply (predict_mapping_ignores_values (T := types) (E := example_env) two_inputs
           arrays_by_id others_by_id).
  reflexivity.
Defined.

End PredictionMore.

(** ** More on [download_rdf] *)

Module IOMore.
Import IO IOFacts.

Lemma List_filter_Permutation {A} (f : A -> bool) (l l' : list A) :
  l ≡ₚ l' → List.filter f l ≡ₚ List.filter f l'.
Proof.
  induction 1 as [|x l l' _ IH|x y l|l l' l'' _ IH _ IH']; simpl.
  - done.
  - destruct (f x); by rewrite IH.
  - destruct (f x), (f y); try done. apply perm_swap.
  - by rewrite IH.
Qed.

Section Facts.

Context {T : Types} {E : Env}.

(** X16: the choice of the file to read from an archive does not depend on
    the order of the entries of the archive: for two listings of the same
    entries the same name is chosen, and it is the name of an entry, or
    both choices fail with a [ValueError]. *)
Theorem rdf_choice_independent_of_order local_source names names' :
  names ≡ₚ names' →
  match choose_rdf_file_name local_source names,
        choose_rdf_file_name local_source names' with
  | Ok chosen, Ok chosen' => chosen = chosen' ∧ chosen ∈ names
  | Raise e, Raise e' => exn_cls e = ValueError ∧ exn_cls e' = ValueError
  | _, _ => False
  end.
Proof.
  intros Hperm. unfold choose_rdf_file_name.
  pose proof (List_filter_Permutation
                (fun fname => endswith fname ".bioimageio.yaml") _ _ Hperm) as Hfilter.
  assert (Hlegacy : contains names LEGACY_RDF_NAME = contains names' LEGACY_RDF_NAME).
  { apply eq_true_iff_eq. rewrite !contains_spec. by rewrite Hperm. }
  destruct (List.filter _ names) as [|a [|b rest]] eqn:Hnames;
    destruct (List.filter _ names') as [|a' [|b' rest']] eqn:Hnames';
    try (apply Permutation_length in Hfilter; discriminate Hfilter); try done.
  - rewrite <- Hlegacy.
    destruct (contains names LEGACY_RDF_NAME) eqn:Hin; [|done].
    split; [done|]. by apply contains_spec.
  - apply Permutation_singleton_l in Hfilter. injection Hfilter as <-.
    split; [done|]. apply list_elem_of_In.
    apply (proj1 (filter_In (fun fname => endswith fname ".bioimageio.yaml") a names)).
    rewrite Hnames. by left.
Qed.

End Facts.

Import IOExample.

(** Two listings of the archive [model.zip]. *)
Lemma rdf_choice_independent_of_order_witness :
  choose_rdf_file_name (E := example_env) "model.zip"
                       ["rdf.yaml"; "unet.bioimageio.yaml"; "weights.pt"]
  = Ok "unet.bioimageio.yaml"
  ∧ match choose_rdf_file_name (E := example_env) "model.zip"
                               ["rdf.yaml"; "unet.bioimageio.yaml"; "weights.pt"],
          choose_rdf_file_name (E := example_env) "model.zip"
                               ["unet.bioimageio.yaml"; "rdf.yaml"; "weights.pt"] with
    | Ok chosen, Ok chosen' =>
        chosen = chosen' ∧ chosen ∈ ["rdf.yaml"; "unet.bioimageio.yaml"; "weights.pt"]
    | Raise e, Raise e' => exn_cls e = ValueError ∧ exn_cls e' = ValueError
    | _, _ => False
    end.
Proof.
  split; [reflexivity|].
  apply (rdf_choice_independent_of_order (T := types) (E := example_env) "model.zip"
           ["rdf.yaml"; "unet.bioimageio.yaml"; "weights.pt"]
           ["unet.bioimageio.yaml"; "rdf.yaml"; "weights.pt"]).
  apply perm_swap.
Defined.

End IOMore.

(** ** The fields of a model specification *)

Module FieldsFacts.
Import Fields.

Lemma prefix_spec p s : String.prefix p s = true ↔ ∃ rest, s = p +:+ rest.
Proof.
  revert s. induction p as [|a p IH]; intros s.
  - destruct s; (split; [intros _; by eexists|done]).
  - destruct s as [|b s]; simpl.
    + split; [done|]. by intros [rest [=]].
    + destruct (ascii_dec a b) as [->|Hne].
      * rewrite IH. split.
        -- intros [rest ->]. by exists rest.
        -- intros [rest [= ->]]. by exists rest.
      * split; [done|]. intros [rest [= -> _]]. by destruct Hne.
Qed.

Lemma prefix_cons a p b s :
  String.prefix (String a p) (String b s)
  = if ascii_dec a b then String.prefix p s else false.
Proof. done. Qed.

Lemma prefix_empty s : String.prefix "" s = true.
Proof. by destruct s. Qed.

Lemma is_in_unfold sub s :
  is_in sub s
  = if String.prefix sub s then true
    else match s with
         | EmptyString => false
         | String _ s' => is_in sub s'
         end.
Proof. by destruct s. Qed.

Lemma substring_all s : substring 0 (String.length s) s = s.
Proof. induction s as [|c s IH]; simpl; [done|]. by rewrite IH. Qed.

Lemma slice_index_succ len i :
  (0 ≤ i)%Z → slice_index (S len) (i + 1) = S (slice_index len i).
Proof.
  intros Hi. unfold slice_index.
  destruct (Z.ltb_spec (i + 1) 0), (Z.ltb_spec i 0); lia.
Qed.

Lemma slice_to_cons c s i :
  (0 ≤ i)%Z → slice_to (String c s) (i + 1) = String c (slice_to s i).
Proof.
  intros Hi. unfold slice_to.
  change (String.length (String c s)) with (S (String.length s)).
  by rewrite slice_index_succ.
Qed.

Lemma slice_from_cons c s i :
  (0 ≤ i)%Z → slice_from (String c s) (i + 1) = slice_from s i.
Proof.
  intros Hi. unfold slice_from.
  change (String.length (String c s)) with (S (String.length s)).
  by rewrite slice_index_succ.
Qed.

Lemma slice_from_0 s : slice_from s 0 = s.
Proof. unfold slice_from, slice_index. simpl. rewrite Nat.sub_0_r. apply substring_all. Qed.

Lemma rfind_dot_range s : (-1 ≤ rfind s ".")%Z.
Proof.
  induction s as [|c s IH]; [done|]. cbn [rfind].
  destruct (Z.eqb_spec (rfind s ".") (-1)); [|lia].
  destruct (String.prefix "." (String c s)); lia.
Qed.

Lemma rfind_dot_none s : rfind s "." = (-1)%Z ↔ is_in "." s = false.
Proof.
  induction s as [|c s IH]; [done|].
  rewrite is_in_unfold. cbn [rfind].
  pose proof (rfind_dot_range s) as Hrange.
  destruct (Z.eqb_spec (rfind s ".") (-1)) as [Hnone|Hsome].
  - destruct (String.prefix "." (String c s)); [split; [lia|discriminate]|].
    rewrite <- IH. tauto.
  - destruct (String.prefix "." (String c s)); [split; [lia|discriminate]|].
    rewrite <- IH. split; [lia|done].
Qed.

Lemma prefix_dot c s : String.prefix "." (String c s) = true → c = "."%char.
Proof. intros [rest Hrest]%prefix_spec. by injection Hrest. Qed.

(** Cutting at the last dot: the two slices of [_deserialize]. *)
Lemma slices_at_last_dot s :
  is_in "." s = true →
  s = slice_to s (rfind s ".") +:+ "." +:+ slice_from s (rfind s "." + 1)
  ∧ is_in "." (slice_from s (rfind s "." + 1)) = false.
Proof.
  induction s as [|c s IH]; [done|].
  intros Hin. cbn [rfind].
  pose proof (rfind_dot_range s) as Hrange.
  destruct (Z.eqb_spec (rfind s ".") (-1)) as [Hnone|Hsome].
  - rewrite is_in_unfold in Hin.
    destruct (String.prefix "." (String c s)) eqn:Hdot.
    + apply prefix_dot in Hdot as ->.
      rewrite slice_from_cons, slice_from_0 by lia.
      split; [done|]. by apply rfind_dot_none.
    + apply rfind_dot_none in Hnone. congruence.
  - assert (Hs : is_in "." s = true).
    { destruct (is_in "." s) eqn:Hs; [done|]. by apply rfind_dot_none in Hs. }
    destruct (IH Hs) as [Hcut Hobject].
    rewrite slice_to_cons, slice_from_cons by lia.
    split; [|done].
    change (String c s
            = String c (slice_to s (rfind s ".") +:+ "."
                          +:+ slice_from s (rfind s "." + 1))).
    by rewrite <- Hcut.
Qed.

Lemma append_nil_r s : s +:+ "" = s.
Proof.
  induction s as [|c s IH]; [done|].
  change (String c (s +:+ "") = String c s). by rewrite IH.
Qed.

Lemma append_app_assoc a b c : (a +:+ b) +:+ c = a +:+ (b +:+ c).
Proof.
  induction a as [|x a IH]; [done|].
  change (String x ((a +:+ b) +:+ c) = String x (a +:+ (b +:+ c))). by rewrite IH.
Qed.

Lemma is_in_prefix sub s : is_in sub s = false → String.prefix sub s = false.
Proof. rewrite is_in_unfold. by destruct (String.prefix sub s). Qed.

Lemma is_in_app sub a b : is_in sub (a +:+ sub +:+ b) = true.
Proof.
  induction a as [|c a IH].
  - rewrite is_in_unfold.
    assert (Hprefix : String.prefix sub ("" +:+ sub +:+ b) = true)
      by (apply prefix_spec; by exists b).
    by rewrite Hprefix.
  - change (is_in sub (String c (a +:+ sub +:+ b)) = true).
    rewrite is_in_unfold, IH. by destruct (String.prefix _ _).
Qed.

Lemma split_from_cons sep c s skip part :
  split_from sep (String c s) skip part
  = match skip with
    | S skip' => split_from sep s skip' part
    | O =>
        if String.prefix sep (String c s)
        then part :: split_from sep s (String.length sep - 1) ""
        else split_from sep s 0 (part +:+ String c "")
    end.
Proof. done. Qed.

Lemma split_from_not_nil sep s skip part : split_from sep s skip part ≠ [].
Proof.
  revert skip part. induction s as [|c s IH]; intros skip part; [done|].
  rewrite split_from_cons. destruct skip; [|apply IH].
  destruct (String.prefix sep (String c s)); [done|apply IH].
Qed.

(** The first two characters decide whether a string starts with [::]. *)
Lemma prefix_colons_app c s rest :
  s ≠ "" → String.prefix "::" (String c (s +:+ rest)) = String.prefix "::" (String c s).
Proof.
  intros Hs. destruct s as [|d s]; [done|].
  change (String d s +:+ rest) with (String d (s +:+ rest)).
  rewrite !prefix_cons, !prefix_empty. done.
Qed.

(** No [::] in [s]: one part. *)
Lemma split_one s part x :
  split_from "::" s 0 part = [x] ↔ x = part +:+ s ∧ is_in "::" s = false.
Proof.
  revert part. induction s as [|c s IH]; intros part.
  - simpl. rewrite append_nil_r. split; [by intros [= ->]|by intros [-> _]].
  - rewrite split_from_cons, is_in_unfold.
    destruct (String.prefix "::" (String c s)) eqn:Hprefix.
    + split; [|by intros [_ [=]]]. intros [= _ Hrest].
      by apply split_from_not_nil in Hrest.
    + rewrite IH, append_app_assoc. done.
Qed.

(** One [::] in [s]: two parts, and the [::] is the first one. *)
Lemma split_two s part p o :
  split_from "::" s 0 part = [p; o]
  ↔ ∃ p', p = part +:+ p' ∧ s = p' +:+ "::" +:+ o
          ∧ is_in "::" (p' +:+ ":") = false ∧ is_in "::" o = false.
Proof.
  revert part. induction s as [|c s IH]; intros part.
  - split; [done|]. intros (p' & _ & Hs & _). by destruct p'.
  - rewrite split_from_cons.
    destruct (String.prefix "::" (String c s)) eqn:Hprefix.
    + apply prefix_spec in Hprefix as [rest Hrest].
      injection Hrest as -> ->.
      change (split_from "::" (":" +:+ rest) (String.length "::" - 1) "")
        with (split_from "::" rest 0 "").
      split.
      * intros [= -> Hrest]. apply split_one in Hrest as [-> Hrest].
        exists "". rewrite (append_nil_r p). repeat split; done.
      * intros (p' & -> & Hs & Hp' & Ho). destruct p' as [|d p'].
        -- injection Hs as Hs. change (rest = o) in Hs. subst o.
           rewrite (append_nil_r part). f_equal. by apply split_one.
        -- change (String ":" (":" +:+ rest) = String d (p' +:+ "::" +:+ o)) in Hs.
           injection Hs as <- Hs. rewrite is_in_unfold in Hp'.
           destruct p' as [|d' p'].
           ++ vm_compute in Hp'. discriminate Hp'.
           ++ change (String ":" rest = String d' (p' +:+ "::" +:+ o)) in Hs.
              injection Hs as <- _.
              change (String ":" (String ":" p') +:+ ":")
                with (String ":" (String ":" (p' +:+ ":"))) in Hp'.
              rewrite !prefix_cons, prefix_empty in Hp'.
              destruct (ascii_dec ":" ":"); [discriminate Hp'|done].
    + rewrite IH. split.
      * intros (p' & -> & -> & Hp' & Ho). exists (String c p').
        rewrite append_app_assoc. split; [done|]. split; [done|]. split; [|done].
        rewrite is_in_unfold.
        change (String c p' +:+ ":") with (String c (p' +:+ ":")).
        destruct p' as [|d p'].
        -- change (String.prefix "::" (String c (String ":" (String ":" o))) = false)
             in Hprefix.
           change ((if String.prefix "::" (String c ":") then true
                    else is_in "::" ":") = false).
           rewrite !prefix_cons in *. destruct (ascii_dec ":" c); [|done].
           destruct (ascii_dec ":" ":"); [|done].
           by rewrite prefix_empty in Hprefix.
        -- rewrite (prefix_colons_app c (String d p') ("::" +:+ o)) in Hprefix by done.
           rewrite <- (prefix_colons_app c (String d p') ":") in Hprefix by done.
           by rewrite Hprefix.
      * intros (q & -> & Hs & Hq & Ho). destruct q as [|d q].
        -- rewrite Hs in Hprefix.
           change (String.prefix "::" (String ":" (String ":" o)) = false) in Hprefix.
           rewrite !prefix_cons, prefix_empty in Hprefix.
           by destruct (ascii_dec ":" ":").
        -- injection Hs as <- ->. exists q. rewrite append_app_assoc.
           split; [done|]. split; [done|]. split; [|done].
           rewrite is_in_unfold in Hq.
           by destruct (String.prefix "::" (String c q +:+ ":")).
Qed.

Section Facts.

Context {S : SpecTypes} {P : Pathlib}.

Import ImportableSource.

(** X17: a source without [::] that has a dot is cut at its last dot: the
    module name, a dot and the object name make up the source again, and
    the object name has no dot. *)
Theorem import_is_cut_at_last_dot self source_str :
  is_in "::" source_str = false →
  is_in "." source_str = true →
  ∃ module_name object_name,
    _deserialize self source_str
    = Ok (Some (Importable_Module module_name object_name))
    ∧ source_str = module_name +:+ "." +:+ object_name
    ∧ is_in "." object_name = false.
Proof.
  intros Hcolons Hdot. unfold _deserialize, _is_import. rewrite Hcolons. simpl.
  eexists _, _. split; [reflexivity|]. by apply slices_at_last_dot.
Qed.

(** X18: a source without [::] and without a dot gives itself as the
    object name, and as the module name itself without its last
    character. *)
Theorem import_without_dot self source_str :
  is_in "::" source_str = false →
  is_in "." source_str = false →
  _deserialize self source_str
  = Ok (Some (Importable_Module
                (substring 0 (String.length source_str - 1) source_str)
                source_str)).
Proof.
  intros Hcolons Hdot. unfold _deserialize, _is_import. rewrite Hcolons. simpl.
  apply rfind_dot_none in Hdot. rewrite Hdot. simpl. rewrite slice_from_0.
  do 3 f_equal. unfold slice_to, slice_index. simpl. f_equal. lia.
Qed.


(** X20: a field that is bound to a schema whose context has a path, or
    nothing, for [spec_path] reads a relative module path and an object
    name with [::] between them, where [::] occurs nowhere else, back as
    they are. *)
Theorem path_round_trip self module_path object_name :
  has_spec_path self →
  startswith module_path "/" = false →
  is_in "::" (module_path +:+ ":") = false →
  is_in "::" object_name = false →
  _deserialize self (module_path +:+ "::" +:+ object_name)
  = Ok (Some (Importable_Path module_path object_name)).
Proof.
  intros (context & path & Hcontext & Hspec) Hslash Hpath Hobject.
  unfold _deserialize, _is_import, _is_filepath.
  assert (Hcolons : is_in "::" (module_path +:+ "::" +:+ object_name) = true).
  { apply is_in_app. }
  rewrite Hcolons. simpl.
  assert (Hrelative : startswith (module_path +:+ "::" +:+ object_name) "/" = false).
  { destruct module_path as [|c p]; [reflexivity|]. unfold startswith in *.
    change (String c p +:+ "::" +:+ object_name)
      with (String c (p +:+ "::" +:+ object_name)).
    rewrite prefix_cons, prefix_empty in *. exact Hslash. }
  rewrite Hrelative.
  assert (Hsplit : split (module_path +:+ "::" +:+ object_name) "::"
                   = [module_path; object_name]).
  { apply split_two. by exists module_path. }
  rewrite Hsplit, Hcontext. unfold mbind, result_bind. simpl. by rewrite Hspec.
Qed.

End Facts.

(** X21: [Axes._deserialize] accepts exactly the strings whose characters are
    among [b], [c], [z], [y] and [x], the empty string and strings with a
    repeated axis among them, and returns an accepted string as it is;
    every other string is a [PyBioValidationException]. *)
Theorem axes_accepted_iff_valid axes_str :
  (Axes._deserialize axes_str = Ok axes_str
   ↔ Forall (fun a => a ∈ list_ascii_of_string "bczyx")
            (list_ascii_of_string axes_str))
  ∧ (Axes._deserialize axes_str = Ok axes_str
     ∨ Axes._deserialize axes_str
       = Raise (PyBioValidationException "Invalid axes! Valid axes are: bczyx")).
Proof.
  assert (Hvalid : ∀ a, is_in (String a "") Axes.valid_axes = true
                        ↔ a ∈ list_ascii_of_string "bczyx").
  { intros a. unfold Axes.valid_axes. simpl. rewrite !elem_of_cons, elem_of_nil.
    repeat match goal with
           | |- context [ascii_dec a ?c] => destruct (ascii_dec a c) as [->|?]
           end; try tauto; try (split; [done|intuition congruence]). }
  unfold Axes._deserialize.
  destruct (existsb _ (list_ascii_of_string axes_str)) eqn:Hany.
  - split; [|by right]. split; [done|]. intros Hall.
    apply existsb_exists in Hany as (a & Hin & Ha).
    apply list_elem_of_In in Hin. rewrite Forall_forall in Hall.
    apply Hall, Hvalid in Hin. by rewrite Hin in Ha.
  - split; [|by left]. split; [|done]. intros _. apply Forall_forall.
    intros a Hin. apply Hvalid. apply list_elem_of_In in Hin.
    destruct (is_in (String a "") Axes.valid_axes) eqn:Ha; [done|].
    assert (Hex : existsb (fun a => negb (is_in (String a "") Axes.valid_axes))
                          (list_ascii_of_string axes_str) = true).
    { apply existsb_exists. exists a. by rewrite Ha. }
    congruence.
Qed.

Import FieldsExample.

Lemma import_is_cut_at_last_dot_witness :
  ∃ module_name object_name,
    ImportableSource._deserialize unbound_field "pybio.torch.transformations.Sigmoid"
    = Ok (Some (FromModule module_name object_name))
    ∧ "pybio.torch.transformations.Sigmoid" = module_name +:+ "." +:+ object_name
    ∧ is_in "." object_name = false.
Proof.
  apply (import_is_cut_at_last_dot (S := spec_types) (P := pathlib) unbound_field
           "pybio.torch.transformations.Sigmoid"); reflexivity.
Defined.

Lemma import_without_dot_witness :
  ImportableSource._deserialize unbound_field "Sigmoid"
  = Ok (Some (FromModule "Sigmoi" "Sigmoid")).
Proof.
  apply (import_without_dot (S := spec_types) (P := pathlib) unbound_field "Sigmoid");
    reflexivity.
Defined.


Lemma path_round_trip_witness :
  ImportableSource._deserialize bound_field ("models/unet.py" +:+ "::" +:+ "UNet2d")
  = Ok (Some (FromPath "models/unet.py" "UNet2d")).
Proof.
  apply (path_round_trip (S := spec_types) (P := pathlib) bound_field
           "models/unet.py" "UNet2d"); try reflexivity.
  by exists [("spec_path", PathLike "specs/unet.model.yaml")], "specs/unet.model.yaml".
Defined.

End FieldsFacts.

(** ** Packaging a resource *)

Module IOPackageFacts.
Import IO IOPackage.

Section Facts.

Context {T : Types} {E : Env} {PT : PackageTypes} {PE : PackageEnv}.

Lemma M_bind_inv {St A B} (m : M St A) (k : A -> M St B) s r s' :
  (m ≫= k) s = (r, s') →
  (∃ e, m s = (Raise e, s') ∧ r = Raise e)
  ∨ (∃ a s1, m s = (Ok a, s1) ∧ k a s1 = (r, s')).
Proof.
  unfold mbind, M_bind. destruct (m s) as [[a|e] s1].
  - intros Hk. right. by exists a, s1.
  - intros [= <- <-]. left. by exists e.
Qed.

Lemma M_bind_eq {St A B} (m : M St A) (k : A -> M St B) s :
  (m ≫= k) s
  = match m s with
    | (Ok a, s') => k a s'
    | (Raise e, s') => (Raise e, s')
    end.
Proof. done. Qed.

Lemma foldlM_cons_eq {St A B} (f : B -> A -> M St B) b x xs s :
  foldlM f b (x :: xs) s
  = match f b x s with
    | (Ok b', s') => foldlM f b' xs s'
    | (Raise e, s') => (Raise e, s')
    end.
Proof. done. Qed.

Lemma dict_set_fresh {V} (d : Dict V) k v :
  k ∉ d.*1 → dict_set d k v = d ++ [(k, v)].
Proof.
  induction d as [|[k' v'] d IH]; [done|]. simpl. intros Hfresh.
  destruct (String.eqb_spec k' k) as [->|Hne].
  - destruct Hfresh. by left.
  - rewrite IH; [done|]. intros Hin. apply Hfresh. by right.
Qed.

Lemma local_items_cons root item (package_content : Dict PackageValue) w :
  local_items root (item :: package_content) w
  = match local_value root (snd item) w with
    | (Ok v, w1) =>
        match local_items root package_content w1 with
        | (Ok locals, w2) => (Ok ((fst item, v) :: locals), w2)
        | (Raise e, w2) => (Raise e, w2)
        end
    | (Raise e, w1) => (Raise e, w1)
    end.
Proof.
  unfold local_items.
  change (mapM ?f (item :: package_content))
    with (f item ≫= fun y => mapM f package_content ≫= fun k => mret (y :: k)).
  unfold mbind, M_bind.
  destruct (local_value root (snd item) w) as [[v|e] w1]; [|done]. simpl.
  match goal with
  | |- (let (_, _) := ?x in _) = _ => by destruct x as [[locals|e] w2]
  end.
Qed.

(** The loop of [prepare_resource_package] over items with distinct names
    that are not in the dict yet. *)
Lemma localize_items root (package_content : Dict PackageValue) :
  ∀ (acc : Dict Value) w,
    NoDup package_content.*1 →
    (∀ k, k ∈ package_content.*1 → k ∉ acc.*1) →
    foldlM (fun (local_package_content : Dict Value) '(k, v) =>
              v ← local_value root v;
              mret (dict_set local_package_content k v))
           acc package_content w
    = match local_items root package_content w with
      | (Ok locals, w') => (Ok (acc ++ locals), w')
      | (Raise e, w') => (Raise e, w')
      end.
Proof.
  induction package_content as [|[k v] rest IH]; intros acc w Hnodup Hfresh.
  - simpl. by rewrite app_nil_r.
  - rewrite local_items_cons, foldlM_cons_eq, M_bind_eq. cbn [fst snd].
    destruct (local_value root v w) as [[v'|e] w1]; [|done].
    unfold mret, M_ret.
    apply NoDup_cons in Hnodup as [Hk Hnodup].
    rewrite dict_set_fresh by (apply Hfresh; by left).
    rewrite IH; [|done|].
    + destruct (local_items root rest w1) as [[locals|e] w2]; [|done].
      by rewrite <- app_assoc.
    + intros k' Hin. rewrite fmap_app. intros [Hacc|Hkk']%elem_of_app.
      * apply (Hfresh k'); [by right|done].
      * apply list_elem_of_singleton in Hkk'. simpl in Hkk'. by subst k'.
Qed.

Lemma local_items_localized root (package_content : Dict PackageValue) :
  ∀ w local w',
    local_items root package_content w = (Ok local, w') →
    Forall2 localized package_content local.
Proof.
  induction package_content as [|[k v] rest IH]; intros w local w'.
  - intros [= <- _]. constructor.
  - rewrite local_items_cons. simpl.
    destruct (local_value root v w) as [[v'|e] w1] eqn:Hv; [|done].
    destruct (local_items root rest w1) as [[locals|e] w2] eqn:Hrest; [|done].
    intros [= <- _]. constructor; [|by eapply IH].
    split; [done|]. simpl. destruct v as [content|source].
    + by injection Hv as <- _.
    + unfold local_value in Hv.
      apply M_bind_inv in Hv as [(e & _ & [=])|(file & w3 & _ & [= <- _])].
      by exists file.
Qed.

Lemma prepare_valid rdf_source weights_priority_order w rd root w0 package_content w1 :
  (match rdf_source with
   | FromDescription rd =>
       let '(root, file_name) := validation_context rd in
       mret (rd, root)
   | FromFileSource source =>
       rdf ← download_rdf source None "utf-8";
       rd ← load_description (content rdf) (rdf_root rdf) (rdf_file_name rdf);
       mret (rd, rdf_root rdf)
   end) w = (Ok (Valid rd, root), w0) →
  get_resource_package_content rd weights_priority_order w0
  = (Ok package_content, w1) →
  NoDup package_content.*1 →
  prepare_resource_package rdf_source weights_priority_order w
  = local_items root package_content w1.
Proof.
  intros Hrd Hcontent Hnodup. unfold prepare_resource_package.
  rewrite M_bind_eq, Hrd, M_bind_eq, Hcontent.
  rewrite localize_items; [|done|].
  - by destruct (local_items root package_content w1) as [[locals|e] w2].
  - intros k _ Hin. by apply elem_of_nil in Hin.
Qed.

Lemma write_zip_unfold path content compression compression_level s :
  write_zip path content compression compression_level s
  = match ZipFile path compression compression_level (world s) with
    | (Raise e, w) =>
        (Raise e, mkSt w (calls s ++ [Open path compression compression_level]))
    | (Ok myzip, w) =>
        let '(r, s1) :=
          foldlM (fun _ item => write_item myzip item) tt content
                 (mkSt w (calls s ++ [Open path compression compression_level])) in
        match close myzip (world s1) with
        | (Ok _, w') => (r, mkSt w' (calls s1 ++ [Close]))
        | (Raise e, w') => (Raise e, mkSt w' (calls s1 ++ [Close]))
        end
    end.
Proof.
  unfold write_zip, with_zip, mbind, M_bind, zip_call.
  destruct (ZipFile path compression compression_level (world s)) as [[myzip|e] w];
    [|done].
  destruct (foldlM _ tt content _) as [r s1]. simpl.
  by destruct (close myzip (world s1)) as [[[]|e] w'].
Qed.

(** The loop of [write_zip] on an archive that does not depend on the
    world. *)
Lemma write_items_written myzip ws wf cl (content : Dict Value) s :
  plain_archive myzip ws wf cl →
  foldlM (fun _ item => write_item myzip item) tt content s
  = (snd (written ws wf content),
     mkSt (world s) (calls s ++ fst (written ws wf content))).
Proof.
  intros (Hws & Hwf & _). revert s.
  induction content as [|[arc_name file] content IH]; intros s.
  - simpl. rewrite app_nil_r. by destruct s.
  - rewrite foldlM_cons_eq.
    destruct file as [text|file|file]; unfold write_item, mbind, M_bind, zip_call, lift;
      simpl.
    + rewrite Hws. destruct (ws arc_name text) as [[]|e]; simpl; [|done].
      rewrite IH. simpl. by rewrite <- app_assoc.
    + rewrite Hwf. destruct (wf (VPath file) arc_name) as [[]|e]; simpl; [|done].
      rewrite IH. simpl. by rewrite <- app_assoc.
    + rewrite app_nil_r. by destruct s.
Qed.

(** The loop of [write_zip] over content that holds a dict raises. *)
Lemma write_items_raise myzip (content : Dict Value) arc_name file :
  (arc_name, VDict file) ∈ content →
  ∀ s, ∃ e, fst (foldlM (fun _ item => write_item myzip item) tt content s) = Raise e.
Proof.
  induction content as [|item content IH]; [by intros ?%elem_of_nil|].
  intros Hin s. rewrite foldlM_cons_eq.
  destruct (write_item myzip item s) as [[[]|e] s1] eqn:Hitem; [|by exists e].
  apply elem_of_cons in Hin as [<-|Hin]; [|by apply IH].
  unfold write_item, mbind, M_bind, lift in Hitem. discriminate Hitem.
Qed.

(** X22: the calls that [write_zip] makes on an archive that it could open
    and that does not depend on the world: the items of the content are
    written one by one in their order, each under its own name, a string
    as text and a path as a file, up to the first item whose writing
    raises; a dict is such an item, as its dump raises before anything is
    written for it.  Then the archive is closed, also after a failure, and
    [write_zip] raises what the loop raised, unless closing raises. *)
Theorem write_zip_calls path content compression compression_level s myzip w ws wf cl :
  ZipFile path compression compression_level (world s) = (Ok myzip, w) →
  plain_archive myzip ws wf cl →
  write_zip path content compression compression_level s
  = (match cl with
     | Ok _ => snd (written ws wf content)
     | Raise e => Raise e
     end,
     mkSt w (calls s ++ Open path compression compression_level
                     :: fst (written ws wf content) ++ [Close])).
Proof.
  intros Hopen Harchive. rewrite write_zip_unfold, Hopen.
  rewrite (write_items_written myzip ws wf cl) by done. simpl.
  destruct Harchive as (_ & _ & Hcl). rewrite Hcl.
  rewrite <- !app_assoc. by destruct cl as [[]|e].
Qed.

(** X23: what [prepare_resource_package] does for a valid description whose
    package content has distinct file names: it goes through the items of
    that content in their order and returns them with their names; the
    content of an RDF is kept as it is, and the source of a file is
    resolved against the root of the description and replaced by the path
    of the file; the first source that cannot be resolved ends the call.
    The description is the one given, or the one loaded from the file
    source given. *)
Theorem prepare_resource_package_keeps_names weights_priority_order rd
        package_content w1 w2 :
  get_resource_package_content rd weights_priority_order w1
  = (Ok package_content, w2) →
  NoDup package_content.*1 →
  prepare_resource_package (FromDescription (Valid rd)) weights_priority_order w1
  = local_items (fst (validation_context (Valid rd))) package_content w2
  ∧ (∀ source w rdf w0,
        download_rdf source None "utf-8" w = (Ok rdf, w0) →
        load_description (content rdf) (rdf_root rdf) (rdf_file_name rdf) w0
        = (Ok (Valid rd), w1) →
        prepare_resource_package (FromFileSource source) weights_priority_order w
        = local_items (rdf_root rdf) package_content w2)
  ∧ (∀ root local w3,
        local_items root package_content w2 = (Ok local, w3) →
        Forall2 localized package_content local).
Proof.
  intros Hcontent Hnodup. split; [|split].
  - apply (prepare_valid _ _ w1 rd _ w1 package_content w2); [|done|done].
    by destruct (validation_context (Valid rd)).
  - intros source w rdf w0 Hrdf Hload.
    apply (prepare_valid _ _ w rd _ w1 package_content w2); [|done|done].
    unfold mbind, M_bind. by rewrite Hrdf, Hload.
  - intros root local w3. apply local_items_localized.
Qed.

(** X24: [write_package] prepares the content before it touches an
    archive: when [prepare_resource_package] raises, no call on an archive
    is made.  And it does not return for content that holds a dict, as the
    content of a package does for its RDF: the dump of the dict raises
    while the archive is written. *)
Theorem write_package_never_returns_with_rdf
        rdf_source compression compression_level output_path
        weights_priority_order s :
  (∀ e w',
      prepare_resource_package rdf_source weights_priority_order (world s)
      = (Raise e, w') →
      write_package rdf_source compression compression_level output_path
                    weights_priority_order s
      = (Raise e, mkSt w' (calls s)))
  ∧ (∀ content w1 arc_name file,
        prepare_resource_package rdf_source weights_priority_order (world s)
        = (Ok content, w1) →
        (arc_name, VDict file) ∈ content →
        ∃ e s',
          write_package rdf_source compression compression_level output_path
                        weights_priority_order s
          = (Raise e, s')).
Proof.
  split.
  - intros e w' Hprepare. unfold write_package, mbind, M_bind, outside.
    by rewrite Hprepare.
  - intros content w1 arc_name file Hprepare Hin.
    unfold write_package. rewrite M_bind_eq. unfold outside at 1.
    rewrite Hprepare, M_bind_eq.
    destruct (match output_path with
              | Some p => mret p
              | None => outside temporary_file
              end (mkSt w1 (calls s))) as [[p|e] s1]; [|by eexists _, _].
    rewrite M_bind_eq, write_zip_unfold.
    destruct (ZipFile p compression compression_level (world s1)) as [[myzip|e] w2];
      [|by eexists _, _].
    destruct (write_items_raise myzip content arc_name file Hin
                (mkSt w2 (calls s1 ++ [Open p compression compression_level])))
      as [e He].
    destruct (foldlM _ tt content _) as [r s2]. simpl in He. subst r.
    destruct (close myzip (world s2)) as [[[]|e'] w3]; by eexists _, _.
Qed.

End Facts.

Import IOExample IOPackageExample.

(** The weights are written, the dump of the RDF raises, and the readme
    after it is not written. *)
Lemma write_zip_calls_witness :
  write_zip (PE := example_package_env) "unet.zip" weights_first
            8 1 closed
  = (Raise (Exn (OtherException "AttributeError")
                "'dict' object has no attribute '_context_manager'" []),
     weights_only_archive).
Proof.
  apply (write_zip_calls (PE := example_package_env)
           "unet.zip" weights_first 8 1 closed "unet.zip" (world closed)
           (fun _ _ => Ok tt) (fun _ _ => Ok tt) (Ok tt)).
  - reflexivity.
  - by repeat split.
Defined.

Lemma prepare_resource_package_keeps_names_witness :
  prepare_resource_package (E := example_env) (PE := example_package_env)
                           unet_source None (world closed)
  = (Ok unet_content, world closed)
  ∧ Forall2 localized unet_package unet_content.
Proof.
  destruct (prepare_resource_package_keeps_names (E := example_env)
              (PE := example_package_env) None "unet" unet_package
              (world closed) (world closed) eq_refl)
    as (Hprepare & _ & Hlocal).
  { by apply (bool_decide_unpack _). }
  split; [exact Hprepare|]. by apply (Hlocal "." unet_content (world closed)).
Defined.

Lemma write_package_never_returns_with_rdf_witness :
  ∃ e s',
    write_package (E := example_env) (PE := example_package_env) unet_source 8 1
                  None None closed
    = (Raise e, s').
Proof.
  apply (proj2 (write_package_never_returns_with_rdf (E := example_env)
                  (PE := example_package_env) unet_source 8 1 None None closed)
               unet_content (world closed) "rdf.yaml" [("type", YStr "model")]).
  - reflexivity.
  - by left.
Defined.

End IOPackageFacts.

(** ** The converter to ONNX *)

Module OnnxConverterFacts.
Import OnnxConverter.

Section Facts.

Context {T : Types} {E : Env}.

Lemma call_warnings {A} (f : World -> result A * World) s :
  warnings (snd (call f s)) = warnings s.
Proof. unfold call. by destruct (f (world s)). Qed.

Lemma bind_warnings {A B} (m : M St A) (k : A -> M St B) :
  (∀ s, warnings (snd (m s)) = warnings s) →
  (∀ a s, warnings (snd (k a s)) = warnings s) →
  ∀ s, warnings (snd ((m ≫= k) s)) = warnings s.
Proof.
  intros Hm Hk s. unfold mbind, M_bind. specialize (Hm s).
  destruct (m s) as [[a|e] s1]; simpl in *; [|done]. by rewrite Hk.
Qed.

Lemma mapM_call_warnings {A B} (f : A -> World -> result B * World) (l : list A) :
  ∀ s, warnings (snd (mapM (fun x => call (f x)) l s)) = warnings s.
Proof.
  induction l as [|x l IH]; intros s; [done|].
  change (mapM (fun x => call (f x)) (x :: l))
    with (call (f x) ≫= fun y => mapM (fun x => call (f x)) l ≫= fun k => mret (y :: k)).
  apply bind_warnings; [apply call_warnings|]. intros y s1.
  apply bind_warnings; [apply IH|done].
Qed.

(** The statements up to the export issue no warning. *)
Lemma export_weights_warnings model_spec output_path use_tracing verbose opset_version s :
  warnings (snd (export_weights model_spec output_path use_tracing verbose
                                opset_version s))
  = warnings s.
Proof.
  unfold export_weights. apply bind_warnings.
  - intros s0. destruct model_spec as [path|model_spec]; [|done].
    apply bind_warnings; [apply call_warnings|]. by intros [repr|class_name|loaded] s1.
  - intros spec s0. destruct (pytorch_state_dict_of spec) as [descr|]; [|done].
    apply bind_warnings.
    { intros s1. destruct spec; apply mapM_call_warnings. }
    intros downloaded s1. apply bind_warnings; [apply mapM_call_warnings|].
    intros input_data s2. apply bind_warnings; [apply call_warnings|].
    intros model s3. apply bind_warnings; [apply call_warnings|].
    intros expected s4. apply bind_warnings; [|done].
    intros s5. destruct use_tracing; [|done].
    apply bind_warnings; [|intros; apply call_warnings].
    intros s6. destruct (Nat.ltb 1 _); [done|]. by destruct (map from_numpy input_data).
Qed.

Lemma bind_raises {A B} (m : M St A) (k : A -> M St B) :
  (∀ a s, ∃ e, fst (k a s) = Raise e) →
  ∀ s, ∃ e, fst ((m ≫= k) s) = Raise e.
Proof.
  intros Hk s. unfold mbind, M_bind.
  destruct (m s) as [[a|e] s1]; [apply Hk|by exists e].
Qed.

(** Without tracing the export raises. *)
Lemma export_weights_without_tracing model_spec output_path verbose opset_version s :
  ∃ e, fst (export_weights model_spec output_path false verbose opset_version s)
       = Raise e.
Proof.
  unfold export_weights. apply bind_raises. intros spec s0.
  destruct (pytorch_state_dict_of spec) as [descr|]; [|by eexists].
  apply bind_raises. intros downloaded s1.
  apply bind_raises. intros input_data s2.
  apply bind_raises. intros model s3.
  apply bind_raises. intros expected s4.
  by eexists.
Qed.

(** The loop of [check_outputs] for a comparison that is a function. *)
Lemma compare_all cmp decimal (pairs : list (Array * Array)) s :
  pure_comparison cmp →
  foldlM (fun _ '(exp, out) => call (assert_array_almost_equal exp out decimal))
         tt pairs s
  = (match first_mismatch cmp decimal pairs with
     | None => Ok tt
     | Some e => Raise e
     end, s).
Proof.
  intros Hpure. induction pairs as [|[exp out] pairs IH]; [done|].
  cbn [foldlM first_mismatch]. unfold mbind, M_bind, call at 1.
  rewrite Hpure. destruct s as [w ws]. simpl.
  destruct (cmp exp out decimal) as [[]|e]; [|done]. exact IH.
Qed.

(** X25: what [add_onnx_weights] returns when the weights were exported
    and the session ran, for a comparison that is a function: the expected
    outputs and the outputs of the session are compared pair by pair, as far
    as the shorter of the two lists goes, up to the first pair that the
    comparison rejects.  Without such a pair the result is 0, also when the
    session gave fewer outputs than expected, or none.  If the comparison
    rejects with an [AssertionError], the result is 1 after one warning
    with the message of that exception; another exception is raised. *)
Theorem add_onnx_weights_result
        cmp model_spec output_path use_tracing test_decimal verbose opset_version
        s input_data expected_outputs s1 rt w2 sess w3 outputs w4 :
  pure_comparison cmp →
  export_weights model_spec output_path use_tracing verbose opset_version s
  = (Ok (input_data, expected_outputs), s1) →
  import_onnxruntime (world s1) = (Ok rt, w2) →
  InferenceSession rt output_path w2 = (Ok sess, w3) →
  run sess (dict_of_pairs (zip (get_inputs sess) input_data)) w3 = (Ok outputs, w4) →
  add_onnx_weights model_spec output_path use_tracing test_decimal verbose
                   opset_version s
  = match first_mismatch cmp test_decimal (zip expected_outputs outputs) with
    | None => (Ok (Some 0%Z), mkSt w4 (warnings s1))
    | Some e =>
        if decide (exn_cls e = AssertionError)
        then (Ok (Some 1%Z), mkSt w4 (warnings s1 ++ [disagreement_warning e]))
        else (Raise e, mkSt w4 (warnings s1))
    end.
Proof.
  intros Hpure Hexport Himport Hsession Hrun.
  unfold add_onnx_weights, mbind at 1, M_bind at 1. rewrite Hexport.
  unfold try_except_class at 1, mbind at 1, M_bind at 1, mbind at 1, M_bind at 1, call at 1.
  rewrite Himport. simpl.
  unfold mbind at 1, M_bind at 1, call at 1. simpl. rewrite Hsession.
  unfold mbind at 1, M_bind at 1, call at 1. simpl. rewrite Hrun.
  unfold check_outputs, try_except_class, mbind, M_bind.
  rewrite (compare_all cmp) by done.
  destruct (first_mismatch cmp test_decimal (zip expected_outputs outputs)) as [e|];
    [|done].
  by destruct (decide (exn_cls e = AssertionError)).
Qed.

(** X26: scripting is not implemented: with [use_tracing=False]
    [add_onnx_weights] never returns, whatever the model is, and it issues
    no warning. *)
Theorem add_onnx_weights_without_tracing
        model_spec output_path test_decimal verbose opset_version s :
  ∃ e s',
    add_onnx_weights model_spec output_path false test_decimal verbose
                     opset_version s
    = (Raise e, s')
    ∧ warnings s' = warnings s.
Proof.
  unfold add_onnx_weights, mbind at 1, M_bind at 1.
  destruct (export_weights_without_tracing model_spec output_path verbose
              opset_version s) as [e He].
  pose proof (export_weights_warnings model_spec output_path false verbose
                opset_version s) as Hwarnings.
  destruct (export_weights model_spec output_path false verbose opset_version s)
    as [r s']. simpl in *. subst r. by exists e, s'.
Qed.

End Facts.

Import OnnxConverterExample.

(** The exported session of the example doubles its input as the model
    does: the result is 0. *)
Lemma add_onnx_weights_result_witness :
  add_onnx_weights (E := example_env) unet "unet.onnx" true 4 false None quiet
  = (Ok (Some 0%Z), quiet).
Proof.
  exact (add_onnx_weights_result (T := types) (E := example_env) example_cmp
           unet "unet.onnx" true 4 false None quiet
           [[1; 2]%Z] [[2; 4]%Z] quiet tt tt "unet.onnx" tt [[2; 4]%Z] tt
           (fun _ _ _ _ => eq_refl) eq_refl eq_refl eq_refl eq_refl).
Defined.

End OnnxConverterFacts.
